(** * lograptor: the rule engine (application.py) and the matcher (matcher.py)

    A shallow embedding of [lograptor/application.py] and
    [lograptor/matcher.py].  Python objects become records, mutable
    attributes become explicit state passing, exceptions become the
    [Raise] branch of [Result].  Whatever the two files import but do
    not define (the [re] module, [int], [time.mktime], the helpers of
    [utils], the format parsers, the thread caches, the name cache) is a
    field of a class of external collaborators. *)

From Stdlib Require Import ZArith String Ascii List Bool Lia.
From stdpp Require Import base option list gmap strings.
Import ListNotations.
Local Open Scope string_scope.
Local Open Scope list_scope.
Local Open Scope Z_scope.

(** ** Exceptions and the error monad *)

Inductive ConfigError :=
| EmptyRule (name : string)           (* 'empty rule %r' *)
| IllegalRegex (name : string)        (* "illegal regex pattern for app'rule: %r" *)
| GidsSetEmpty                        (* "rule gids set empty!" *)
| NoDefinedRules (app : string).      (* "the app %r has no defined rules!" *)

Inductive PyExc :=
| LogRaptorConfigError (e : ConfigError)
| KeyError
| IndexError
| ValueError
| TypeError
| AttributeError
| UnboundLocalError.

Inductive Result (A : Type) :=
| Ok (a : A)
| Raise (e : PyExc).
Arguments Ok {A} a.
Arguments Raise {A} e.

Definition bind {A B} (m : Result A) (k : A -> Result B) : Result B :=
  match m with
  | Ok a => k a
  | Raise e => Raise e
  end.

Notation "'do' x <- m ; k" := (bind m (fun x => k))
  (at level 10, x pattern, m at level 100, k at level 200).

Definition of_option {A} (e : PyExc) (o : option A) : Result A :=
  match o with
  | Some a => Ok a
  | None => Raise e
  end.

Fixpoint mapM {A B} (f : A -> Result B) (l : list A) : Result (list B) :=
  match l with
  | [] => Ok []
  | x :: l' => do y <- f x; do ys <- mapM f l'; Ok (y :: ys)
  end.

(** What the report functions of a rule raise: a built-in exception,
    or the [sre_constants.error] of a [re.compile] that they do not
    catch. *)
Inductive Raised :=
| Builtin (e : PyExc)
| RegexpCompileError.

Inductive Try (A : Type) :=
| Returned (a : A)
| Failed (e : Raised).
Arguments Returned {A} a.
Arguments Failed {A} e.

Definition builtin {A} (r : Result A) : Try A :=
  match r with
  | Ok a => Returned a
  | Raise e => Failed (Builtin e)
  end.

(** ** Python containers *)

Module Py.

  (** [l.index(x)]: the first position of [x]; [None] stands for ValueError. *)
Fixpoint index (x : string) (l : list string) : option nat :=
  match l with
  | [] => None
  | y :: l' => if String.eqb y x then Some O else option_map S (index x l')
  end.

Section Dict.
Context {K V : Type} `{EqDecision K}.

(** A dict keeps its keys in insertion order. *)
Fixpoint dict_get (k : K) (d : list (K * V)) : option V :=
  match d with
  | [] => None
  | (k', v) :: d' => if decide (k' = k) then Some v else dict_get k d'
  end.

(** [d[k] = v]: an existing key keeps its place, a new one goes last. *)
Fixpoint dict_set (k : K) (v : V) (d : list (K * V)) : list (K * V) :=
  match d with
  | [] => [(k, v)]
  | (k', v') :: d' =>
      if decide (k' = k) then (k', v) :: d' else (k', v') :: dict_set k v d'
  end.

Definition dict_keys (d : list (K * V)) : list K := map fst d.
End Dict.

(** [sorted(l)] is stable: an element goes before the first one that is
    not smaller than it, so equal elements keep their order. *)
Fixpoint insert_sorted {A} (lt : A -> A -> bool) (x : A) (l : list A) : list A :=
  match l with
  | [] => [x]
  | y :: l' => if lt y x then y :: insert_sorted lt x l' else x :: y :: l'
  end.

Definition sorted {A} (lt : A -> A -> bool) (l : list A) : list A :=
  fold_right (insert_sorted lt) [] l.

(** [sorted(l, reverse=True)] keeps equal elements in their order too. *)
Definition sorted_reverse {A} (lt : A -> A -> bool) (l : list A) : list A :=
  rev (sorted lt (rev l)).

(** [a < b] on [str] values (code point order); on [None] Python 3
    raises TypeError, which the callers test before sorting. *)
Definition field_lt (a b : option string) : bool :=
  match a, b with
  | Some x, Some y => String.ltb x y
  | _, _ => false
  end.

(** Lists of strings compare lexicographically. *)
Fixpoint list_lt (a b : list string) : bool :=
  match a, b with
  | [], [] => false
  | [], _ :: _ => true
  | _ :: _, [] => false
  | x :: a', y :: b' =>
      if String.eqb x y then list_lt a' b' else String.ltb x y
  end.

Definition is_None {A} (o : option A) : bool :=
  match o with
  | None => true
  | Some _ => false
  end.

Definition is_Some {A} (o : option A) : bool := negb (is_None o).

End Py.

(** ** Regular expressions, options, events *)

(** A match object, read through [match.group(gid)]: the captured text,
    or [None] for a group that took no part in the match. *)
Definition Match := string -> option string.

(** A compiled pattern: [groupindex] lists the named groups in the order
    of the pattern (the keys of a dict), [search] is [regexp.search]. *)
Record Regexp := {
  groupindex : list string;
  search : string -> option Match
}.

(** A filter group of [args.filters]: a dict from field name to pattern. *)
Definition FilterGroup := list (string * string).

(** A report object; [self._report] is tested for truth and its [name]
    selects the subreports. *)
Record Report := { report_name : string }.

(** The command line options the two files read ([obj.args]). *)
Module Args.
Record t := {
  filters : list FilterGroup;
  thread : bool;
  unparsed : bool;
  quiet : bool;
  count : bool;
  max_count : option Z;
  use_rules : bool;
  invert : bool;
  line_number : bool;
  report : option Report;
  (** [timerange.between], when the option is given. *)
  timerange : option (string -> bool)
}.
End Args.

(** The named tuple a format parser builds from a line.  [None] in
    [year] and [repeat] says that the tuple has no such attribute, in
    [host] and [apptag] also that the attribute is null. *)
Module LogData.
Record t := {
  host : option string;
  apptag : option string;
  month : string;
  day : string;
  ltime : string;
  year : option string;
  message : string;
  repeat : option string
}.
End LogData.

(** A result key: the values of a rule's [key_gids], host first. *)
Definition Key := list (option string).

(** The imports of the two files. *)
Class Externals := {
  (** [re.compile(pattern)]; [None] is [sre_constants.error]. *)
  re_compile : string -> option Regexp;
  (** [int(s)]; [None] is ValueError. *)
  py_int : string -> option Z;
  (** [string.Template(pattern).safe_substitute(fields)]. *)
  safe_substitute : string -> list (string * string) -> string;
  (** [utils.exact_sub(pattern, filter_group)]: the pattern with the
      filter fields put in, and the keys that were. *)
  exact_sub : string -> FilterGroup -> string * list string;
  (** [time.mktime((year, month, day, hour, minute, second, 0, 0, isdst))],
      in whole seconds. *)
  mktime : Z -> Z -> Z -> Z -> Z -> Z -> Z -> Z
}.

(** [int(x)] on a key component: [None] is not a number. *)
Definition int_of_field `{Externals} (x : option string) : Result Z :=
  match x with
  | None => Raise TypeError
  | Some s => of_option ValueError (py_int s)
  end.

(** [re.search] of the pattern of a condition on the condition of a
    report item (line 159: a word, [!=] or [==], a text in double
    quotes): the groups 1, 2 and 3 of the match, [None] when the
    condition has no such part. *)
Class Conditions := {
  search_cond : string -> option (string * string * string)
}.

(** ** class AppRule *)

Module AppRule.

Record t := {
  name : string;
  regexp : Regexp;
  args : Args.t;
  filter_keys : list string;
  full_match : bool;
  used_by_report : bool;
  results : list (Key * Z);
  key_gids : list string;
  _last_idx : option Key
}.

Definition set_full_match (b : bool) (r : t) : t :=
  {| name := name r; regexp := regexp r; args := args r;
     filter_keys := filter_keys r; full_match := b;
     used_by_report := used_by_report r; results := results r;
     key_gids := key_gids r; _last_idx := _last_idx r |}.

Definition set_used_by_report (b : bool) (r : t) : t :=
  {| name := name r; regexp := regexp r; args := args r;
     filter_keys := filter_keys r; full_match := full_match r;
     used_by_report := b; results := results r;
     key_gids := key_gids r; _last_idx := _last_idx r |}.

Definition set_results (res : list (Key * Z)) (idx : option Key) (r : t) : t :=
  {| name := name r; regexp := regexp r; args := args r;
     filter_keys := filter_keys r; full_match := full_match r;
     used_by_report := used_by_report r; results := res;
     key_gids := key_gids r; _last_idx := idx |}.

(** Lines 94-98: ['host'] and then every other group of the pattern. *)
Definition make_key_gids (re : Regexp) : list string :=
  "host" :: List.filter (fun gid => negb (String.eqb gid "host")) (groupindex re).

(** Lines 87-103 of [__init__], once the pattern is compiled and the
    key gids are collected. *)
Definition init_compiled (name : string) (re : Regexp) (args : Args.t)
    (filter_keys : option (list string)) (key_gids : list string) : Result t :=
  match key_gids with
  | [] => Raise (LogRaptorConfigError GidsSetEmpty)
  | _ :: _ =>
      Ok {| name := name; regexp := re; args := args;
            filter_keys := default [] filter_keys;       (* filter_keys or [] *)
            full_match := Py.is_Some filter_keys;         (* filter_keys is not None *)
            used_by_report := false;
            results := [];
            key_gids := key_gids;
            _last_idx := None |}
  end.

(** [AppRule.__init__(name, pattern, args, filter_keys=None)]. *)
Definition init `{Externals} (name pattern : string) (args : Args.t)
    (filter_keys : option (list string)) : Result t :=
  if String.eqb pattern "" then Raise (LogRaptorConfigError (EmptyRule name))
  else
    match re_compile pattern with
    | None => Raise (LogRaptorConfigError (IllegalRegex name))
    | Some re => init_compiled name re args filter_keys (make_key_gids re)
    end.

(** [values[gid]]: KeyError on a missing key. *)
Definition value_of (values : gmap string (option string)) (gid : string)
    : Result (option string) :=
  of_option KeyError (values !! gid).

(** [add_result(values)]. *)
Definition add_result (values : gmap string (option string)) (r : t) : Result t :=
  do h <- value_of values "host";
  do rest <- mapM (value_of values) (tail (key_gids r));
  let idx := h :: rest in
  let n := match Py.dict_get idx (results r) with
           | Some c => c + 1
           | None => 1
           end in
  Ok (set_results (Py.dict_set idx n (results r)) (Some idx) r).

(** [increase_last(k)]; [self.results[idx] += k] raises KeyError on a
    key the table does not hold. *)
Definition increase_last (k : Z) (r : t) : Result t :=
  match _last_idx r with
  | None => Ok r
  | Some idx =>
      do c <- of_option KeyError (Py.dict_get idx (results r));
      Ok (set_results (Py.dict_set idx (c + k) (results r)) (Some idx) r)
  end.

(** [is_used()]: [True or ...]. *)
Definition is_used (r : t) : bool :=
  true
  || (Nat.eqb (length (Args.filters (args r))) 0
      || negb (Nat.eqb (length (filter_keys r)) 0)
      || (Args.thread (args r) && bool_decide ("thread" ∈ groupindex (regexp r)))
      || used_by_report r || Args.unparsed (args r)).

(** *** top_events *)

(** A rank slot [[tot, [value, ...]]]. *)
Definition Slot := (Z * list (option string))%type.

(** The loop of [classify()] over [j in range(num)], walking [top]
    from slot [j] on. *)
Fixpoint classify_from (n : nat) (tot : Z) (value : option string)
    (top : list (option Slot)) : Result (list (option Slot)) :=
  match n with
  | O => Ok top
  | S n' =>
      match top with
      | [] => Raise IndexError
      | None :: rest => Ok (Some (tot, [value]) :: rest)
      | Some (t0, vs) :: rest =>
          if (tot =? t0)%Z then Ok (Some (t0, vs ++ [value]) :: rest)
          else if (t0 <? tot)%Z then Ok (Some (tot, [value]) :: Some (t0, vs) :: rest)
          else do rest' <- classify_from n' tot value rest;
               Ok (Some (t0, vs) :: rest')
      end
  end.

Definition classify (num : nat) (value : option string) (tot : Z)
    (top : list (option Slot)) : Result (list (option Slot)) :=
  match value with
  | None => Ok top
  | Some _ => classify_from num tot value top
  end.

(** [key[i]] on a result key. *)
Definition component (key : Key) (i : nat) : Result (option string) :=
  of_option IndexError (key !! i).

(** [results[key]] or [results[key] * int(key[val])]. *)
Definition weight `{Externals} (results : list (Key * Z)) (val : option nat)
    (key : Key) : Result Z :=
  do c <- of_option KeyError (Py.dict_get key results);
  match val with
  | None => Ok c
  | Some v => do x <- component key v; do i <- int_of_field x; Ok (c * i)
  end.

(** [sorted(results.keys(), key=lambda x: x[pos])].  Python 3 orders
    neither [None] and a string nor [None] and [None]: with two keys or
    more, one null component raises TypeError. *)
Definition sorted_by_field (pos : nat) (keys : list Key) : Result (list Key) :=
  do fields <- mapM (fun key => component key pos) keys;
  if (2 <=? length keys)%nat && existsb Py.is_None fields then Raise TypeError
  else Ok (Py.sorted (fun a b => Py.field_lt (default None (a !! pos))
                                             (default None (b !! pos))) keys).

(** [(int(x[val]), x[pos])] for the ranking by maximum. *)
Definition max_key `{Externals} (val pos : nat) (key : Key)
    : Result (Z * option string * Key) :=
  do x <- component key val;
  do i <- int_of_field x;
  do p <- component key pos;
  Ok (i, p, key).

Definition max_key_lt (a b : Z * option string * Key) : bool :=
  let '(i, p, _) := a in
  let '(j, q, _) := b in
  (i <? j)%Z || ((i =? j)%Z && Py.field_lt p q).

(** Two sort keys that Python 3 cannot order: equal numbers, different
    components, one of them [None]. *)
Definition unordered (a b : Z * option string * Key) : bool :=
  let '(i, p, _) := a in
  let '(j, q, _) := b in
  (i =? j)%Z && negb (bool_decide (p = q)) && (Py.is_None p || Py.is_None q).

(** The main loop of lines 216-226 over the sorted keys, with the
    locals [value], [tot] and [top]. *)
Fixpoint group_totals `{Externals} (num : nat) (results : list (Key * Z))
    (pos : nat) (val : option nat) (keys : list Key)
    (value : option string) (tot : Z) (top : list (option Slot))
    : Result (list (option Slot)) :=
  match keys with
  | [] => classify num value tot top                      (* for ... else *)
  | key :: keys' =>
      do p <- component key pos;
      do w <- weight results val key;
      if Py.is_None value || negb (bool_decide (value = p)) then
        do top' <- classify num value tot top;
        group_totals num results pos val keys' p w top'
      else
        group_totals num results pos val keys' value (tot + w) top
  end.

(** [top_events(num, valfld, usemax, gid)]. *)
Definition top_events `{Externals} (num : nat) (valfld : option string)
    (usemax : bool) (gid : string) (r : t) : Result (list Slot) :=
  match results r with
  | [] => Ok []
  | _ :: _ =>
      let top := replicate num (@None Slot) in
      do pos <- of_option ValueError (Py.index gid (key_gids r));
      do val <- match valfld with
                | None => Ok None
                | Some f => do v <- of_option ValueError (Py.index f (key_gids r));
                            Ok (Some v)
                end;
      match val with
      | Some v =>
          if usemax then
            do ks <- mapM (max_key v pos) (Py.dict_keys (results r));
            if existsb (fun a => existsb (unordered a) ks) ks then Raise TypeError
            else
              Ok (map (fun '(i, p, _) => (i, [p]))
                      (take num (Py.sorted_reverse max_key_lt ks)))
          else
            do keys <- sorted_by_field pos (Py.dict_keys (results r));
            do top' <- group_totals num (results r) pos val keys None 0 top;
            Ok (omap id (take num top'))
      | None =>
          do keys <- sorted_by_field pos (Py.dict_keys (results r));
          do top' <- group_totals num (results r) pos val keys None 0 top;
          Ok (omap id (take num top'))
      end
  end.

(** *** total_events *)

(** Lines 159-162 (and 265-268): the condition [gid=="pattern"] or
    [gid!="pattern"], as its position among the key gids, whether it
    is negated, and its compiled pattern. *)
Definition compile_cond `{Externals} `{Conditions} (cond : string) (r : t)
    : Try (nat * bool * Regexp) :=
  match search_cond cond with
  | None => Failed (Builtin AttributeError)           (* match.group on None *)
  | Some (gid, op, pattern) =>
      match Py.index gid (key_gids r) with
      | None => Failed (Builtin ValueError)
      | Some condpos =>
          match re_compile pattern with
          | None => Failed RegexpCompileError
          | Some recond => Returned (condpos, String.eqb op "!=", recond)
          end
      end
  end.

(** [match = recond.search(key[condpos])] and the test of line 167;
    [search] on [None] raises TypeError. *)
Definition satisfies (recond : Regexp) (invert : bool) (condpos : nat) (key : Key)
    : Result bool :=
  do x <- component key condpos;
  match x with
  | None => Raise TypeError
  | Some text =>
      let m := search recond text in
      Ok ((negb invert && Py.is_Some m) || (invert && Py.is_None m))
  end.

(** The loop of lines 154-157, with the local [tot]. *)
Fixpoint sum_weights `{Externals} (results : list (Key * Z)) (val : option nat)
    (keys : list Key) (tot : Z) : Result Z :=
  match keys with
  | [] => Ok tot
  | key :: keys' =>
      do w <- weight results val key;
      sum_weights results val keys' (tot + w)
  end.

(** The loop of lines 164-172. *)
Fixpoint sum_selected `{Externals} (results : list (Key * Z)) (val : option nat)
    (recond : Regexp) (invert : bool) (condpos : nat)
    (keys : list Key) (tot : Z) : Result Z :=
  match keys with
  | [] => Ok tot
  | key :: keys' =>
      do selected <- satisfies recond invert condpos key;
      if selected then
        do w <- weight results val key;
        sum_selected results val recond invert condpos keys' (tot + w)
      else sum_selected results val recond invert condpos keys' tot
  end.

(** [total_events(cond, valfld=None)]. *)
Definition total_events `{Externals} `{Conditions} (cond : string)
    (valfld : option string) (r : t) : Try Z :=
  if String.eqb cond "*" && Py.is_None valfld then
    Returned (fold_left Z.add (map snd (results r)) 0)        (* sum(results.values()) *)
  else
    match (match valfld with
           | None => Ok None
           | Some f => do v <- of_option ValueError (Py.index f (key_gids r));
                       Ok (Some v)
           end) with
    | Raise e => Failed (Builtin e)
    | Ok val =>
        if String.eqb cond "*" then
          builtin (sum_weights (results r) val (Py.dict_keys (results r)) 0)
        else
          match compile_cond cond r with
          | Failed e => Failed e
          | Returned (condpos, invert, recond) =>
              builtin (sum_selected (results r) val recond invert condpos
                         (Py.dict_keys (results r)) 0)
          end
    end.

End AppRule.

(** ** class AppLogParser *)

(** The anonymisation collaborator [name_cache], as [process] uses it. *)
Record NameCache := {
  match_to_dict : Match -> list string -> gmap string (option string);
  map_value : option string -> string -> option string;
  match_to_string : Match -> list string -> gmap string (option string) -> string
}.

(** [map_dict = {'host': ..., 'message': ...}]. *)
Record MapDict := {
  md_host : option string;
  md_message : string
}.

(** What [process] returns: (rule_match, full_match, app_thread, map_dict). *)
Definition Outcome := (bool * option bool * option string * option MapDict)%type.

Definition no_match : Outcome := (false, None, None, None).

(** [value.replace('\n', '')]. *)
Fixpoint strip_newlines (s : string) : string :=
  match s with
  | EmptyString => EmptyString
  | String c s' =>
      if Ascii.eqb c "010"%char then strip_newlines s'
      else String c (strip_newlines s')
  end.

Module AppLogParser.

  (** The attributes that the rule engine reads and writes.  A reference
      to a rule object ([_last_rule]) is the position of the rule in
      [rules]. *)
Record t := {
  name : string;
  args : Args.t;
  name_cache : option NameCache;
  fields : list (string * string);
  _report : option Report;
  _thread : bool;
  counter : Z;
  unparsed_counter : Z;
  _last_rule : option nat;
  rules : list AppRule.t;
  has_filters : bool
}.

Definition set_counter (c : Z) (a : t) : t :=
  {| name := name a; args := args a; name_cache := name_cache a;
     fields := fields a; _report := _report a; _thread := _thread a;
     counter := c; unparsed_counter := unparsed_counter a;
     _last_rule := _last_rule a; rules := rules a;
     has_filters := has_filters a |}.

Definition set_unparsed_counter (c : Z) (a : t) : t :=
  {| name := name a; args := args a; name_cache := name_cache a;
     fields := fields a; _report := _report a; _thread := _thread a;
     counter := counter a; unparsed_counter := c;
     _last_rule := _last_rule a; rules := rules a;
     has_filters := has_filters a |}.

Definition set_last_rule (l : option nat) (a : t) : t :=
  {| name := name a; args := args a; name_cache := name_cache a;
     fields := fields a; _report := _report a; _thread := _thread a;
     counter := counter a; unparsed_counter := unparsed_counter a;
     _last_rule := l; rules := rules a;
     has_filters := has_filters a |}.

Definition set_rules (rs : list AppRule.t) (a : t) : t :=
  {| name := name a; args := args a; name_cache := name_cache a;
     fields := fields a; _report := _report a; _thread := _thread a;
     counter := counter a; unparsed_counter := unparsed_counter a;
     _last_rule := _last_rule a; rules := rs;
     has_filters := has_filters a |}.

(** *** Construction *)

(** The loop over [self.args.filters] in [parse_rules], for one option. *)
Fixpoint rules_of_groups `{Externals} (args : Args.t) (thread : bool)
    (fields : list (string * string)) (option pattern : string)
    (groups : list FilterGroup) : Result (list AppRule.t) :=
  match groups with
  | [] => Ok []
  | filter_group :: groups' =>
      let '(_pattern, filter_keys) := exact_sub pattern filter_group in
      let _pattern := safe_substitute _pattern fields in
      do here <-
        (if (length filter_group <=? length filter_keys)%nat then
           do r <- AppRule.init option _pattern args (Some filter_keys); Ok [r]
         else if thread then
           do r <- AppRule.init option _pattern args None; Ok [r]
         else Ok []);
      do rest <- rules_of_groups args thread fields option pattern groups';
      Ok (here ++ rest)
  end.

(** [parse_rules()]; [rule_options = None] is the NoSectionError of
    [appconfig.items('rules')]. *)
Fixpoint rules_of_options `{Externals} (args : Args.t) (thread : bool)
    (fields : list (string * string)) (rule_options : list (string * string))
    : Result (list AppRule.t) :=
  match rule_options with
  | [] => Ok []
  | (option, value) :: rest =>
      let pattern := strip_newlines value in
      do here <-
        (match Args.filters args with
         | [] =>
             do r <- AppRule.init option (safe_substitute pattern fields) args None;
             Ok [r]
         | _ :: _ => rules_of_groups args thread fields option pattern (Args.filters args)
         end);
      do more <- rules_of_options args thread fields rest;
      Ok (here ++ more)
  end.

Definition parse_rules `{Externals} (name : string) (args : Args.t) (thread : bool)
    (fields : list (string * string))
    (rule_options : option (list (string * string))) : Result (list AppRule.t) :=
  match rule_options with
  | None => Raise (LogRaptorConfigError (NoDefinedRules name))
  | Some opts => rules_of_options args thread fields opts
  end.

(** The report items of [get_report_data()] mark the rules they read;
    [report_rules] holds the names of those rules. *)
Definition mark_report_rules (report_rules : list string) (rs : list AppRule.t)
    : list AppRule.t :=
  map (fun r => if bool_decide (AppRule.name r ∈ report_rules)
                then AppRule.set_used_by_report true r else r) rs.

(** Lines 367-378: purge, [has_filters], and either the reordering or
    the promotion of every rule to a full match. *)
Definition arrange_rules (rs : list AppRule.t) : bool * list AppRule.t :=
  let rs := List.filter AppRule.is_used rs in
  let has_filters :=
    existsb (fun r => negb (Nat.eqb (length (AppRule.filter_keys r)) 0)) rs in
  if has_filters then
    (true, Py.sorted (fun a b => Py.list_lt (AppRule.filter_keys a)
                                            (AppRule.filter_keys b)) rs)
  else
    (false, map (AppRule.set_full_match true) rs).

(** [AppLogParser.__init__], as far as the rules go. *)
Definition init `{Externals} (name : string) (args : Args.t)
    (name_cache : option NameCache) (report : option Report)
    (fields : list (string * string))
    (rule_options : option (list (string * string)))
    (report_rules : list string) : Result t :=
  do rs <- parse_rules name args (Args.thread args) fields rule_options;
  let rs := match report with
            | Some _ => mark_report_rules report_rules rs
            | None => rs
            end in
  let '(has_filters, rs) := arrange_rules rs in
  Ok {| name := name; args := args; name_cache := name_cache;
        fields := fields; _report := report; _thread := Args.thread args;
        counter := 0; unparsed_counter := 0; _last_rule := None;
        rules := rs; has_filters := has_filters |}.

(** [filters]: the rules with filter keys. *)
Definition filter_rules (a : t) : list AppRule.t :=
  List.filter (fun r => negb (Nat.eqb (length (AppRule.filter_keys r)) 0)) (rules a).

(** *** increase_last *)

Definition increase_last (k : Z) (a : t) : Result t :=
  match _last_rule a with
  | None => Ok a
  | Some i =>
      match rules a !! i with
      | None => Ok a
      | Some rule =>
          do rule' <- AppRule.increase_last k rule;
          Ok (set_rules (<[i := rule']> (rules a)) a)
      end
  end.

(** *** process *)

(** Lines 456-467: the dict of values and the map dict. *)
Definition make_values (name_cache : option NameCache) (rule : AppRule.t)
    (m : Match) (logdata : LogData.t)
    : gmap string (option string) * option MapDict :=
  let gids := groupindex (AppRule.regexp rule) in
  match name_cache with
  | Some nc =>
      let h := map_value nc (LogData.host logdata) "host" in
      let values := <["host" := h]> (match_to_dict nc m (AppRule.key_gids rule)) in
      (values,
       Some {| md_host := h; md_message := match_to_string nc m gids values |})
  | None =>
      (fold_left (fun values gid => <[gid := m gid]> values) gids
                 {["host" := LogData.host logdata]},
       None)
  end.

(** [any([values[key] is None for key in rule.filter_keys])]. *)
Definition any_null (values : gmap string (option string)) (keys : list string)
    : Result bool :=
  do vs <- mapM (AppRule.value_of values) keys;
  Ok (existsb Py.is_None vs).

(** The body of the loop of [process] for the rule at position [i]
    whose pattern matched. *)
Definition apply_rule (a : t) (i : nat) (rule : AppRule.t) (m : Match)
    (logdata : LogData.t) : Result (Outcome * t) :=
  let gids := groupindex (AppRule.regexp rule) in
  let a := set_last_rule (Some i) a in
  let '(values, map_dict) := make_values (name_cache a) rule m logdata in
  (* [rule.filter_keys is not None] holds of every rule: the attribute
     is [filter_keys or []]. *)
  let filter_keys_is_not_None := true in
  if _thread a && bool_decide ("thread" ∈ gids) then
    let thread := m "thread" in
    do null <- (if filter_keys_is_not_None
                then any_null values (AppRule.filter_keys rule) else Ok false);
    if null then Ok (no_match, a)
    else
      do rule' <- (if Py.is_Some (_report a)
                   then AppRule.add_result values rule else Ok rule);
      Ok ((true, Some (AppRule.full_match rule), thread, map_dict),
          set_rules (<[i := rule']> (rules a)) a)
  else
    do null <- (if filter_keys_is_not_None
                then any_null values (AppRule.filter_keys rule) else Ok false);
    if null then Ok (no_match, a)
    else
      do rule' <- (if Py.is_Some (_report a)
                      || (filter_keys_is_not_None || negb (has_filters a))
                   then AppRule.add_result values rule else Ok rule);
      Ok ((true, Some (AppRule.full_match rule), None, map_dict),
          set_rules (<[i := rule']> (rules a)) a).

(** [for rule in self.rules], from position [i] on, and the lines
    after the loop. *)
Fixpoint scan_rules (a : t) (logdata : LogData.t) (i : nat) (rs : list AppRule.t)
    : Result (Outcome * t) :=
  match rs with
  | [] =>
      let a := set_last_rule None a in
      let a := if has_filters a then a
               else set_unparsed_counter (unparsed_counter a + 1) a in
      Ok (no_match, a)
  | rule :: rs' =>
      match search (AppRule.regexp rule) (LogData.message logdata) with
      | Some m => apply_rule a i rule m logdata
      | None => scan_rules a logdata (S i) rs'
      end
  end.

Definition process (a : t) (logdata : LogData.t) : Result (Outcome * t) :=
  scan_rules a logdata 0 (rules a).

End AppLogParser.

(** ** matcher.py *)

(** A reference to an application object.  The name of the application
    stands for the object, so that [app] and [apps[app]] are the same
    application. *)
Definition AppRef := string.

(** What the dispatcher receives from [send_event]. *)
Inductive Event :=
| LineEvent (filename : string) (line_number : option Z) (log_data : LogData.t)
    (rawlog : string) (pattern_match : option Match)
| CountEvent (filename : string) (counter : Z).

(** The objects the matcher is handed: the format parsers and their
    cycle, the thread caches of the applications, the name cache. *)
Class Collaborators := {
  Parser : Type;
  LogMatch : Type;
  Parsers : Type;
  Cache : Type;
  Gids : Type;
  (** [log_parser.match(line)], [log_parser.get_data(log_match)] and
      [log_parser.app]. *)
  parser_match : Parser -> string -> option LogMatch;
  get_data : Parser -> LogMatch -> LogData.t;
  parser_app : Parser -> option AppRef;
  (** [next(parsers)] and [parsers.detect(line)]. *)
  next_parser : Parsers -> Parser * Parsers;
  detect : Parsers -> string -> option (Parser * LogMatch) * Parsers;
  (** [log_parser.parser.groupindex] and
      [log_parser.parser.groupindexheader_gids] ([None]: no such
      attribute). *)
  parser_groupindex : Parser -> Gids;
  parser_groupindexheader_gids : Parser -> option Gids;
  (** [name_cache.map2str(gids, log_match, map_dict)]. *)
  map2str : Gids -> LogMatch -> MapDict -> string;
  (** [cache.add_line(line, app_thread, pattern_match, full_match,
      event_time)]. *)
  add_line : Cache -> string -> option string -> option Match -> option bool -> Z
             -> Cache;
  (** [app.purge_threads(event_time)]. *)
  purge_threads : Cache -> Z -> Cache;
  (** [cache.flush_old_cache(event_time, send_selected, max_threads)] and
      [cache.flush_cache(...)]: the number of lines flushed, and what
      they sent out. *)
  flush_old_cache : Cache -> Z -> bool -> option Z -> Z * list Event * Cache;
  flush_cache : Cache -> Z -> bool -> option Z -> Z * list Event * Cache
}.

Module Matcher.

  (** Cleans the thread caches every time you process a certain number
      of lines. *)
Definition PURGE_THREADS_LIMIT : Z := 1000.

(** Map for month field from any admitted representation to numeric. *)
Definition MONTHMAP : list (string * string) :=
  [ ("Jan", "01"); ("Feb", "02"); ("Mar", "03"); ("Apr", "04"); ("May", "05");
    ("Jun", "06"); ("Jul", "07"); ("Aug", "08"); ("Sep", "09"); ("Oct", "10");
    ("Nov", "11"); ("Dec", "12");
    ("01", "01"); ("02", "02"); ("03", "03"); ("04", "04"); ("05", "05");
    ("06", "06"); ("07", "07"); ("08", "08"); ("09", "09"); ("10", "10");
    ("11", "11"); ("12", "12") ].

(** The [year] handed to [get_mktime]: the text of the event, or the
    number taken from the file. *)
Inductive Year :=
| YearText (s : string)
| YearNumber (z : Z).

Definition int_of_year `{Externals} (y : Year) : Result Z :=
  match y with
  | YearText s => of_option ValueError (py_int s)
  | YearNumber z => Ok z
  end.

(** [s[i:]]. *)
Definition string_from (i : nat) (s : string) : string :=
  substring i (String.length s - i) s.

Definition get_mktime `{Externals} (year : Year) (month day ltime : string)
    : Result Z :=
  do y <- int_of_year year;
  do mm <- of_option KeyError (Py.dict_get month MONTHMAP);
  do m <- of_option ValueError (py_int mm);
  do d <- of_option ValueError (py_int day);
  do hour <- of_option ValueError (py_int (substring 0 2 ltime));
  do minute <- of_option ValueError (py_int (substring 3 2 ltime));
  do second <- of_option ValueError (py_int (string_from 6 ltime));
  Ok (mktime y m d hour minute second (-1)).

(** An entry of [tagmap].  The map comes from the caller; lines
    142-152 call the methods of an application on an entry, lines
    232-245 take its length and iterate over it, so an entry is either
    kind of object and each use fails on the other kind. *)
Inductive TagEntry :=
| OneApp (a : AppRef)
| AppList (l : list AppRef).

(** [datetime.timetuple()]: year, month, day, hour, minute, second. *)
Definition DateTime := (Z * Z * Z * Z * Z * Z)%type.

(** The Lograptor instance [obj], as [create_matcher_engine] reads it
    (the applications and the channels are part of the running state). *)
Record Lograptor := {
  obj_args : Args.t;
  obj_name_cache : option NameCache;
  obj_tagmap : list (string * TagEntry);
  obj_hosts : list Regexp;
  obj_patterns : list Regexp;
  obj_initial_dt : option DateTime;
  obj_final_dt : option DateTime
}.

(** The variables that [process_logfile] closes over. *)
Record Engine := {
  name_cache : option NameCache;
  line_number : bool;
  tagmap : list (string * TagEntry);
  max_count : option Z;
  use_rules : bool;
  hosts : list Regexp;
  patterns : list Regexp;
  thread : bool;
  send_selected : bool;
  invert : bool;
  count : bool;
  match_unparsed : bool;
  make_report : bool;
  timerange : option (string -> bool);
  initial_dt : Z;
  final_dt : Z
}.

Definition mktime_of `{Externals} (dt : DateTime) : Z :=
  let '(y, mo, d, h, mi, sec) := dt in mktime y mo d h mi sec (-1).

Definition create_matcher_engine `{Externals} (obj : Lograptor) : Engine :=
  let a := obj_args obj in
  {| name_cache := obj_name_cache obj;
     line_number := Args.line_number a;
     tagmap := obj_tagmap obj;
     max_count := if Args.quiet a then Some 1 else Args.max_count a;
     use_rules := Args.use_rules a;
     hosts := obj_hosts obj;
     patterns := obj_patterns obj;
     thread := Args.thread a;
     send_selected := negb (Args.quiet a || Args.count a);
     invert := Args.invert a;
     count := Args.count a;
     match_unparsed := Args.unparsed a;
     make_report := Py.is_Some (Args.report a);
     timerange := Args.timerange a;
     initial_dt := match obj_initial_dt obj with
                   | Some dt => mktime_of dt
                   | None => 0
                   end;
     final_dt := match obj_final_dt obj with
                 | Some dt => mktime_of dt
                 | None => mktime 2222 2 2 0 0 0 0
                 end |}.

(** An open log file: its name, its lines, and its modification time
    with the year and the month that [datetime.fromtimestamp] reads
    from it. *)
Record LogFile := {
  logfile_name : string;
  lines : list string;
  st_mtime : Z;
  mtime_year : Z;
  mtime_month : Z
}.

(** The engine with another maximum of matches. *)
Definition with_max_count (m : option Z) (e : Engine) : Engine :=
  {| name_cache := name_cache e; line_number := line_number e;
     tagmap := tagmap e; max_count := m; use_rules := use_rules e;
     hosts := hosts e; patterns := patterns e; thread := thread e;
     send_selected := send_selected e; invert := invert e; count := count e;
     match_unparsed := match_unparsed e; make_report := make_report e;
     timerange := timerange e; initial_dt := initial_dt e;
     final_dt := final_dt e |}.

(** [if max_count and matching_counter >= max_count]. *)
Definition max_count_reached (max_count : option Z) (matching_counter : Z) : bool :=
  match max_count with
  | None => false
  | Some m => negb (m =? 0) && (m <=? matching_counter)
  end.

(** Line 165, the default of [getattr(log_data, 'year', ...)]. *)
Definition default_year (log_data : LogData.t) (file_year file_month prev_year : Z)
    : Z :=
  if negb (String.eqb (LogData.month log_data) "1") && (file_month =? 1)
  then prev_year else file_year.

Definition year_of (log_data : LogData.t) (file_year file_month prev_year : Z)
    : Year :=
  match LogData.year log_data with
  | Some y => YearText y
  | None => YearNumber (default_year log_data file_year file_month prev_year)
  end.

Section ProcessLogfile.
Context `{Externals} `{Collaborators}.

(** The state of a run: the objects shared with the caller
    ([parsers], [hostset], the applications and their caches, what was
    sent out) and the locals of [process_logfile].  [event_time =
    None] is the unbound local. *)
Record Loop := {
  parsers : Parsers;
  hostset : gset string;
  apps : gmap string AppLogParser.t;
  caches : gmap string Cache;
  sent : list Event;
  first_event : option Z;
  last_event : option Z;
  log_parser : Parser;
  prev_data : option LogData.t;
  app : option AppRef;
  app_thread : option string;
  matching_counter : Z;
  unparsed_counter : Z;
  full_match : option bool;
  extra_tags : gset string;
  line_counter : Z;
  event_time : option Z;
  pattern_match : option Match
}.

Definition set_parsers (x : Parsers) (s : Loop) : Loop :=
  {| parsers := x; hostset := hostset s; apps := apps s; caches := caches s;
     sent := sent s; first_event := first_event s; last_event := last_event s;
     log_parser := log_parser s; prev_data := prev_data s; app := app s;
     app_thread := app_thread s; matching_counter := matching_counter s;
     unparsed_counter := unparsed_counter s; full_match := full_match s;
     extra_tags := extra_tags s; line_counter := line_counter s;
     event_time := event_time s; pattern_match := pattern_match s |}.

Definition set_hostset (x : gset string) (s : Loop) : Loop :=
  {| parsers := parsers s; hostset := x; apps := apps s; caches := caches s;
     sent := sent s; first_event := first_event s; last_event := last_event s;
     log_parser := log_parser s; prev_data := prev_data s; app := app s;
     app_thread := app_thread s; matching_counter := matching_counter s;
     unparsed_counter := unparsed_counter s; full_match := full_match s;
     extra_tags := extra_tags s; line_counter := line_counter s;
     event_time := event_time s; pattern_match := pattern_match s |}.

Definition set_apps (x : gmap string AppLogParser.t) (s : Loop) : Loop :=
  {| parsers := parsers s; hostset := hostset s; apps := x; caches := caches s;
     sent := sent s; first_event := first_event s; last_event := last_event s;
     log_parser := log_parser s; prev_data := prev_data s; app := app s;
     app_thread := app_thread s; matching_counter := matching_counter s;
     unparsed_counter := unparsed_counter s; full_match := full_match s;
     extra_tags := extra_tags s; line_counter := line_counter s;
     event_time := event_time s; pattern_match := pattern_match s |}.

Definition set_caches (x : gmap string Cache) (s : Loop) : Loop :=
  {| parsers := parsers s; hostset := hostset s; apps := apps s; caches := x;
     sent := sent s; first_event := first_event s; last_event := last_event s;
     log_parser := log_parser s; prev_data := prev_data s; app := app s;
     app_thread := app_thread s; matching_counter := matching_counter s;
     unparsed_counter := unparsed_counter s; full_match := full_match s;
     extra_tags := extra_tags s; line_counter := line_counter s;
     event_time := event_time s; pattern_match := pattern_match s |}.

Definition set_sent (x : list Event) (s : Loop) : Loop :=
  {| parsers := parsers s; hostset := hostset s; apps := apps s; caches := caches s;
     sent := x; first_event := first_event s; last_event := last_event s;
     log_parser := log_parser s; prev_data := prev_data s; app := app s;
     app_thread := app_thread s; matching_counter := matching_counter s;
     unparsed_counter := unparsed_counter s; full_match := full_match s;
     extra_tags := extra_tags s; line_counter := line_counter s;
     event_time := event_time s; pattern_match := pattern_match s |}.

Definition set_first_event (x : option Z) (s : Loop) : Loop :=
  {| parsers := parsers s; hostset := hostset s; apps := apps s; caches := caches s;
     sent := sent s; first_event := x; last_event := last_event s;
     log_parser := log_parser s; prev_data := prev_data s; app := app s;
     app_thread := app_thread s; matching_counter := matching_counter s;
     unparsed_counter := unparsed_counter s; full_match := full_match s;
     extra_tags := extra_tags s; line_counter := line_counter s;
     event_time := event_time s; pattern_match := pattern_match s |}.

Definition set_last_event (x : option Z) (s : Loop) : Loop :=
  {| parsers := parsers s; hostset := hostset s; apps := apps s; caches := caches s;
     sent := sent s; first_event := first_event s; last_event := x;
     log_parser := log_parser s; prev_data := prev_data s; app := app s;
     app_thread := app_thread s; matching_counter := matching_counter s;
     unparsed_counter := unparsed_counter s; full_match := full_match s;
     extra_tags := extra_tags s; line_counter := line_counter s;
     event_time := event_time s; pattern_match := pattern_match s |}.

Definition set_log_parser (x : Parser) (s : Loop) : Loop :=
  {| parsers := parsers s; hostset := hostset s; apps := apps s; caches := caches s;
     sent := sent s; first_event := first_event s; last_event := last_event s;
     log_parser := x; prev_data := prev_data s; app := app s;
     app_thread := app_thread s; matching_counter := matching_counter s;
     unparsed_counter := unparsed_counter s; full_match := full_match s;
     extra_tags := extra_tags s; line_counter := line_counter s;
     event_time := event_time s; pattern_match := pattern_match s |}.

Definition set_prev_data (x : option LogData.t) (s : Loop) : Loop :=
  {| parsers := parsers s; hostset := hostset s; apps := apps s; caches := caches s;
     sent := sent s; first_event := first_event s; last_event := last_event s;
     log_parser := log_parser s; prev_data := x; app := app s;
     app_thread := app_thread s; matching_counter := matching_counter s;
     unparsed_counter := unparsed_counter s; full_match := full_match s;
     extra_tags := extra_tags s; line_counter := line_counter s;
     event_time := event_time s; pattern_match := pattern_match s |}.

Definition set_app (x : option AppRef) (s : Loop) : Loop :=
  {| parsers := parsers s; hostset := hostset s; apps := apps s; caches := caches s;
     sent := sent s; first_event := first_event s; last_event := last_event s;
     log_parser := log_parser s; prev_data := prev_data s; app := x;
     app_thread := app_thread s; matching_counter := matching_counter s;
     unparsed_counter := unparsed_counter s; full_match := full_match s;
     extra_tags := extra_tags s; line_counter := line_counter s;
     event_time := event_time s; pattern_match := pattern_match s |}.

Definition set_app_thread (x : option string) (s : Loop) : Loop :=
  {| parsers := parsers s; hostset := hostset s; apps := apps s; caches := caches s;
     sent := sent s; first_event := first_event s; last_event := last_event s;
     log_parser := log_parser s; prev_data := prev_data s; app := app s;
     app_thread := x; matching_counter := matching_counter s;
     unparsed_counter := unparsed_counter s; full_match := full_match s;
     extra_tags := extra_tags s; line_counter := line_counter s;
     event_time := event_time s; pattern_match := pattern_match s |}.

Definition set_matching_counter (x : Z) (s : Loop) : Loop :=
  {| parsers := parsers s; hostset := hostset s; apps := apps s; caches := caches s;
     sent := sent s; first_event := first_event s; last_event := last_event s;
     log_parser := log_parser s; prev_data := prev_data s; app := app s;
     app_thread := app_thread s; matching_counter := x;
     unparsed_counter := unparsed_counter s; full_match := full_match s;
     extra_tags := extra_tags s; line_counter := line_counter s;
     event_time := event_time s; pattern_match := pattern_match s |}.

Definition set_unparsed_counter (x : Z) (s : Loop) : Loop :=
  {| parsers := parsers s; hostset := hostset s; apps := apps s; caches := caches s;
     sent := sent s; first_event := first_event s; last_event := last_event s;
     log_parser := log_parser s; prev_data := prev_data s; app := app s;
     app_thread := app_thread s; matching_counter := matching_counter s;
     unparsed_counter := x; full_match := full_match s; extra_tags := extra_tags s;
     line_counter := line_counter s; event_time := event_time s;
     pattern_match := pattern_match s |}.

Definition set_full_match (x : option bool) (s : Loop) : Loop :=
  {| parsers := parsers s; hostset := hostset s; apps := apps s; caches := caches s;
     sent := sent s; first_event := first_event s; last_event := last_event s;
     log_parser := log_parser s; prev_data := prev_data s; app := app s;
     app_thread := app_thread s; matching_counter := matching_counter s;
     unparsed_counter := unparsed_counter s; full_match := x;
     extra_tags := extra_tags s; line_counter := line_counter s;
     event_time := event_time s; pattern_match := pattern_match s |}.

Definition set_extra_tags (x : gset string) (s : Loop) : Loop :=
  {| parsers := parsers s; hostset := hostset s; apps := apps s; caches := caches s;
     sent := sent s; first_event := first_event s; last_event := last_event s;
     log_parser := log_parser s; prev_data := prev_data s; app := app s;
     app_thread := app_thread s; matching_counter := matching_counter s;
     unparsed_counter := unparsed_counter s; full_match := full_match s;
     extra_tags := x; line_counter := line_counter s; event_time := event_time s;
     pattern_match := pattern_match s |}.

Definition set_line_counter (x : Z) (s : Loop) : Loop :=
  {| parsers := parsers s; hostset := hostset s; apps := apps s; caches := caches s;
     sent := sent s; first_event := first_event s; last_event := last_event s;
     log_parser := log_parser s; prev_data := prev_data s; app := app s;
     app_thread := app_thread s; matching_counter := matching_counter s;
     unparsed_counter := unparsed_counter s; full_match := full_match s;
     extra_tags := extra_tags s; line_counter := x; event_time := event_time s;
     pattern_match := pattern_match s |}.

Definition set_event_time (x : option Z) (s : Loop) : Loop :=
  {| parsers := parsers s; hostset := hostset s; apps := apps s; caches := caches s;
     sent := sent s; first_event := first_event s; last_event := last_event s;
     log_parser := log_parser s; prev_data := prev_data s; app := app s;
     app_thread := app_thread s; matching_counter := matching_counter s;
     unparsed_counter := unparsed_counter s; full_match := full_match s;
     extra_tags := extra_tags s; line_counter := line_counter s; event_time := x;
     pattern_match := pattern_match s |}.

Definition set_pattern_match (x : option Match) (s : Loop) : Loop :=
  {| parsers := parsers s; hostset := hostset s; apps := apps s; caches := caches s;
     sent := sent s; first_event := first_event s; last_event := last_event s;
     log_parser := log_parser s; prev_data := prev_data s; app := app s;
     app_thread := app_thread s; matching_counter := matching_counter s;
     unparsed_counter := unparsed_counter s; full_match := full_match s;
     extra_tags := extra_tags s; line_counter := line_counter s;
     event_time := event_time s; pattern_match := x |}.

Variable eng : Engine.
Variable logfile : LogFile.
Variable applist : list AppRef.

(** How the body of [for line in logfile] goes on. *)
Inductive Flow (A : Type) :=
| Next (a : A) (s : Loop)
| Continue (s : Loop)
| Break (s : Loop)
| Throw (e : PyExc).
Arguments Next {A} a s.
Arguments Continue {A} s.
Arguments Break {A} s.
Arguments Throw {A} e.

Definition and_then {A B} (m : Flow A) (k : A -> Loop -> Flow B) : Flow B :=
  match m with
  | Next a s => k a s
  | Continue s => Continue s
  | Break s => Break s
  | Throw e => Throw e
  end.

(** A call that may raise, inside the body. *)
Definition attempt {A B} (r : Result A) (k : A -> Flow B) : Flow B :=
  match r with
  | Ok a => k a
  | Raise e => Throw e
  end.

(** [apps[app]], and the object behind [app]. *)
Definition the_app (s : Loop) (a : AppRef) : Result AppLogParser.t :=
  of_option KeyError (apps s !! a).

Definition the_cache (s : Loop) (a : AppRef) : Result Cache :=
  of_option KeyError (caches s !! a).

Definition put_app (a : AppRef) (o : AppLogParser.t) (s : Loop) : Loop :=
  set_apps (<[a := o]> (apps s)) s.

(** [app.counter += 1]. *)
Definition count_line (a : AppRef) (s : Loop) : Result Loop :=
  do o <- the_app s a;
  Ok (put_app a (AppLogParser.set_counter (AppLogParser.counter o + 1) o) s).

(** [app.cache.add_line(line, app_thread, pattern_match, full_match,
    event_time)]. *)
Definition cache_line (a : AppRef) (line : string) (th : option string)
    (s : Loop) : Result Loop :=
  do c <- the_cache s a;
  do et <- of_option UnboundLocalError (event_time s);
  Ok (set_caches
        (<[a := add_line c line th (pattern_match s) (full_match s) et]> (caches s))
        s).

(** *** Lines 115-130: the format of the line *)

Definition parse_line (line : string) (s : Loop) : Flow (LogMatch * LogData.t) :=
  let s := set_line_counter (line_counter s + 1) s in
  match parser_match (log_parser s) line with
  | Some log_match => Next (log_match, get_data (log_parser s) log_match) s
  | None =>
      let '(found, ps) := detect (parsers s) line in
      let s := set_parsers ps s in
      match found with
      | Some (next_parser, log_match) =>
          Next (log_match, get_data next_parser log_match)
               (set_log_parser next_parser s)
      | None => Continue (set_unparsed_counter (unparsed_counter s + 1) s)
      end
  end.

(** *** Lines 132-159: 'last message repeated N times' *)

(** Lines 141-150: the entry of the previous line's tag, by an exact
    and then a partial match. *)
Definition previous_entry (apptag : option string) : Result TagEntry :=
  match apptag with
  | Some tag0 =>
      match Py.dict_get tag0 (tagmap eng) with
      | Some e => Ok e
      | None =>
          match List.find (fun '(tag, _) => String.prefix tag tag0) (tagmap eng) with
          | Some (_, e) => Ok e
          | None => Raise KeyError
          end
      end
  | None =>
      match tagmap eng with
      | [] => Raise KeyError
      | _ :: _ => Raise AttributeError        (* None.startswith *)
      end
  end.

(** [app.increase_last], [app.counter], [app.cache] on an entry: an
    application has them, a list has not. *)
Definition as_application (e : TagEntry) : Result AppRef :=
  match e with
  | OneApp a => Ok a
  | AppList _ => Raise AttributeError
  end.

Definition repeat_line (line : string) (log_data : LogData.t) (s : Loop)
    : Flow unit :=
  match LogData.repeat log_data with
  | Some rep =>
      match prev_data s with
      | Some prev =>
          attempt (of_option ValueError (py_int rep)) (fun repeat =>
          let s := if thread eng then s
                   else set_matching_counter (matching_counter s + repeat) s in
          if use_rules eng then
            attempt (previous_entry (LogData.apptag prev)) (fun entry =>
            attempt (as_application entry) (fun a =>
            let s := set_app (Some a) s in
            attempt (the_app s a) (fun o =>
            attempt (AppLogParser.increase_last repeat o) (fun o =>
            let s := put_app a o s in
            attempt (count_line a s) (fun s =>
            match app_thread s with
            | Some th =>
                attempt (cache_line a line (Some th) s) (fun s =>
                Continue (set_prev_data None s))
            | None => Continue (set_prev_data None s)
            end)))))
          else Continue (set_prev_data None s))
      | None =>
          match app s with
          | Some a => attempt (count_line a s) (fun s => Continue s)
          | None => Continue s
          end
      end
  | None => Next tt (set_prev_data (Some log_data) s)
  end.

(** *** Lines 161-188: the time of the event *)

Definition file_year : Z := mtime_year logfile.
Definition file_month : Z := mtime_month logfile.
Definition prev_year : Z := file_year - 1.

Definition check_time (log_data : LogData.t) (s : Loop) : Flow unit :=
  let year := year_of log_data file_year file_month prev_year in
  attempt (get_mktime year (LogData.month log_data) (LogData.day log_data)
                      (LogData.ltime log_data)) (fun et =>
  let s := set_event_time (Some et) s in
  if et <? initial_dt eng then Continue (set_prev_data None s)
  else if final_dt eng <? et then Break s
  else
    match timerange eng with
    | Some between =>
        if between (LogData.ltime log_data) then Next tt s
        else Continue (set_prev_data None s)
    | None => Next tt s
    end).

(** *** Lines 190-202: the host *)

Definition check_host (log_data : LogData.t) (s : Loop) : Flow unit :=
  match hosts eng with
  | [] => Next tt s
  | _ :: _ =>
      match LogData.host log_data with
      | Some hostname =>
          if negb (String.eqb hostname "")
             && negb (bool_decide (hostname ∈ hostset s)) then
            if existsb (fun host_pattern => Py.is_Some (search host_pattern hostname))
                       (hosts eng)
            then Next tt (set_hostset ({[hostname]} ∪ hostset s) s)
            else Continue (set_prev_data None s)
          else Next tt s
      | None => Next tt s
      end
  end.

(** *** Lines 204-222: the patterns *)

(** [for regexp in patterns: ... break]: whether the loop broke, and
    the last value of [pattern_match]. *)
Fixpoint search_patterns (line : string) (ps : list Regexp) (last : option Match)
    : bool * option Match :=
  match ps with
  | [] => (false, last)
  | regexp :: ps' =>
      let pm := search regexp line in
      if (Py.is_Some pm && negb (invert eng)) || (Py.is_None pm && invert eng)
      then (true, pm)
      else search_patterns line ps' pm
  end.

Definition check_patterns (line : string) (s : Loop) : Flow unit :=
  match patterns eng with
  | _ :: _ =>
      let '(found, pm) := search_patterns line (patterns eng) (pattern_match s) in
      let s := set_pattern_match pm s in
      if found then Next tt s
      else if thread eng then Next tt s
      else Continue (set_prev_data None s)
  | [] =>
      let s := set_pattern_match None s in
      if invert eng then
        if thread eng then Next tt s else Continue (set_prev_data None s)
      else Next tt s
  end.

(** *** Lines 224-263: the application of the line *)

(** The list comprehension of lines 234-237. *)
Fixpoint prefix_apps (apptag : string) (tm : list (string * TagEntry))
    : Result (list AppRef) :=
  match tm with
  | [] => Ok []
  | (tag, e) :: tm' =>
      if String.prefix tag apptag then
        match e with
        | AppList l => do rest <- prefix_apps apptag tm'; Ok (l ++ rest)
        | OneApp _ => Raise TypeError          (* for app in _apps *)
        end
      else prefix_apps apptag tm'
  end.

Definition tag_apps_of (apptag : string) : Result TagEntry :=
  match Py.dict_get apptag (tagmap eng) with
  | Some e => Ok e
  | None => do l <- prefix_apps apptag (tagmap eng); Ok (AppList l)
  end.

(** The result of [app.process(log_data)], unpacked into the locals. *)
Definition run_process (a : AppRef) (log_data : LogData.t) (s : Loop)
    : Result (bool * option MapDict * Loop) :=
  do o <- the_app s a;
  do (outcome, o') <- AppLogParser.process o log_data;
  let '(rule_match, fm, th, map_dict) := outcome in
  Ok (rule_match, map_dict,
      set_app_thread th (set_full_match fm (put_app a o' s))).

(** Lines 249-256: the first candidate whose rules match. *)
Fixpoint try_candidates (log_data : LogData.t) (cands : list AppRef) (s : Loop)
    : Result (bool * Loop) :=
  match cands with
  | [] => Ok (false, s)
  | a :: rest =>
      let s := set_app (Some a) s in
      do (rule_match, _, s) <- run_process a log_data s;
      if rule_match then Ok (true, s) else try_candidates log_data rest s
  end.

Definition file_app : option AppRef :=
  match applist with
  | [a] => Some a
  | _ => None
  end.

Definition resolve_app (log_data : LogData.t) (s : Loop) : Flow unit :=
  match parser_app (log_parser s) with
  | Some a => Next tt (set_app (Some a) s)
  | None =>
      let s := set_app None s in
      match LogData.apptag log_data with
      | Some apptag =>
          attempt (tag_apps_of apptag) (fun tag_apps =>
          match tag_apps with
          | OneApp _ => Throw TypeError        (* len(tag_apps) *)
          | AppList [] =>
              Continue (set_prev_data None
                          (set_extra_tags ({[apptag]} ∪ extra_tags s) s))
          | AppList (a0 :: more) =>
              if Nat.eqb (length (a0 :: more)) 1 || negb (use_rules eng) then
                Next tt (set_app (Some a0) s)
              else
                attempt (try_candidates log_data (a0 :: more) s) (fun '(found, s) =>
                if found then Next tt s else Continue (set_prev_data None s))
          end)
      | None =>
          match file_app with
          | Some a => Next tt (set_app (Some a) s)
          | None => Continue (set_prev_data None s)
          end
      end
  end.

(** *** Lines 265-306: the rules of the application *)

(** [name_cache.map2str(gids, log_match, map_dict)]. *)
Definition remap (gids : option Gids) (log_match : LogMatch)
    (map_dict : MapDict) : Result string :=
  match name_cache eng with
  | None => Raise AttributeError
  | Some _ =>
      do g <- of_option AttributeError gids;
      Ok (map2str g log_match map_dict)
  end.

(** Lines 297-306. *)
Definition note_event_time (s : Loop) : Result Loop :=
  if make_report eng then
    do et <- of_option UnboundLocalError (event_time s);
    match first_event s, last_event s with
    | Some fe, Some le =>
        let s := if et <? fe then set_first_event (Some et) s else s in
        Ok (if le <? et then set_last_event (Some et) s else s)
    | Some fe, None =>
        Raise TypeError
    | None, _ => Ok (set_last_event (Some et) (set_first_event (Some et) s))
    end
  else Ok s.

Definition apply_rules (line : string) (log_match : LogMatch)
    (log_data : LogData.t) (s : Loop) : Flow string :=
  match app s with
  | None => Throw AttributeError
  | Some a =>
      attempt (count_line a s) (fun s =>
      if use_rules eng && (Py.is_Some (pattern_match s) || thread eng) then
        attempt (run_process a log_data s) (fun '(rule_match, map_dict, s) =>
        let after (line : string) (s : Loop) : Flow string :=
          attempt (note_event_time s) (fun s => Next line s) in
        if negb rule_match then
          if negb (match_unparsed eng) then Continue (set_prev_data None s)
          else
            match map_dict with
            | Some md =>
                attempt (remap (Some (parser_groupindex (log_parser s))) log_match md)
                        (fun line => after line s)
            | None => after line s
            end
        else if match_unparsed eng then Continue (set_prev_data None s)
        else
          match app_thread s with
          | Some th =>
              attempt (match map_dict with
                       | Some md =>
                           remap (parser_groupindexheader_gids (log_parser s))
                                 log_match md
                       | None => Ok line
                       end) (fun line =>
              attempt (cache_line a line (Some th) s) (fun s => after line s))
          | None =>
              attempt (the_app s a) (fun o =>
              if negb (default false (full_match s)) && AppLogParser.has_filters o
              then Continue (set_prev_data None s)
              else
                match map_dict with
                | Some md =>
                    attempt (remap (Some (parser_groupindex (log_parser s))) log_match md)
                            (fun line => after line s)
                | None => after line s
                end)
          end)
      else Next line s)
  end.

(** *** Lines 308-330: counters, output, end of the scan *)

(** Lines 313-316. *)
Fixpoint flush_old (cands : list AppRef) (s : Loop) : Result Loop :=
  match cands with
  | [] => Ok s
  | a :: rest =>
      let s := set_app (Some a) s in
      do _ <- the_app s a;
      do c <- the_cache s a;
      do et <- of_option UnboundLocalError (event_time s);
      let c := purge_threads c et in
      let max_threads := match max_count eng with
                         | None => None
                         | Some m => Some (m - matching_counter s)
                         end in
      let '(n, evs, c) := flush_old_cache c et (send_selected eng) max_threads in
      flush_old rest
        (set_matching_counter (matching_counter s + n)
           (set_sent (sent s ++ evs) (set_caches (<[a := c]> (caches s)) s)))
  end.

Definition dispatch (line : string) (log_data : LogData.t) (s : Loop)
    : Flow unit :=
  attempt
    (if thread eng then
       if (line_counter s) `mod` PURGE_THREADS_LIMIT =? 0
       then flush_old applist s else Ok s
     else
       let s := set_matching_counter (matching_counter s + 1) s in
       Ok (if send_selected eng then
             set_sent (sent s ++
                       [LineEvent (logfile_name logfile)
                          (if line_number eng then Some (line_counter s) else None)
                          log_data line (pattern_match s)]) s
           else s))
    (fun s =>
       if max_count_reached (max_count eng) (matching_counter s)
       then Break s else Continue s).

(** *** The body of the loop and the loop *)

(** Lines 115-306: what is found out about the line, up to the point
    where it counts as a matching line. *)
Definition examine (line : string) (s : Loop) : Flow (string * LogData.t) :=
  and_then (parse_line line s) (fun '(log_match, log_data) s =>
  and_then (repeat_line line log_data s) (fun _ s =>
  and_then (check_time log_data s) (fun _ s =>
  and_then (check_host log_data s) (fun _ s =>
  and_then (check_patterns line s) (fun _ s =>
  and_then (resolve_app log_data s) (fun _ s =>
  and_then (apply_rules line log_match log_data s) (fun line s =>
  Next (line, log_data) s))))))).

Definition step (line : string) (s : Loop) : Flow unit :=
  and_then (examine line s) (fun '(line, log_data) s => dispatch line log_data s).

(** [for line in logfile]: [Continue] when the lines are used up,
    [Break] when the loop is left early. *)
Fixpoint scan (ls : list string) (s : Loop) : Flow unit :=
  match ls with
  | [] => Continue s
  | line :: ls' =>
      match step line s with
      | Next _ s' | Continue s' => scan ls' s'
      | Break s' => Break s'
      | Throw e => Throw e
      end
  end.

(** The state after the loop, however it was left. *)
Definition after_loop (f : Flow unit) : Result Loop :=
  match f with
  | Next _ s | Continue s | Break s => Ok s
  | Throw e => Raise e
  end.

(** Lines 332-342: end-of-file thread matching and output. *)
Fixpoint flush_all (cands : list AppRef) (s : Loop) : Result Loop :=
  match cands with
  | [] => Ok s
  | a :: rest =>
      let s := set_app (Some a) s in
      do _ <- the_app s a;
      do c <- the_cache s a;
      match event_time s with
      | None => Ok s                            (* except UnboundLocalError *)
      | Some et =>
          let c := purge_threads c et in
          let s := set_caches (<[a := c]> (caches s)) s in
          if max_count_reached (max_count eng) (matching_counter s) then Ok s
          else
            let max_threads :=
              match max_count eng with
              | None => None
              | Some m => if m =? 0 then None else Some (m - matching_counter s)
              end in
            let '(n, evs, c) := flush_cache c et (send_selected eng) max_threads in
            flush_all rest
              (set_matching_counter (matching_counter s + n)
                 (set_sent (sent s ++ evs) (set_caches (<[a := c]> (caches s)) s)))
      end
  end.

(** The locals at the top of [process_logfile]. *)
Definition start (ps : Parsers) (hs : gset string)
    (aps : gmap string AppLogParser.t) (cs : gmap string Cache)
    (out : list Event) : Loop :=
  let '(p, ps') := next_parser ps in
  {| parsers := ps'; hostset := hs; apps := aps; caches := cs; sent := out;
     first_event := None; last_event := None; log_parser := p;
     prev_data := None; app := None; app_thread := None;
     matching_counter := 0; unparsed_counter := 0; full_match := Some false;
     extra_tags := ∅; line_counter := 0; event_time := None;
     pattern_match := None |}.

(** [process_logfile(filename, applist)], from the state [s] of
    [start]: the state at the [return]. *)
Definition process_logfile (s : Loop) : Result Loop :=
  do s <- after_loop (scan (lines logfile) s);
  do s <- (if thread eng then flush_all applist s else Ok s);
  Ok (if count eng
      then set_sent (sent s ++ [CountEvent (logfile_name logfile)
                                           (matching_counter s)]) s
      else s).

(** The tuple that [process_logfile] returns. *)
Definition returned (s : Loop)
    : Z * Z * Z * gset string * option Z * option Z :=
  (line_counter s, matching_counter s, unparsed_counter s, extra_tags s,
   first_event s, last_event s).

End ProcessLogfile.

Arguments Next {_ A} a s.
Arguments Continue {_ A} s.
Arguments Break {_ A} s.
Arguments Throw {_ A} e.

End Matcher.

(** * The vocabulary of the properties *)

(** The pattern of the rule does not match the message of the event. *)
Definition unmatched (logdata : LogData.t) (r : AppRule.t) : Prop :=
  search (AppRule.regexp r) (LogData.message logdata) = None.

(** [values] has the key, and [values[key] is None]. *)
Definition present (values : gmap string (option string)) (key : string) : Prop :=
  is_Some (values !! key).

Definition null (values : gmap string (option string)) (key : string) : Prop :=
  values !! key = Some None.

(** [r0] is what [AppRule(n, p, args, fk)] returns for some [n], [p]. *)
Definition constructed `{Externals} (args : Args.t) (fk : option (list string))
    (r0 : AppRule.t) : Prop :=
  exists n p, AppRule.init n p args fk = Ok r0.

Definition some_constructed `{Externals} (args : Args.t) (r0 : AppRule.t) : Prop :=
  exists fk, constructed args fk r0.

(** The keys of a result table whose component [pos] is [v], and the
    total of their counts. *)
Definition has_value (pos : nat) (v : string) (key : Key) : bool :=
  bool_decide (key !! pos = Some (Some v)).

Definition group_total (results : list (Key * Z)) (pos : nat) (v : string) : Z :=
  fold_right Z.add 0
    (map snd (List.filter (fun entry => has_value pos v (fst entry)) results)).

(** The component [pos] of the key is A, B or C. *)
Definition abc (pos : nat) (key : Key) : Prop :=
  key !! pos = Some (Some "A") \/ key !! pos = Some (Some "B")
  \/ key !! pos = Some (Some "C").

(** The count of a key, and the total of a list of keys. *)
Definition count_of (results : list (Key * Z)) (key : Key) : Z :=
  default 0 (Py.dict_get key results).

Definition block_total (results : list (Key * Z)) (block : list Key) : Z :=
  fold_right Z.add 0 (map (count_of results) block).

(** An event that carries a line. *)
Definition is_line_event (e : Event) : Prop :=
  match e with
  | LineEvent _ _ _ _ _ => True
  | CountEvent _ _ => False
  end.

(** Nothing was sent and no line was counted between [s] and [s']. *)
Definition kept `{Collaborators} (s s' : Matcher.Loop) : Prop :=
  Matcher.sent s' = Matcher.sent s
  /\ Matcher.matching_counter s' = Matcher.matching_counter s.

(** A part of the body of the loop that sends nothing, counts nothing,
    and forgets the previous event whenever it skips the line. *)
Definition settled `{Collaborators} {A} (s : Matcher.Loop) (f : Matcher.Flow A) : Prop :=
  match f with
  | Matcher.Next _ s' => kept s s'
  | Matcher.Continue s' => kept s s' /\ Matcher.prev_data s' = None
  | Matcher.Break s' => kept s s'
  | Matcher.Throw _ => True
  end.

(** However the line is parsed, it is no 'message repeated' line. *)
Definition ordinary `{Collaborators} (line : string) : Prop :=
  forall s log_match log_data s1,
    Matcher.parse_line line s = Matcher.Next (log_match, log_data) s1 ->
    LogData.repeat log_data = None.

(** The line passes every test of lines 115-306 in the state [s]: it
    reaches the counters of lines 308-330, it is a matching line. *)
Definition matches_line `{Externals} `{Collaborators} (eng : Matcher.Engine)
    (logfile : Matcher.LogFile) (applist : list AppRef) (line : string)
    (s : Matcher.Loop) : Prop :=
  exists x s', Matcher.examine eng logfile applist line s = Matcher.Next x s'.

(** The result key that [add_result] builds from [values]: the value
    of [host], then the values of the other key gids. *)
Definition key_of (values : gmap string (option string)) (r : AppRule.t) : Key :=
  map (fun gid => default None (values !! gid)) ("host" :: tail (AppRule.key_gids r)).

(** The table of results holds the last result key of the rule. *)
Definition tracked (r : AppRule.t) : Prop :=
  match AppRule._last_idx r with
  | Some idx => is_Some (Py.dict_get idx (AppRule.results r))
  | None => True
  end.

(** The sum of the counts of a table of results. *)
Definition table_total (results : list (Key * Z)) : Z :=
  fold_right Z.add 0 (map snd results).

(** The component [pos] of the key is a text that the pattern matches. *)
Definition field_matches (pos : nat) (recond : Regexp) (key : Key) : bool :=
  match key !! pos with
  | Some (Some text) => Py.is_Some (search recond text)
  | _ => false
  end.

(** The component [pos] of the key is a text, not [None]. *)
Definition has_text (pos : nat) (key : Key) : Prop :=
  exists text, key !! pos = Some (Some text).

(** A ranking: the totals of the slots go down strictly, and every
    slot holds a value. *)
Fixpoint ranking (l : list AppRule.Slot) : Prop :=
  match l with
  | [] => True
  | slot :: l' =>
      snd slot <> [] /\ Forall (fun below => fst below < fst slot) l' /\ ranking l'
  end.

(** The list [top] while [top_events] fills it: the slots taken, then
    the free ones. *)
Definition filled (somes : list AppRule.Slot) (free : nat) : list (option AppRule.Slot) :=
  map Some somes ++ replicate free None.

(** The pattern of a rule option of the configuration: its value
    without newlines, with the fields put in. *)
Definition option_pattern `{Externals} (fields : list (string * string))
    (value : string) : string :=
  safe_substitute (strip_newlines value) fields.

(** A rule without filter keys. *)
Definition plain (r : AppRule.t) : bool :=
  Nat.eqb (length (AppRule.filter_keys r)) 0.

(** The events an application has recorded: the sum of the counts of
    the tables of its rules. *)
Definition grand_total (a : AppLogParser.t) : Z :=
  fold_right Z.add 0 (map (fun r => table_total (AppRule.results r)) (AppLogParser.rules a)).

(** Two states of a rule object: what the constructor set is the
    same, the results may differ. *)
Definition same_rule (r r' : AppRule.t) : Prop :=
  AppRule.name r' = AppRule.name r
  /\ AppRule.regexp r' = AppRule.regexp r
  /\ AppRule.args r' = AppRule.args r
  /\ AppRule.filter_keys r' = AppRule.filter_keys r
  /\ AppRule.full_match r' = AppRule.full_match r
  /\ AppRule.used_by_report r' = AppRule.used_by_report r
  /\ AppRule.key_gids r' = AppRule.key_gids r.

(** Two states of an application object: the same but for the rules,
    the last matched rule and the counter of unparsed lines. *)
Definition same_application (a a' : AppLogParser.t) : Prop :=
  AppLogParser.name a' = AppLogParser.name a
  /\ AppLogParser.args a' = AppLogParser.args a
  /\ AppLogParser._report a' = AppLogParser._report a
  /\ AppLogParser._thread a' = AppLogParser._thread a
  /\ AppLogParser.has_filters a' = AppLogParser.has_filters a
  /\ AppLogParser.counter a' = AppLogParser.counter a.

(** A relation between the state of a run before and after a part of
    the body of the loop holds when it holds across each assignment
    that the body makes after it has parsed the line: any assignment,
    for most variables; for [hostset], the addition of a host name
    that a host pattern matches; for [extra_tags], the addition of a
    tag that no application has. *)
Record keeps `{Externals} `{Collaborators} (eng : Matcher.Engine)
    (R : Matcher.Loop -> Matcher.Loop -> Prop) : Prop := {
  keeps_refl : forall s, R s s;
  keeps_trans : forall s1 s2 s3, R s1 s2 -> R s2 s3 -> R s1 s3;
  keeps_apps : forall x s, R s (Matcher.set_apps x s);
  keeps_caches : forall x s, R s (Matcher.set_caches x s);
  keeps_sent : forall x s, R s (Matcher.set_sent x s);
  keeps_first_event : forall x s, R s (Matcher.set_first_event x s);
  keeps_last_event : forall x s, R s (Matcher.set_last_event x s);
  keeps_prev_data : forall x s, R s (Matcher.set_prev_data x s);
  keeps_app : forall x s, R s (Matcher.set_app x s);
  keeps_app_thread : forall x s, R s (Matcher.set_app_thread x s);
  keeps_matching_counter : forall x s, R s (Matcher.set_matching_counter x s);
  keeps_full_match : forall x s, R s (Matcher.set_full_match x s);
  keeps_event_time : forall x s, R s (Matcher.set_event_time x s);
  keeps_pattern_match : forall x s, R s (Matcher.set_pattern_match x s);
  keeps_hostset : forall hostname s,
    existsb (fun host_pattern => Py.is_Some (search host_pattern hostname))
            (Matcher.hosts eng) = true ->
    R s (Matcher.set_hostset ({[hostname]} ∪ Matcher.hostset s) s);
  keeps_extra_tags : forall apptag s,
    Matcher.tag_apps_of eng apptag = Ok (Matcher.AppList []) ->
    R s (Matcher.set_extra_tags ({[apptag]} ∪ Matcher.extra_tags s) s)
}.

(** The same across the assignments of lines 115-130, where the line
    is counted and parsed. *)
Record keeps_parsing `{Collaborators}
    (R : Matcher.Loop -> Matcher.Loop -> Prop) : Prop := {
  keeps_line_counter :
    forall s, R s (Matcher.set_line_counter (Matcher.line_counter s + 1) s);
  keeps_parsers : forall x s, R s (Matcher.set_parsers x s);
  keeps_log_parser : forall x s, R s (Matcher.set_log_parser x s);
  keeps_unparsed_counter :
    forall s, R s (Matcher.set_unparsed_counter (Matcher.unparsed_counter s + 1) s)
}.

(** The relation holds between [s] and the state in which a part of
    the body ends. *)
Definition held `{Collaborators} {A} (R : Matcher.Loop -> Matcher.Loop -> Prop)
    (s : Matcher.Loop) (f : Matcher.Flow A) : Prop :=
  match f with
  | Matcher.Next _ s' | Matcher.Continue s' | Matcher.Break s' => R s s'
  | Matcher.Throw _ => True
  end.

(** The line counter and the counter of unparsed lines are the same. *)
Definition same_counters `{Collaborators} (s s' : Matcher.Loop) : Prop :=
  Matcher.line_counter s' = Matcher.line_counter s
  /\ Matcher.unparsed_counter s' = Matcher.unparsed_counter s.

(** One of the host patterns matches the host name. *)
Definition host_matched (eng : Matcher.Engine) (hostname : string) : Prop :=
  existsb (fun host_pattern => Py.is_Some (search host_pattern hostname))
          (Matcher.hosts eng) = true.

(** The tag map gives no application for the tag (lines 232-239): the
    entry of the tag is empty, or no key is the tag and the keys that
    begin it have no application. *)
Definition unknown_tag `{Externals} `{Collaborators} (eng : Matcher.Engine)
    (apptag : string) : Prop :=
  Matcher.tag_apps_of eng apptag = Ok (Matcher.AppList []).

(** What a run gathers: [hostset] and [extra_tags] only grow, by host
    names that a host pattern matches and by tags without
    application. *)
Definition gathered `{Externals} `{Collaborators} (eng : Matcher.Engine)
    (s s' : Matcher.Loop) : Prop :=
  Matcher.hostset s ⊆ Matcher.hostset s'
  /\ (forall hostname, hostname ∈ Matcher.hostset s' ->
        hostname ∈ Matcher.hostset s \/ host_matched eng hostname)
  /\ Matcher.extra_tags s ⊆ Matcher.extra_tags s'
  /\ (forall apptag, apptag ∈ Matcher.extra_tags s' ->
        apptag ∈ Matcher.extra_tags s \/ unknown_tag eng apptag).

(** ** What the rule engine reads of a match *)


(** ** Rules as [parse_rules] builds them *)

(** [r0] is what [AppRule(n, p, args, fk)] returns, where no empty list
    of filter keys was given: [fk] is [None] or a list with a key. *)
Definition built_with `{Externals} (args : Args.t) (fk : option (list string))
    (r0 : AppRule.t) : Prop :=
  constructed args fk r0 /\ fk <> Some [].

(** ** Lines that the loop passes over *)


(** * A concrete setting

    The imports and the collaborators, given by their behaviour on the
    inputs of the examples below: [int] on decimal digits, [mktime] in
    UTC, and each regular expression by what it captures in the messages
    of the examples. *)

Module Demo.

Definition digit (c : ascii) : option Z :=
  let n := Z.of_nat (nat_of_ascii c) in
  if (48 <=? n) && (n <=? 57) then Some (n - 48) else None.

Fixpoint digits (s : string) (acc : Z) : option Z :=
  match s with
  | EmptyString => Some acc
  | String c s' =>
      match digit c with
      | Some d => digits s' (10 * acc + d)
      | None => None
      end
  end.

(** [int] of a string of decimal digits. *)
Definition int (s : string) : option Z :=
  match s with
  | EmptyString => None
  | String _ _ => digits s 0
  end.

(** Days since 1970-01-01 of a date of the Gregorian calendar. *)
Definition days_from_civil (y m d : Z) : Z :=
  let y := if m <=? 2 then y - 1 else y in
  let era := y / 400 in
  let yoe := y - era * 400 in
  let doy := (153 * (if 2 <? m then m - 3 else m + 9) + 2) / 5 + d - 1 in
  let doe := yoe * 365 + yoe / 4 - yoe / 100 + doy in
  era * 146097 + doe - 719468.

(** [time.mktime] with the local time zone set to UTC. *)
Definition utc_mktime (y mo d h mi sec isdst : Z) : Z :=
  days_from_civil y mo d * 86400 + h * 3600 + mi * 60 + sec.

Definition capture (groups : list (string * option string)) : Match :=
  fun gid => default None (Py.dict_get gid groups).

(** A compiled pattern, by the messages it matches and what it
    captures in each. *)
Definition table_regexp (gids : list string)
    (table : list (string * list (string * option string))) : Regexp :=
  {| groupindex := gids;
     search := fun text => option_map capture (Py.dict_get text table) |}.

(** The messages of the examples. *)
Definition alice_200 := "user=alice status=200".
Definition bob_404 := "user=bob status=404".
Definition just_200 := "status=200".
Definition thread_17 := "17: status=200".
Definition thread_17_alice := "17: user=alice status=200".

(** The rule patterns of the examples, after the filter [user=alice]
    is put in. *)
Definition login_pattern := "(user=(?P<user>alice) )?status=(?P<status>\d+)".
Definition session_pattern :=
  "(?P<thread>\d+): (user=(?P<user>alice) )?status=(?P<status>\d+)".
Definition status_pattern := "status=(?P<status>\d+)".
Definition mail_pattern := "from=(?P<user>\w+)@(?P<host>\w+) status=(?P<status>\d+)".

Definition login_regexp : Regexp :=
  table_regexp ["user"; "status"]
    [ (alice_200, [("user", Some "alice"); ("status", Some "200")]);
      (bob_404, [("user", None); ("status", Some "404")]);
      (just_200, [("user", None); ("status", Some "200")]);
      (thread_17, [("user", None); ("status", Some "200")]);
      (thread_17_alice, [("user", Some "alice"); ("status", Some "200")]) ].

Definition session_regexp : Regexp :=
  table_regexp ["thread"; "user"; "status"]
    [ (thread_17, [("thread", Some "17"); ("user", None); ("status", Some "200")]);
      (thread_17_alice,
       [("thread", Some "17"); ("user", Some "alice"); ("status", Some "200")]) ].

Definition status_regexp : Regexp :=
  table_regexp ["status"]
    [ (alice_200, [("status", Some "200")]);
      (bob_404, [("status", Some "404")]);
      (just_200, [("status", Some "200")]);
      (thread_17, [("status", Some "200")]);
      (thread_17_alice, [("status", Some "200")]) ].

Definition mail_regexp : Regexp :=
  table_regexp ["user"; "host"; "status"] [].

Definition compiled : list (string * Regexp) :=
  [ (login_pattern, login_regexp); (session_pattern, session_regexp);
    (status_pattern, status_regexp); (mail_pattern, mail_regexp) ].

(** The rule options of the examples, as the configuration has them,
    and what [exact_sub] makes of them for the filter [user=alice]. *)
Definition login_option := "(user=${user} )?status=(?P<status>\d+)".
Definition session_option := "(?P<thread>\d+): (user=${user} )?status=(?P<status>\d+)".

Definition substituted : list (string * (string * list string)) :=
  [ (login_option, (login_pattern, ["user"]));
    (session_option, (session_pattern, ["user"])) ].

#[local] Instance externals : Externals :=
  {| re_compile := fun pattern => Py.dict_get pattern compiled;
     py_int := int;
     safe_substitute := fun pattern _ => pattern;
     exact_sub := fun pattern _ => default (pattern, []) (Py.dict_get pattern substituted);
     mktime := utc_mktime |}.

Definition no_args : Args.t :=
  {| Args.filters := []; Args.thread := false; Args.unparsed := false;
     Args.quiet := false; Args.count := false; Args.max_count := None;
     Args.use_rules := true; Args.invert := false; Args.line_number := false;
     Args.report := None; Args.timerange := None |}.

(** The options [-F user=alice], without and with [--thread]. *)
Definition filter_args : Args.t :=
  {| Args.filters := [[("user", "alice")]]; Args.thread := false;
     Args.unparsed := false; Args.quiet := false; Args.count := false;
     Args.max_count := None; Args.use_rules := true; Args.invert := false;
     Args.line_number := false; Args.report := None; Args.timerange := None |}.

Definition thread_args : Args.t :=
  {| Args.filters := [[("user", "alice")]]; Args.thread := true;
     Args.unparsed := false; Args.quiet := false; Args.count := false;
     Args.max_count := None; Args.use_rules := true; Args.invert := false;
     Args.line_number := false; Args.report := None; Args.timerange := None |}.

Definition event (message : string) : LogData.t :=
  {| LogData.host := Some "host1"; LogData.apptag := Some "app";
     LogData.month := "Jan"; LogData.day := "1"; LogData.ltime := "10:00:00";
     LogData.year := None; LogData.message := message; LogData.repeat := None |}.

(** An event of December 31st, without a year. *)
Definition december_event : LogData.t :=
  {| LogData.host := Some "host1"; LogData.apptag := Some "app";
     LogData.month := "Dec"; LogData.day := "31"; LogData.ltime := "23:59:59";
     LogData.year := None; LogData.message := just_200; LogData.repeat := None |}.

(** A rule whose pattern has a [host] group in the middle. *)
Definition mail_rule : Result AppRule.t :=
  AppRule.init "mail" mail_pattern no_args None.

(** An application with the one filter rule [login]. *)
Definition login_app : Result AppLogParser.t :=
  AppLogParser.init "app" filter_args None None [] (Some [("login", login_option)]) [].


(** An application in thread mode with a filter rule and a rule that
    the filter does not touch. *)
Definition mixed_app : Result AppLogParser.t :=
  AppLogParser.init "app" thread_args None None []
    (Some [("login", login_option); ("status", status_pattern)]) [].

(** The object behind a successful construction. *)
Definition built {A} (r : Result A) (d : A) : A :=
  match r with
  | Ok a => a
  | Raise _ => d
  end.

Definition no_rule : AppRule.t :=
  {| AppRule.name := ""; AppRule.regexp := table_regexp [] [];
     AppRule.args := no_args; AppRule.filter_keys := [];
     AppRule.full_match := false; AppRule.used_by_report := false;
     AppRule.results := []; AppRule.key_gids := ["host"];
     AppRule._last_idx := None |}.

Definition no_app : AppLogParser.t :=
  {| AppLogParser.name := ""; AppLogParser.args := no_args;
     AppLogParser.name_cache := None; AppLogParser.fields := [];
     AppLogParser._report := None; AppLogParser._thread := false;
     AppLogParser.counter := 0; AppLogParser.unparsed_counter := 0;
     AppLogParser._last_rule := None; AppLogParser.rules := [];
     AppLogParser.has_filters := false |}.

Definition the_mail_rule : AppRule.t := built mail_rule no_rule.
Definition the_login_app : AppLogParser.t := built login_app no_app.
Definition the_mixed_app : AppLogParser.t := built mixed_app no_app.

(** The rules of these applications. *)
Definition login_rule : AppRule.t :=
  default no_rule (AppLogParser.rules the_login_app !! 0%nat).
Definition mixed_status_rule : AppRule.t :=
  default no_rule (AppLogParser.rules the_mixed_app !! 0%nat).
Definition mixed_login_rule : AppRule.t :=
  default no_rule (AppLogParser.rules the_mixed_app !! 1%nat).

(** A rule that has counted the users A (on two hosts), B and C. *)
Definition ranked_rule : AppRule.t :=
  {| AppRule.name := "users"; AppRule.regexp := table_regexp ["user"] [];
     AppRule.args := no_args; AppRule.filter_keys := [];
     AppRule.full_match := true; AppRule.used_by_report := true;
     AppRule.results :=
       [ ([Some "host2"; Some "B"], 10); ([Some "host1"; Some "A"], 4);
         ([Some "host1"; Some "C"], 7); ([Some "host2"; Some "A"], 6) ];
     AppRule.key_gids := ["host"; "user"];
     AppRule._last_idx := Some [Some "host2"; Some "A"] |}.

(** The login application after a line that its filter rejected. *)
Definition after_rejected : AppLogParser.t :=
  match AppLogParser.process the_login_app (event just_200) with
  | Ok (_, a) => a
  | Raise _ => no_app
  end.

End Demo.

(** ** The matcher in the concrete setting

    One format parser, given by the events it reads from the lines of
    the examples; thread caches that keep the lines they are handed and
    flush nothing. *)

Module DemoMatcher.

Import Demo.
#[local] Existing Instance Demo.externals.

Definition syslog_event (time host tag message : string) : LogData.t :=
  {| LogData.host := Some host; LogData.apptag := Some tag;
     LogData.month := "Jan"; LogData.day := "1"; LogData.ltime := time;
     LogData.year := None; LogData.message := message; LogData.repeat := None |}.

(** "last message repeated 5 times": no tag, and a repeat count. *)
Definition repeated_event (time host count : string) : LogData.t :=
  {| LogData.host := Some host; LogData.apptag := None;
     LogData.month := "Jan"; LogData.day := "1"; LogData.ltime := time;
     LogData.year := None;
     LogData.message := "last message repeated " ++ count ++ " times";
     LogData.repeat := Some count |}.

Definition line1 := "Jan  1 10:00:00 host1 app[123]: user=alice status=200".
Definition line_repeated := "Jan  1 10:00:01 host1 last message repeated 5 times".
Definition line2 := "Jan  1 10:00:05 host1 app[123]: user=bob status=404".
Definition line3 := "Jan  1 10:00:06 host1 app[123]: status=200".
Definition line4 := "Jan  1 10:00:07 host1 app[123]: user=alice status=200".
Definition line5 := "Jan  1 10:00:08 host1 app[123]: user=bob status=404".

Definition parsed : list (string * LogData.t) :=
  [ (line1, syslog_event "10:00:00" "host1" "app" alice_200);
    (line_repeated, repeated_event "10:00:01" "host1" "5");
    (line2, syslog_event "10:00:05" "host1" "app" bob_404);
    (line3, syslog_event "10:00:06" "host1" "app" just_200);
    (line4, syslog_event "10:00:07" "host1" "app" alice_200);
    (line5, syslog_event "10:00:08" "host1" "app" bob_404) ].

(** A parser is known by the application it belongs to, if any; the
    cycle holds one parser. *)
#[local] Instance collaborators : Collaborators :=
  {| Parser := option AppRef;
     LogMatch := LogData.t;
     Parsers := option AppRef;
     Cache := list string;
     Gids := unit;
     parser_match := fun _ line => Py.dict_get line parsed;
     get_data := fun _ log_match => log_match;
     parser_app := fun p => p;
     next_parser := fun ps => (ps, ps);
     detect := fun ps _ => (None, ps);
     parser_groupindex := fun _ => tt;
     parser_groupindexheader_gids := fun _ => None;
     map2str := fun _ _ map_dict => md_message map_dict;
     add_line := fun c line _ _ _ _ => c ++ [line];
     purge_threads := fun c _ => c;
     flush_old_cache := fun c _ _ _ => (0, [], c);
     flush_cache := fun c _ _ _ => (0, [], c) |}.

(** The pattern [status=], searched in the raw line. *)
Definition status_in_line : Regexp :=
  table_regexp []
    [ (line1, []); (line2, []); (line3, []); (line4, []); (line5, []) ].

Definition args_with (quiet : bool) (max_count : option Z) (use_rules : bool)
    : Args.t :=
  {| Args.filters := []; Args.thread := false; Args.unparsed := false;
     Args.quiet := quiet; Args.count := false; Args.max_count := max_count;
     Args.use_rules := use_rules; Args.invert := false;
     Args.line_number := true; Args.report := None; Args.timerange := None |}.

(** The application [app], with the one rule [status] and no filter. *)
Definition status_app (args : Args.t) : AppLogParser.t :=
  built (AppLogParser.init "app" args None None [] (Some [("status", status_pattern)]) [])
        no_app.

Definition lograptor (args : Args.t) (tagmap : list (string * Matcher.TagEntry))
    (patterns : list Regexp) : Matcher.Lograptor :=
  {| Matcher.obj_args := args; Matcher.obj_name_cache := None;
     Matcher.obj_tagmap := tagmap; Matcher.obj_hosts := [];
     Matcher.obj_patterns := patterns; Matcher.obj_initial_dt := None;
     Matcher.obj_final_dt := None |}.

(** The tag [app] leads to the list of the applications that carry it. *)
Definition tagmap_of_lists : list (string * Matcher.TagEntry) :=
  [("app", Matcher.AppList ["app"])].

(** The tag [app] leads to the application itself. *)
Definition tagmap_of_apps : list (string * Matcher.TagEntry) :=
  [("app", Matcher.OneApp "app")].

Definition messages (ls : list string) : Matcher.LogFile :=
  {| Matcher.logfile_name := "/var/log/messages"; Matcher.lines := ls;
     Matcher.st_mtime := 1483315200; Matcher.mtime_year := 2017;
     Matcher.mtime_month := 1 |}.

(** The cycle of parsers, the applications and their caches when a
    run begins. *)
Definition cycle (parser : option AppRef) : Parsers := parser.
Definition applications (args : Args.t) : gmap string AppLogParser.t :=
  {["app" := status_app args]}.
Definition empty_caches : gmap string Cache := {["app" := []]}.

Definition begin (parser : option AppRef) (args : Args.t) : Matcher.Loop :=
  Matcher.start (cycle parser) ∅ (applications args) empty_caches [].

(** *** Five matching lines, and a maximum *)

Definition five_lines : list string := [line1; line2; line3; line4; line5].

Definition engine_max (m : option Z) : Matcher.Engine :=
  Matcher.create_matcher_engine
    (lograptor (args_with false m false) tagmap_of_lists []).

Definition scan_max (m : option Z) (ls : list string) : Matcher.Flow unit :=
  Matcher.scan (engine_max m) (messages ls) ["app"] ls
    (begin None (args_with false m false)).

(** The state that a scan ends in. *)
Definition final (f : Matcher.Flow unit) (d : Matcher.Loop) : Matcher.Loop :=
  match f with
  | Matcher.Next _ s | Matcher.Continue s | Matcher.Break s => s
  | Matcher.Throw _ => d
  end.

Definition ran_to_end (f : Matcher.Flow unit) : bool :=
  match f with
  | Matcher.Continue _ => true
  | _ => false
  end.

Definition left_early (f : Matcher.Flow unit) : bool :=
  match f with
  | Matcher.Break _ => true
  | _ => false
  end.

(** The parser reads no repeat count from the line. *)
Definition plain_line (line : string) : bool :=
  match Py.dict_get line parsed with
  | Some log_data => Py.is_None (LogData.repeat log_data)
  | None => true
  end.

(** Five matching lines, and after the first the line that repeats it
    five times. *)
Definition six_lines : list string :=
  [line1; line_repeated; line2; line3; line4; line5].

(** *** Quiet mode *)

Definition quiet_obj : Matcher.Lograptor :=
  lograptor (args_with true (Some 5) false) tagmap_of_lists [].

(** *** A repeated message, with the rules in use *)

Definition rules_args : Args.t := args_with false None true.

Definition engine_rules (tagmap : list (string * Matcher.TagEntry)) : Matcher.Engine :=
  Matcher.create_matcher_engine (lograptor rules_args tagmap [status_in_line]).

Definition scan_rules (tagmap : list (string * Matcher.TagEntry))
    (parser : option AppRef) (ls : list string) : Matcher.Flow unit :=
  Matcher.scan (engine_rules tagmap) (messages ls) ["app"] ls (begin parser rules_args).

(** The result table of the rule [status] of [app], and the line
    counter of [app], in a state. *)
Definition status_results (s : Matcher.Loop) : list (Key * Z) :=
  match Matcher.apps s !! "app" with
  | Some a => AppRule.results (default no_rule (AppLogParser.rules a !! 0%nat))
  | None => []
  end.

Definition app_counter (s : Matcher.Loop) : Z :=
  match Matcher.apps s !! "app" with
  | Some a => AppLogParser.counter a
  | None => 0
  end.

End DemoMatcher.

(** ** More of the concrete setting: reports, and other options *)

Module DemoReport.

Import Demo.

(** The pattern [^a], by what it does. *)
Definition starts_with_a : Regexp :=
  {| groupindex := [];
     search := fun text => if String.prefix "a" text then Some (capture []) else None |}.

#[local] Instance externals : Externals :=
  {| re_compile := fun pattern =>
       if String.eqb pattern "^a" then Some starts_with_a else None;
     py_int := int;
     safe_substitute := fun pattern _ => pattern;
     exact_sub := fun pattern _ => (pattern, []);
     mktime := utc_mktime |}.

(** The double quote, and the two conditions on the users whose
    name begins with [a]. *)
Definition quote : string := String "034"%char EmptyString.
Definition user_is_a : string := "user==" ++ quote ++ "^a" ++ quote.
Definition user_is_not_a : string := "user!=" ++ quote ++ "^a" ++ quote.

#[local] Instance conditions : Conditions :=
  {| search_cond := fun cond =>
       if String.eqb cond user_is_a then Some ("user", "==", "^a")
       else if String.eqb cond user_is_not_a then Some ("user", "!=", "^a")
       else None |}.

(** A rule that has counted three users on two hosts. *)
Definition users_rule : AppRule.t :=
  {| AppRule.name := "users"; AppRule.regexp := table_regexp ["user"] [];
     AppRule.args := no_args; AppRule.filter_keys := [];
     AppRule.full_match := true; AppRule.used_by_report := true;
     AppRule.results :=
       [ ([Some "host1"; Some "alice"], 3); ([Some "host1"; Some "bob"], 2);
         ([Some "host2"; Some "anna"], 4) ];
     AppRule.key_gids := ["host"; "user"];
     AppRule._last_idx := Some [Some "host2"; Some "anna"] |}.

End DemoReport.

Module DemoRuns.

Import Demo DemoMatcher.
#[local] Existing Instance Demo.externals.
#[local] Existing Instance DemoMatcher.collaborators.

(** A message that no pattern of the examples matches. *)
Definition unrelated := "connection closed".

(** The application [app] without filters, and what a line with
    [status=200] makes of it. *)
Definition plain_app : AppLogParser.t := status_app no_args.

Definition after_status : AppLogParser.t :=
  match AppLogParser.process plain_app (event just_200) with
  | Ok (_, a) => a
  | Raise _ => no_app
  end.

(** The options of a run, all of them. *)
Definition args_of (thread count invert : bool) : Args.t :=
  {| Args.filters := []; Args.thread := thread; Args.unparsed := false;
     Args.quiet := false; Args.count := count; Args.max_count := None;
     Args.use_rules := false; Args.invert := invert;
     Args.line_number := true; Args.report := None; Args.timerange := None |}.

Definition count_obj : Matcher.Lograptor :=
  lograptor (args_of false true false) tagmap_of_lists [].

Definition thread_engine : Matcher.Engine :=
  Matcher.create_matcher_engine (lograptor (args_of true false false) tagmap_of_lists []).

Definition inverted_engine : Matcher.Engine :=
  Matcher.create_matcher_engine (lograptor (args_of false false true) tagmap_of_lists []).

(** An engine without applications: every tag is an extra tag. *)
Definition untagged_engine : Matcher.Engine :=
  Matcher.create_matcher_engine (lograptor (args_of false false false) [] []).

(** An engine that selects the host [host1]. *)
Definition host1_pattern : Regexp := table_regexp [] [("host1", [])].

Definition hosts_engine : Matcher.Engine :=
  Matcher.create_matcher_engine
    {| Matcher.obj_args := args_of false false false; Matcher.obj_name_cache := None;
       Matcher.obj_tagmap := tagmap_of_lists; Matcher.obj_hosts := [host1_pattern];
       Matcher.obj_patterns := []; Matcher.obj_initial_dt := None;
       Matcher.obj_final_dt := None |}.

(** An engine whose scope of time ends with the year 2015. *)
Definition past_engine : Matcher.Engine :=
  Matcher.create_matcher_engine
    {| Matcher.obj_args := args_of false false false; Matcher.obj_name_cache := None;
       Matcher.obj_tagmap := tagmap_of_lists; Matcher.obj_hosts := [];
       Matcher.obj_patterns := []; Matcher.obj_initial_dt := None;
       Matcher.obj_final_dt := Some (2015, 12, 31, 23, 59, 59) |}.

(** The state in which a run of the five lines begins, and the run. *)
Definition first_state : Matcher.Loop := begin None (args_of false false false).

Definition run (eng : Matcher.Engine) : Result Matcher.Loop :=
  Matcher.process_logfile eng (messages five_lines) ["app"] first_state.

Definition returns (r : Result Matcher.Loop) : bool :=
  match r with
  | Ok _ => true
  | Raise _ => false
  end.

(** The time of the first line, as line 165 reads it. *)
Definition time_of_line1 : Z := utc_mktime 2016 1 1 10 0 0 (-1).

End DemoRuns.

(** ** Further examples: a name cache, the order of the rules *)

Module DemoCache.

Import Demo.
#[local] Existing Instance Demo.externals.




(** An application in thread mode whose rule [status], untouched by
    the filter, comes before its filter rule [session]. *)
Definition ordered_app : AppLogParser.t :=
  built (AppLogParser.init "app" thread_args None None []
           (Some [("session", session_option); ("status", status_pattern)]) [])
        no_app.

Definition ordered_status_rule : AppRule.t :=
  default no_rule (AppLogParser.rules ordered_app !! 0%nat).
Definition ordered_session_rule : AppRule.t :=
  default no_rule (AppLogParser.rules ordered_app !! 1%nat).


End DemoCache.

(** * Properties *)

(** ** Containers *)

Section DictFacts.
Context {K V : Type} `{EqDecision K}.

Lemma dict_get_set_eq (k : K) (v : V) (d : list (K * V)) :
  Py.dict_get k (Py.dict_set k v d) = Some v.
Proof.
  induction d as [|[k' v'] d IH]; simpl.
  - destruct (decide (k = k)); congruence.
  - destruct (decide (k' = k)) as [->|Hne]; simpl.
    + destruct (decide (k = k)); congruence.
    + destruct (decide (k' = k)); congruence.
Qed.

Lemma dict_get_set_ne (k k0 : K) (v : V) (d : list (K * V)) :
  k0 <> k -> Py.dict_get k0 (Py.dict_set k v d) = Py.dict_get k0 d.
Proof.
  intros Hne. induction d as [|[k' v'] d IH]; simpl.
  - destruct (decide (k = k0)); congruence.
  - destruct (decide (k' = k)) as [->|Hk]; simpl.
    + destruct (decide (k = k0)); congruence.
    + destruct (decide (k' = k0)); congruence.
Qed.

(** Writing to a key that the dict holds creates no key. *)
Lemma dict_keys_set_present (k : K) (v c : V) (d : list (K * V)) :
  Py.dict_get k d = Some c -> Py.dict_keys (Py.dict_set k v d) = Py.dict_keys d.
Proof.
  induction d as [|[k' v'] d IH]; simpl; [discriminate|].
  destruct (decide (k' = k)) as [->|Hk]; simpl; [reflexivity|].
  intros Hg. f_equal. apply IH, Hg.
Qed.
End DictFacts.

Lemma mapM_Ok_length {A B} (f : A -> Result B) (l : list A) (l' : list B) :
  mapM f l = Ok l' -> length l' = length l.
Proof.
  revert l'. induction l as [|x l IH]; simpl; intros l' Hm.
  - injection Hm as <-. reflexivity.
  - destruct (f x) as [y|e]; simpl in Hm; [|discriminate].
    destruct (mapM f l) as [ys|e]; simpl in Hm; [|discriminate].
    injection Hm as <-. simpl. f_equal. apply IH. reflexivity.
Qed.

Lemma mapM_total {A B} (f : A -> Result B) (l : list A) :
  Forall (fun x => exists y, f x = Ok y) l -> exists l', mapM f l = Ok l'.
Proof.
  induction 1 as [|x l [y Hy] _ [l' Hl']]; simpl.
  - eexists. reflexivity.
  - rewrite Hy, Hl'. simpl. eexists. reflexivity.
Qed.

(** ** AppRule: construction *)

Lemma make_key_gids_NoDup (re : Regexp) :
  NoDup (groupindex re) -> NoDup (AppRule.make_key_gids re).
Proof.
  intros Hnd. unfold AppRule.make_key_gids. constructor.
  - intros Hin. apply list_elem_of_In, List.filter_In in Hin.
    destruct Hin as [_ Hne]. rewrite String.eqb_refl in Hne. discriminate.
  - apply NoDup_ListNoDup, List.NoDup_filter, NoDup_ListNoDup, Hnd.
Qed.

Lemma init_Ok_inv `{Externals} name pattern args fk r :
  AppRule.init name pattern args fk = Ok r ->
  exists re, re_compile pattern = Some re /\ pattern <> "" /\
    r = {| AppRule.name := name; AppRule.regexp := re; AppRule.args := args;
           AppRule.filter_keys := default [] fk;
           AppRule.full_match := Py.is_Some fk;
           AppRule.used_by_report := false; AppRule.results := [];
           AppRule.key_gids := AppRule.make_key_gids re;
           AppRule._last_idx := None |}.
Proof.
  unfold AppRule.init. destruct (String.eqb_spec pattern "") as [->|Hne]; [discriminate|].
  destruct (re_compile pattern) as [re|]; [|discriminate].
  simpl. intros [= <-]. exists re. auto.
Qed.

(** C8.  A rule that [AppRule.__init__] builds has key fields that are
    not empty and hold no name twice, that start with [host], and whose
    other elements are the named groups of the pattern other than
    [host], in the order of the pattern; and the constructor raises the
    configuration error "rule gids set empty!" on an empty list of key
    fields. *)
Theorem key_gids_invariant `{Externals} (name pattern : string) (args : Args.t)
    (fk : option (list string)) (r : AppRule.t) :
  AppRule.init name pattern args fk = Ok r ->
  NoDup (groupindex (AppRule.regexp r)) ->
  AppRule.key_gids r <> []
  /\ NoDup (AppRule.key_gids r)
  /\ head (AppRule.key_gids r) = Some "host"
  /\ tail (AppRule.key_gids r)
     = List.filter (fun gid => negb (String.eqb gid "host"))
                   (groupindex (AppRule.regexp r))
  /\ (forall gid, gid ∈ AppRule.key_gids r <->
                  gid = "host" \/ gid ∈ groupindex (AppRule.regexp r))
  /\ (forall n re a f,
        AppRule.init_compiled n re a f [] = Raise (LogRaptorConfigError GidsSetEmpty)).
Proof.
  intros Hinit Hnd. apply init_Ok_inv in Hinit as (re & _ & _ & ->). simpl in *.
  repeat split; try done.
  - apply (make_key_gids_NoDup re Hnd).
  - unfold AppRule.make_key_gids. rewrite elem_of_cons.
    intros [->|Hin]; [by left|]. right.
    apply list_elem_of_In, List.filter_In in Hin. apply list_elem_of_In, Hin.
  - unfold AppRule.make_key_gids. rewrite elem_of_cons.
    destruct (String.eqb_spec gid "host") as [->|Hne]; [by left|].
    intros [->|Hin]; [done|]. right.
    apply list_elem_of_In, List.filter_In. split; [by apply list_elem_of_In|].
    apply negb_true_iff, String.eqb_neq, Hne.
Qed.

Section KeyFieldsExample.
#[local] Existing Instance Demo.externals.

Lemma key_gids_invariant_witness :
  Demo.mail_rule = Ok Demo.the_mail_rule
  /\ NoDup (groupindex (AppRule.regexp Demo.the_mail_rule))
  /\ AppRule.key_gids Demo.the_mail_rule <> []
  /\ NoDup (AppRule.key_gids Demo.the_mail_rule)
  /\ head (AppRule.key_gids Demo.the_mail_rule) = Some "host"
  /\ tail (AppRule.key_gids Demo.the_mail_rule) = ["user"; "status"].
Proof.
  assert (Hnd : NoDup (groupindex (AppRule.regexp Demo.the_mail_rule))).
  { apply (bool_decide_unpack _). vm_compute. reflexivity. }
  assert (Hb : AppRule.init "mail" Demo.mail_pattern Demo.no_args None
               = Ok Demo.the_mail_rule) by (vm_compute; reflexivity).
  destruct (key_gids_invariant "mail" Demo.mail_pattern Demo.no_args None
              Demo.the_mail_rule Hb Hnd) as (H1 & H2 & H3 & H4 & _).
  repeat split; assumption.
Defined.

End KeyFieldsExample.

(** ** AppLogParser: increase_last *)

Lemma set_rules_same (a : AppLogParser.t) :
  AppLogParser.set_rules (AppLogParser.rules a) a = a.
Proof. destruct a; reflexivity. Qed.

Lemma rule_increase_last_unset (k : Z) (rule : AppRule.t) :
  AppRule._last_idx rule = None -> AppRule.increase_last k rule = Ok rule.
Proof. unfold AppRule.increase_last. intros ->. reflexivity. Qed.

(** C10.  [increase_last(k)] changes nothing and raises nothing when the
    application has no last matched rule, and when that rule has no last
    result key. *)
Theorem increase_last_noop (k : Z) (a : AppLogParser.t) :
  (AppLogParser._last_rule a = None
   \/ exists i rule, AppLogParser._last_rule a = Some i
                     /\ AppLogParser.rules a !! i = Some rule
                     /\ AppRule._last_idx rule = None) ->
  AppLogParser.increase_last k a = Ok a.
Proof.
  unfold AppLogParser.increase_last.
  intros [->|(i & rule & -> & Hi & Hidx)]; [reflexivity|].
  rewrite Hi, (rule_increase_last_unset k rule Hidx). simpl.
  rewrite (list_insert_id _ _ _ Hi). f_equal. apply set_rules_same.
Qed.

(** ** AppLogParser: process *)


(** When no rule matches, the last matched rule is forgotten. *)
Lemma scan_rules_unmatched (a : AppLogParser.t) (logdata : LogData.t) (i : nat)
    (rs : list AppRule.t) :
  Forall (unmatched logdata) rs ->
  exists a', AppLogParser.scan_rules a logdata i rs = Ok (no_match, a')
             /\ AppLogParser._last_rule a' = None
             /\ AppLogParser.rules a' = AppLogParser.rules a.
Proof.
  intros Hrs. revert i. induction Hrs as [|r rs Hr _ IH]; intros i; simpl.
  - eexists. split; [reflexivity|]. destruct (AppLogParser.has_filters _); auto.
  - unfold unmatched in Hr. rewrite Hr. apply IH.
Qed.

Lemma values_of_present (values : gmap string (option string)) (keys : list string) :
  Forall (present values) keys ->
  mapM (AppRule.value_of values) keys
  = Ok (map (fun key => default None (values !! key)) keys).
Proof.
  induction 1 as [|key keys [v Hv] _ IH]; simpl; [reflexivity|].
  unfold AppRule.value_of at 1. rewrite Hv. simpl. rewrite IH. reflexivity.
Qed.













Lemma increase_last_noop_witness :
  (AppLogParser._last_rule Demo.after_rejected = None
   \/ exists i rule, AppLogParser._last_rule Demo.after_rejected = Some i
                     /\ AppLogParser.rules Demo.after_rejected !! i = Some rule
                     /\ AppRule._last_idx rule = None)
  /\ AppLogParser.increase_last 5 Demo.after_rejected = Ok Demo.after_rejected.
Proof.
  assert (Hlast : AppLogParser._last_rule Demo.after_rejected = None
   \/ exists i rule, AppLogParser._last_rule Demo.after_rejected = Some i
                     /\ AppLogParser.rules Demo.after_rejected !! i = Some rule
                     /\ AppRule._last_idx rule = None).
  { right. exists 0%nat, Demo.login_rule. repeat split; reflexivity. }
  split; [exact Hlast|]. exact (increase_last_noop 5 Demo.after_rejected Hlast).
Defined.





(** A rule with a [thread] group that is not the first to match is not
    read.  The rules of [ordered_app] are [status] and [session]; both
    patterns match "17: user=alice status=200", [session] capturing the
    thread "17" and the user; [process] stops at [status] and returns
    no thread identifier. *)
Lemma thread_of_later_rule :
  let a := DemoCache.ordered_app in
  let logdata := Demo.event Demo.thread_17_alice in
  let rule := DemoCache.ordered_session_rule in
  let m := Demo.capture [("thread", Some "17"); ("user", Some "alice");
                         ("status", Some "200")] in
  AppLogParser._thread a = true
  /\ AppLogParser.rules a = [DemoCache.ordered_status_rule; rule]
  /\ AppRule.filter_keys rule = ["user"]
  /\ search (AppRule.regexp rule) (LogData.message logdata) = Some m
  /\ m "user" = Some "alice"
  /\ m "thread" = Some "17"
  /\ exists a',
       AppLogParser.process a logdata = Ok ((true, Some false, None, None), a').
Proof.
  repeat split; try reflexivity.
  eexists. vm_compute. reflexivity.
Qed.


(** ** AppLogParser: construction and the full match flag *)

Lemma elem_of_insert_sorted {A} (lt : A -> A -> bool) (x y : A) (l : list A) :
  y ∈ Py.insert_sorted lt x l <-> y = x \/ y ∈ l.
Proof.
  induction l as [|z l IH]; simpl.
  - rewrite list_elem_of_singleton, elem_of_nil. tauto.
  - destruct (lt z x); rewrite !elem_of_cons; [rewrite IH|]; tauto.
Qed.

Lemma elem_of_sorted {A} (lt : A -> A -> bool) (y : A) (l : list A) :
  y ∈ Py.sorted lt l <-> y ∈ l.
Proof.
  unfold Py.sorted. induction l as [|x l IH]; simpl; [reflexivity|].
  rewrite elem_of_insert_sorted, elem_of_cons, IH. reflexivity.
Qed.

Lemma existsb_sorted {A} (lt : A -> A -> bool) (p : A -> bool) (l : list A) :
  existsb p (Py.sorted lt l) = existsb p l.
Proof.
  apply eq_true_iff_eq. rewrite !existsb_exists.
  split; intros (x & Hin & Hp); exists x; split; try assumption;
    apply list_elem_of_In; apply list_elem_of_In in Hin; by apply (elem_of_sorted lt).
Qed.

Lemma is_used_true (r : AppRule.t) : AppRule.is_used r = true.
Proof. reflexivity. Qed.

Lemma filter_is_used (rs : list AppRule.t) : List.filter AppRule.is_used rs = rs.
Proof. induction rs as [|r rs IH]; simpl; [reflexivity|]. by rewrite IH. Qed.


Lemma bind_Ok_inv {A B} (m : Result A) (k : A -> Result B) (b : B) :
  bind m k = Ok b -> exists a, m = Ok a /\ k a = Ok b.
Proof. destruct m as [a|e]; simpl; [eauto|discriminate]. Qed.

Section FullMatch.
Context `{Externals}.

Lemma rules_of_groups_built args th fields option pattern groups rs :
  Forall (fun filter_group => filter_group <> []) groups ->
  AppLogParser.rules_of_groups args th fields option pattern groups = Ok rs ->
  Forall (fun r0 => exists fk, built_with args fk r0) rs.
Proof.
  intros Hgroups. revert rs.
  induction Hgroups as [|g groups Hg _ IH]; simpl; intros rs Hrs.
  - injection Hrs as <-. constructor.
  - destruct (exact_sub pattern g) as [pat fk].
    apply bind_Ok_inv in Hrs as (here & Hhere & Hrs).
    apply bind_Ok_inv in Hrs as (rest & Hrest & [= <-]).
    apply Forall_app. split; [|by apply IH].
    destruct (_ <=? _)%nat eqn:Hlen; [|destruct th].
    + apply bind_Ok_inv in Hhere as (r & Hr & [= <-]).
      repeat constructor. exists (Some fk). split.
      * by exists option, (safe_substitute pat fields).
      * intros [= ->]. apply Nat.leb_le in Hlen. destruct g; [done|simpl in Hlen; lia].
    + apply bind_Ok_inv in Hhere as (r & Hr & [= <-]).
      repeat constructor. exists None. split; [|done].
      by exists option, (safe_substitute pat fields).
    + injection Hhere as <-. constructor.
Qed.

Lemma rules_of_options_built args th fields opts rs :
  Forall (fun filter_group => filter_group <> []) (Args.filters args) ->
  AppLogParser.rules_of_options args th fields opts = Ok rs ->
  Forall (fun r0 => exists fk, built_with args fk r0) rs.
Proof.
  intros Hgroups. revert rs.
  induction opts as [|[option value] opts IH]; simpl; intros rs Hrs.
  - injection Hrs as <-. constructor.
  - apply bind_Ok_inv in Hrs as (here & Hhere & Hrs).
    apply bind_Ok_inv in Hrs as (more & Hmore & [= <-]).
    apply Forall_app. split; [|by apply IH].
    destruct (Args.filters args) eqn:Hf.
    + apply bind_Ok_inv in Hhere as (r & Hr & [= <-]).
      repeat constructor. exists None. split; [|done].
      by exists option, (safe_substitute (strip_newlines value) fields).
    + by apply rules_of_groups_built in Hhere.
Qed.

Lemma constructed_flags args fk r0 :
  constructed args fk r0 ->
  AppRule.full_match r0 = Py.is_Some fk /\ AppRule.filter_keys r0 = default [] fk.
Proof. intros (n & p & Hinit). apply init_Ok_inv in Hinit as (re & _ & _ & ->). auto. Qed.

Lemma constructed_unmarked args fk r0 :
  constructed args fk r0 -> r0 = AppRule.set_used_by_report false r0.
Proof. intros (n & p & Hinit). apply init_Ok_inv in Hinit as (re & _ & _ & ->). auto. Qed.

(** A rule built with a list of filter keys that is not empty, or
    with none, is a full match exactly when it has filter keys. *)
Lemma built_with_flags args fk r0 :
  built_with args fk r0 ->
  AppRule.filter_keys r0 = default [] fk
  /\ AppRule.full_match r0 = Py.is_Some fk
  /\ (AppRule.full_match r0 = true <-> AppRule.filter_keys r0 <> []).
Proof.
  intros [Hc Hne]. destruct (constructed_flags args fk r0 Hc) as [-> ->].
  repeat split; destruct fk as [[|key keys]|]; simpl; try done.
Qed.

(** C3, as the code has it.  Let the application be constructed from
    options whose filters each name a field.  A rule of it is a rule
    that [AppRule.__init__] built, with the argument [filter_keys]
    either left out or a list with a key, the list that the rule
    keeps.  Its [full_match] is true exactly when the rule has filter
    keys or the application has no rule with filter keys; so a rule
    without filter keys, in an application where some rule has
    filter keys, has [full_match] false. *)
Theorem full_match_flag (name : string) (args : Args.t) (nc : option NameCache)
    (report : option Report) (fields : list (string * string))
    (rule_options : option (list (string * string))) (report_rules : list string)
    (a : AppLogParser.t) (r : AppRule.t) :
  AppLogParser.init name args nc report fields rule_options report_rules = Ok a ->
  Forall (fun filter_group => filter_group <> []) (Args.filters args) ->
  r ∈ AppLogParser.rules a ->
  AppLogParser.has_filters a
  = existsb (fun r => negb (Nat.eqb (length (AppRule.filter_keys r)) 0))
            (AppLogParser.rules a)
  /\ (exists fk r0 u,
        built_with args fk r0
        /\ r = AppRule.set_full_match
                 (Py.is_Some fk || negb (AppLogParser.has_filters a))
                 (AppRule.set_used_by_report u r0)
        /\ AppRule.filter_keys r = default [] fk)
  /\ (AppRule.full_match r = true
      <-> AppRule.filter_keys r <> [] \/ AppLogParser.has_filters a = false)
  /\ (AppRule.filter_keys r = [] -> AppLogParser.has_filters a = true ->
      AppRule.full_match r = false).
Proof.
  unfold AppLogParser.init, AppLogParser.parse_rules.
  destruct rule_options as [opts|]; [|discriminate]. simpl.
  destruct (AppLogParser.rules_of_options args _ fields opts) as [rs0|] eqn:Hrs0;
    [|discriminate].
  simpl. intros Hinit Hgroups. revert Hinit.
  apply (rules_of_options_built _ _ _ _ _ Hgroups) in Hrs0.
  set (rs1 := match report with
              | Some _ => AppLogParser.mark_report_rules report_rules rs0
              | None => rs0
              end).
  assert (Hrs1 : forall r1, r1 ∈ rs1 -> exists fk r0 u,
             built_with args fk r0 /\ r1 = AppRule.set_used_by_report u r0).
  { intros r1 Hin. subst rs1. rewrite Forall_forall in Hrs0. destruct report.
    - unfold AppLogParser.mark_report_rules in Hin.
      apply list_elem_of_fmap in Hin as (rr & -> & Hin0).
      destruct (Hrs0 rr Hin0) as [fk Hc].
      destruct (bool_decide _).
      + by exists fk, rr, true.
      + exists fk, rr, false. split; [assumption|].
        by apply (constructed_unmarked args fk), Hc.
    - destruct (Hrs0 r1 Hin) as [fk Hc].
      exists fk, r1, false. split; [assumption|].
      by apply (constructed_unmarked args fk), Hc. }
  clearbody rs1. unfold AppLogParser.arrange_rules. rewrite filter_is_used.
  destruct (existsb _ rs1) eqn:Hhf; intros [= <-]; simpl; intros Hin.
  - rewrite existsb_sorted, Hhf. apply elem_of_sorted in Hin.
    destruct (Hrs1 r Hin) as (fk & r0 & u & Hc & ->).
    destruct (built_with_flags _ _ _ Hc) as (Hfk & Hfm & Hiff).
    split; [reflexivity|]. split; [|split].
    + exists fk, r0, u. split; [exact Hc|]. split; [|exact Hfk].
      rewrite orb_false_r, <- Hfm. destruct r0; reflexivity.
    + simpl. rewrite Hiff. split; [auto|]. by intros [?|?].
    + simpl. intros Hnone _. apply not_true_is_false. intros Htrue.
      by apply Hiff in Htrue.
  - apply list_elem_of_fmap in Hin as (r1 & -> & Hin1).
    destruct (Hrs1 r1 Hin1) as (fk & r0 & u & Hc & ->).
    destruct (built_with_flags _ _ _ Hc) as (Hfk & Hfm & Hiff).
    split; [|split; [|split]].
    + symmetry. rewrite <- Hhf. clear. induction rs1 as [|x l IH]; simpl; [reflexivity|].
      by rewrite IH.
    + exists fk, r0, u. split; [exact Hc|]. split; [|exact Hfk].
      by rewrite orb_true_r.
    + simpl. split; auto.
    + discriminate.
Qed.
End FullMatch.

Section FullMatchExample.
#[local] Existing Instance Demo.externals.

(** The claim fails: the application [mixed_app] has filter rules; its
    rule [login] is a filter rule and has [full_match] true, its rule
    [status] has no filter keys and has [full_match] false. *)
Lemma full_match_flag_counterexample :
  Demo.mixed_app = Ok Demo.the_mixed_app
  /\ AppLogParser.has_filters Demo.the_mixed_app = true
  /\ AppLogParser.rules Demo.the_mixed_app = [Demo.mixed_status_rule; Demo.mixed_login_rule]
  /\ AppRule.filter_keys Demo.mixed_login_rule = ["user"]
  /\ AppRule.full_match Demo.mixed_login_rule = true
  /\ AppRule.filter_keys Demo.mixed_status_rule = []
  /\ AppRule.full_match Demo.mixed_status_rule = false.
Proof. repeat split; reflexivity. Qed.

(** The theorem at the two rules of [mixed_app]: the filter rule is a
    full match, the other rule is not. *)
Lemma full_match_flag_witness :
  let a := Demo.the_mixed_app in
  let filtered := Demo.mixed_login_rule in
  let untouched := Demo.mixed_status_rule in
  Demo.mixed_app = Ok a
  /\ Forall (fun filter_group => filter_group <> []) (Args.filters Demo.thread_args)
  /\ filtered ∈ AppLogParser.rules a
  /\ untouched ∈ AppLogParser.rules a
  /\ AppRule.filter_keys filtered = ["user"]
  /\ AppRule.filter_keys untouched = []
  /\ AppLogParser.has_filters a = true
  /\ (AppRule.full_match filtered = true
      <-> AppRule.filter_keys filtered <> [] \/ AppLogParser.has_filters a = false)
  /\ AppRule.full_match untouched = false
  /\ (exists fk r0 u,
        built_with Demo.thread_args fk r0
        /\ untouched = AppRule.set_full_match
                         (Py.is_Some fk || negb (AppLogParser.has_filters a))
                         (AppRule.set_used_by_report u r0)
        /\ AppRule.filter_keys untouched = default [] fk).
Proof.
  intros a filtered untouched.
  assert (H1 : Demo.mixed_app = Ok a) by reflexivity.
  assert (H2 : Forall (fun filter_group : FilterGroup => filter_group <> [])
                      (Args.filters Demo.thread_args)).
  { repeat constructor. discriminate. }
  assert (H3 : filtered ∈ AppLogParser.rules a).
  { apply list_elem_of_In. right. left. reflexivity. }
  assert (H4 : untouched ∈ AppLogParser.rules a).
  { apply list_elem_of_In. left. reflexivity. }
  assert (H5 : AppRule.filter_keys untouched = []) by reflexivity.
  assert (H6 : AppLogParser.has_filters a = true) by reflexivity.
  destruct (full_match_flag "app" Demo.thread_args None None []
              (Some [("login", Demo.login_option); ("status", Demo.status_pattern)]) []
              a filtered H1 H2 H3) as (_ & _ & Hiff & _).
  destruct (full_match_flag "app" Demo.thread_args None None []
              (Some [("login", Demo.login_option); ("status", Demo.status_pattern)]) []
              a untouched H1 H2 H4) as (_ & Hbuilt & _ & Hfalse).
  split; [exact H1|]. split; [exact H2|]. split; [exact H3|]. split; [exact H4|].
  split; [reflexivity|]. split; [exact H5|]. split; [exact H6|].
  split; [exact Hiff|]. split; [exact (Hfalse H5 H6)|]. exact Hbuilt.
Defined.

End FullMatchExample.
(** ** AppRule: top_events *)

Section TopEvents.
Context `{Externals}.
Variable results : list (Key * Z).
Variable pos : nat.
Hypothesis results_NoDup : NoDup (Py.dict_keys results).

Let field (key : Key) : option string := default None (key !! pos).
Let lt (a b : Key) : bool := Py.field_lt (field a) (field b).

Lemma dict_get_entry (d : list (Key * Z)) :
  NoDup (Py.dict_keys d) ->
  Forall (fun entry => Py.dict_get (fst entry) d = Some (snd entry)) d.
Proof.
  induction d as [|[k0 v0] d IH]; simpl; intros Hnd; [constructor|].
  apply NoDup_cons in Hnd as [Hnotin Hnd]. constructor.
  - simpl. destruct (decide (k0 = k0)); congruence.
  - specialize (IH Hnd). rewrite Forall_forall in IH |- *.
    intros [k v] Hin. simpl. destruct (decide (k0 = k)) as [->|Hne].
    + exfalso. apply Hnotin. unfold Py.dict_keys.
      apply list_elem_of_fmap. by exists (k, v).
    + apply (IH (k, v) Hin).
Qed.

Lemma block_total_entries (p : Key -> bool) (d : list (Key * Z)) :
  Forall (fun entry => Py.dict_get (fst entry) results = Some (snd entry)) d ->
  block_total results (List.filter p (Py.dict_keys d))
  = fold_right Z.add 0 (map snd (List.filter (fun entry => p (fst entry)) d)).
Proof.
  unfold block_total, count_of.
  induction 1 as [|[k v] d' Hk _ IH]; simpl; [reflexivity|].
  destruct (p k); simpl; [|exact IH].
  simpl in Hk. rewrite Hk. simpl. f_equal. exact IH.
Qed.

Lemma block_total_filter (p : Key -> bool) :
  block_total results (List.filter p (Py.dict_keys results))
  = fold_right Z.add 0 (map snd (List.filter (fun entry => p (fst entry)) results)).
Proof. apply block_total_entries, dict_get_entry, results_NoDup. Qed.

Lemma weight_count (key : Key) :
  key ∈ Py.dict_keys results ->
  AppRule.weight results None key = Ok (count_of results key).
Proof.
  intros Hin. unfold AppRule.weight, count_of.
  apply list_elem_of_fmap in Hin as ([k v] & -> & Hin).
  pose proof (dict_get_entry results results_NoDup) as Hall.
  rewrite Forall_forall in Hall. rewrite (Hall _ Hin). reflexivity.
Qed.

(** Keys with the value of the running group add to its total. *)
Lemma group_totals_block (num : nat) (v : string) (block rest : list Key)
    (tot : Z) (top : list (option AppRule.Slot)) :
  Forall (fun key => key ∈ Py.dict_keys results /\ key !! pos = Some (Some v)) block ->
  AppRule.group_totals num results pos None (block ++ rest) (Some v) tot top
  = AppRule.group_totals num results pos None rest (Some v) (tot + block_total results block) top.
Proof.
  intros Hb. revert tot. induction Hb as [|key block [Hin Hv] _ IH]; intros tot; simpl.
  - f_equal. unfold block_total. simpl. lia.
  - unfold AppRule.component. rewrite Hv. simpl.
    rewrite (weight_count key Hin). simpl.
    rewrite bool_decide_eq_true_2 by reflexivity. simpl.
    rewrite IH. f_equal. unfold block_total. simpl. lia.
Qed.

(** A key with another value closes the running group and opens its own. *)
Lemma group_totals_open (num : nat) (v : string) (key : Key) (rest : list Key)
    (value : option string) (tot : Z) (top : list (option AppRule.Slot)) :
  key ∈ Py.dict_keys results -> key !! pos = Some (Some v) -> value <> Some v ->
  AppRule.group_totals num results pos None (key :: rest) value tot top
  = bind (AppRule.classify num value tot top)
      (fun top' => AppRule.group_totals num results pos None rest (Some v)
                     (count_of results key) top').
Proof.
  intros Hin Hv Hne. simpl. unfold AppRule.component. rewrite Hv. simpl.
  rewrite (weight_count key Hin). simpl.
  destruct value as [v'|]; simpl; [|reflexivity].
  rewrite bool_decide_eq_false_2 by congruence. reflexivity.
Qed.

(** A whole group: its first key opens it, the others add to it. *)
Lemma group_totals_group (num : nat) (v : string) (group rest : list Key)
    (value : option string) (tot : Z) (top : list (option AppRule.Slot)) :
  group <> [] ->
  Forall (fun key => key ∈ Py.dict_keys results /\ key !! pos = Some (Some v)) group ->
  value <> Some v ->
  AppRule.group_totals num results pos None (group ++ rest) value tot top
  = bind (AppRule.classify num value tot top)
      (fun top' => AppRule.group_totals num results pos None rest (Some v)
                     (block_total results group) top').
Proof.
  intros Hne Hg Hval. destruct group as [|key group]; [done|].
  apply Forall_cons in Hg as [[Hin Hv] Hg]. simpl app.
  rewrite (group_totals_open num v key _ value tot top Hin Hv Hval).
  destruct (AppRule.classify num value tot top) as [top'|e]; simpl; [|reflexivity].
  rewrite (group_totals_block num v group rest _ top' Hg).
  f_equal.
Qed.

(** Sorting keys whose values are A, B or C puts the A's first, then
    the B's, then the C's, each group in the order of the table. *)
Lemma insert_sorted_pass (x : Key) (l1 l2 : list Key) :
  Forall (fun y => lt y x = true) l1 ->
  Py.insert_sorted lt x (l1 ++ l2) = l1 ++ Py.insert_sorted lt x l2.
Proof.
  induction 1 as [|y l1 Hy _ IH]; simpl; [reflexivity|]. by rewrite Hy, IH.
Qed.

Lemma insert_sorted_stop (x : Key) (l : list Key) :
  Forall (fun y => lt y x = false) l -> Py.insert_sorted lt x l = x :: l.
Proof. destruct 1 as [|y l Hy _]; simpl; [reflexivity|]. by rewrite Hy. Qed.

Lemma has_value_field (v : string) (key : Key) :
  has_value pos v key = true -> field key = Some v.
Proof.
  unfold has_value, field. intros Hv. apply bool_decide_eq_true_1 in Hv.
  by rewrite Hv.
Qed.

Lemma filter_fields (v : string) (keys : list Key) :
  Forall (fun y => field y = Some v) (List.filter (has_value pos v) keys).
Proof.
  apply Forall_forall. intros y Hin. apply list_elem_of_In, List.filter_In in Hin.
  apply has_value_field, Hin.
Qed.

Lemma has_value_at (v w : string) (key : Key) :
  key !! pos = Some (Some v) -> has_value pos w key = String.eqb v w.
Proof.
  intros Hv. unfold has_value. rewrite Hv.
  destruct (String.eqb_spec v w) as [->|Hne].
  - by apply bool_decide_eq_true_2.
  - apply bool_decide_eq_false_2. congruence.
Qed.

Lemma sorted_abc (keys : list Key) :
  Forall (abc pos) keys ->
  Py.sorted lt keys
  = List.filter (has_value pos "A") keys ++ List.filter (has_value pos "B") keys
    ++ List.filter (has_value pos "C") keys.
Proof.
  unfold Py.sorted.
  induction 1 as [|x keys Hx _ IH]; simpl; [reflexivity|]. rewrite IH.
  pose proof (filter_fields "A" keys) as HA.
  pose proof (filter_fields "B" keys) as HB.
  pose proof (filter_fields "C" keys) as HC.
  destruct Hx as [Hx|[Hx|Hx]]; rewrite !(has_value_at _ _ x Hx); simpl.
  - apply insert_sorted_stop. rewrite !Forall_app. repeat split;
      (eapply Forall_impl; [eassumption|]); intros y Hy; unfold lt, field at 2;
      rewrite Hy, Hx; reflexivity.
  - rewrite insert_sorted_pass.
    2:{ eapply Forall_impl; [exact HA|]. intros y Hy. unfold lt, field at 2.
        rewrite Hy, Hx. reflexivity. }
    f_equal. apply insert_sorted_stop. rewrite !Forall_app. split;
      (eapply Forall_impl; [eassumption|]); intros y Hy; unfold lt, field at 2;
      rewrite Hy, Hx; reflexivity.
  - rewrite insert_sorted_pass.
    2:{ eapply Forall_impl; [exact HA|]. intros y Hy. unfold lt, field at 2.
        rewrite Hy, Hx. reflexivity. }
    f_equal. rewrite insert_sorted_pass.
    2:{ eapply Forall_impl; [exact HB|]. intros y Hy. unfold lt, field at 2.
        rewrite Hy, Hx. reflexivity. }
    f_equal. apply insert_sorted_stop.
    eapply Forall_impl; [exact HC|]. intros y Hy. unfold lt, field at 2.
    rewrite Hy, Hx. reflexivity.
Qed.

Lemma sorted_by_field_abc (keys : list Key) :
  Forall (abc pos) keys ->
  AppRule.sorted_by_field pos keys
  = Ok (List.filter (has_value pos "A") keys ++ List.filter (has_value pos "B") keys
        ++ List.filter (has_value pos "C") keys).
Proof.
  intros Habc. unfold AppRule.sorted_by_field.
  assert (Hm : exists fields, mapM (fun key => AppRule.component key pos) keys = Ok fields
                              /\ existsb Py.is_None fields = false).
  { clear -Habc. induction Habc as [|x keys Hx _ (fields & Hf & Hn)]; simpl.
    - by exists [].
    - unfold AppRule.component at 1. rewrite Hf.
      destruct Hx as [Hx|[Hx|Hx]]; rewrite Hx; simpl; eexists; (split; [reflexivity|]);
        simpl; exact Hn. }
  destruct Hm as (fields & -> & Hn). simpl. rewrite Hn, andb_false_r.
  f_equal. apply (sorted_abc keys Habc).
Qed.

Lemma filter_group (v : string) :
  Forall (fun key => key ∈ Py.dict_keys results /\ key !! pos = Some (Some v))
         (List.filter (has_value pos v) (Py.dict_keys results)).
Proof.
  apply Forall_forall. intros key Hin. apply list_elem_of_In, List.filter_In in Hin.
  destruct Hin as [Hin Hv]. split; [by apply list_elem_of_In|].
  by apply bool_decide_eq_true_1 in Hv.
Qed.

Lemma group_nonempty (v : string) :
  group_total results pos v <> 0 ->
  List.filter (has_value pos v) (Py.dict_keys results) <> [].
Proof.
  intros Hne Hnil. apply Hne. unfold group_total.
  rewrite <- (block_total_filter (has_value pos v)), Hnil. reflexivity.
Qed.

Lemma top_events_abc (usemax : bool) (gid : string) (r : AppRule.t) :
  AppRule.results r = results ->
  Py.index gid (AppRule.key_gids r) = Some pos ->
  Forall (abc pos) (Py.dict_keys results) ->
  group_total results pos "A" = 10 ->
  group_total results pos "B" = 10 ->
  group_total results pos "C" = 7 ->
  AppRule.top_events 2 None usemax gid r
  = Ok [(10, [Some "A"; Some "B"]); (7, [Some "C"])].
Proof.
  intros Hres Hpos Habc HA HB HC. unfold AppRule.top_events. rewrite Hres, Hpos.
  assert (Hm : forall (X : Type) (x y : X),
             match results with [] => x | _ :: _ => y end = y).
  { intros X x y. clear -HA. destruct results; [discriminate|reflexivity]. }
  rewrite Hm. cbn [bind of_option].
  rewrite (sorted_by_field_abc _ Habc). simpl.
  rewrite (group_totals_group 2 "A" _ _ None 0 [None; None]);
    [|apply group_nonempty; lia|apply filter_group|discriminate].
  simpl.
  rewrite (group_totals_group 2 "B" _ _ (Some "A"));
    [|apply group_nonempty; lia|apply filter_group|discriminate].
  rewrite !block_total_filter. fold (group_total results pos "A").
  fold (group_total results pos "B"). rewrite HA, HB. simpl.
  rewrite <- (app_nil_r (List.filter (has_value pos "C") _)).
  rewrite (group_totals_group 2 "C" _ [] (Some "B"));
    [|apply group_nonempty; lia|apply filter_group|discriminate].
  rewrite block_total_filter. fold (group_total results pos "C"). rewrite HC.
  reflexivity.
Qed.

End TopEvents.

Lemma length_omap_id_le {A} (l : list (option A)) : (length (omap id l) <= length l)%nat.
Proof. induction l as [|[x|] l IH]; cbn in *; lia. Qed.

(** The list that [top_events] returns has at most [num] slots. *)
Lemma top_events_length `{Externals} (num : nat) (valfld : option string)
    (usemax : bool) (gid : string) (r : AppRule.t) (l : list AppRule.Slot) :
  AppRule.top_events num valfld usemax gid r = Ok l -> (length l <= num)%nat.
Proof.
  unfold AppRule.top_events. destruct (AppRule.results r) as [|e d].
  { intros [= <-]. simpl. lia. }
  intros Hl. apply bind_Ok_inv in Hl as (pos & _ & Hl).
  apply bind_Ok_inv in Hl as (val & _ & Hl).
  assert (Hsum : forall keys,
             bind (AppRule.group_totals num (e :: d) pos val keys None 0
                     (replicate num None))
                  (fun top' => Ok (omap id (take num top'))) = Ok l ->
             (length l <= num)%nat).
  { intros keys Hk. apply bind_Ok_inv in Hk as (top' & _ & [= <-]).
    etransitivity; [apply length_omap_id_le|]. rewrite length_take. lia. }
  destruct val as [v|].
  - destruct usemax.
    + apply bind_Ok_inv in Hl as (ks & _ & Hl).
      destruct (existsb _ ks); [discriminate|]. injection Hl as <-.
      rewrite length_map, length_take. lia.
    + apply bind_Ok_inv in Hl as (keys & _ & Hl). by apply (Hsum keys).
  - apply bind_Ok_inv in Hl as (keys & _ & Hl). by apply (Hsum keys).
Qed.

(** C6.  When the component [gid] of every result key is A, B or C and
    the counts add up to 10 for A, 10 for B and 7 for C, [top_events]
    with [num = 2] and no value field returns [(10, [A, B]), (7, [C])]:
    A and B, with equal totals, share the first slot; and whatever the
    arguments, the list returned has at most [num] slots. *)
Theorem top_events_tie_grouping `{Externals} (r : AppRule.t) (gid : string)
    (pos : nat) (usemax : bool) :
  Py.index gid (AppRule.key_gids r) = Some pos ->
  NoDup (Py.dict_keys (AppRule.results r)) ->
  Forall (abc pos) (Py.dict_keys (AppRule.results r)) ->
  group_total (AppRule.results r) pos "A" = 10 ->
  group_total (AppRule.results r) pos "B" = 10 ->
  group_total (AppRule.results r) pos "C" = 7 ->
  AppRule.top_events 2 None usemax gid r = Ok [(10, [Some "A"; Some "B"]); (7, [Some "C"])]
  /\ (forall num valfld l,
        AppRule.top_events num valfld usemax gid r = Ok l -> (length l <= num)%nat).
Proof.
  intros Hpos Hnd Habc HA HB HC. split.
  - by apply (top_events_abc (AppRule.results r) pos Hnd usemax gid r).
  - intros num valfld l. apply top_events_length.
Qed.

Section TopEventsExample.
#[local] Existing Instance Demo.externals.

Lemma top_events_tie_grouping_witness :
  let r := Demo.ranked_rule in
  Py.index "user" (AppRule.key_gids r) = Some 1%nat
  /\ NoDup (Py.dict_keys (AppRule.results r))
  /\ Forall (abc 1) (Py.dict_keys (AppRule.results r))
  /\ group_total (AppRule.results r) 1 "A" = 10
  /\ group_total (AppRule.results r) 1 "B" = 10
  /\ group_total (AppRule.results r) 1 "C" = 7
  /\ AppRule.top_events 2 None false "user" r
     = Ok [(10, [Some "A"; Some "B"]); (7, [Some "C"])]
  /\ (forall num valfld l,
        AppRule.top_events num valfld false "user" r = Ok l -> (length l <= num)%nat).
Proof.
  intros r.
  assert (H1 : Py.index "user" (AppRule.key_gids r) = Some 1%nat) by reflexivity.
  assert (H2 : NoDup (Py.dict_keys (AppRule.results r))).
  { apply (bool_decide_unpack _). vm_compute. reflexivity. }
  assert (H3 : Forall (abc 1) (Py.dict_keys (AppRule.results r))).
  { unfold abc. repeat (apply List.Forall_cons; [simpl; auto|]). apply List.Forall_nil. }
  assert (H4 : group_total (AppRule.results r) 1 "A" = 10) by reflexivity.
  assert (H5 : group_total (AppRule.results r) 1 "B" = 10) by reflexivity.
  assert (H6 : group_total (AppRule.results r) 1 "C" = 7) by reflexivity.
  repeat (split; [assumption|]).
  exact (top_events_tie_grouping r "user" 1 false H1 H2 H3 H4 H5 H6).
Defined.

End TopEventsExample.

(** ** The matcher: the year of an event *)

(** The string '1' is no admitted spelling of a month: [get_mktime]
    raises KeyError on it. *)
Lemma month_1_not_admitted : Py.dict_get "1" Matcher.MONTHMAP = None.
Proof. reflexivity. Qed.

Lemma get_mktime_month_1 `{Externals} (z : Z) (day ltime : string) :
  Matcher.get_mktime (Matcher.YearNumber z) "1" day ltime = Raise KeyError.
Proof. reflexivity. Qed.

(** With a file last modified in January, every admitted month gives
    the year before the year of the file: January too. *)
Lemma default_year_january_file (log_data : LogData.t) (file_year : Z) :
  In (LogData.month log_data) (Py.dict_keys Matcher.MONTHMAP) ->
  Matcher.default_year log_data file_year 1 (file_year - 1) = file_year - 1.
Proof.
  unfold Matcher.default_year. simpl.
  intros Hin. repeat (destruct Hin as [<-|Hin]; [reflexivity|]). destruct Hin.
Qed.

(** With a file last modified in another month, the year is the year of
    the file. *)
Lemma default_year_other_file (log_data : LogData.t) (file_year file_month : Z) :
  file_month <> 1 ->
  Matcher.default_year log_data file_year file_month (file_year - 1) = file_year.
Proof.
  unfold Matcher.default_year. intros Hne.
  destruct (Z.eqb_spec file_month 1) as [Heq|_]; [done|]. by rewrite andb_false_r.
Qed.

(** C2, where the code parts from it.  A file last modified in January
    2017 and an event of the month "Jan" without a year: line 165 takes
    the year 2016, the year before the year of the file; and so it does
    for the month "Dec". *)
Theorem year_inference_january_event :
  LogData.year (Demo.event Demo.alice_200) = None
  /\ LogData.month (Demo.event Demo.alice_200) = "Jan"
  /\ Matcher.year_of (Demo.event Demo.alice_200) 2017 1 (2017 - 1)
     = Matcher.YearNumber 2016
  /\ Matcher.year_of Demo.december_event 2017 1 (2017 - 1)
     = Matcher.YearNumber 2016.
Proof. repeat split; reflexivity. Qed.
(** ** The matcher: what the body of the loop leaves alone *)

Section Frame.
Context `{Externals} `{Collaborators}.
Variable eng : Matcher.Engine.
Variable logfile : Matcher.LogFile.
Variable applist : list AppRef.

Import Matcher.

Lemma kept_refl (s : Loop) : kept s s.
Proof. by split. Qed.

Lemma kept_trans (s1 s2 s3 : Loop) : kept s1 s2 -> kept s2 s3 -> kept s1 s3.
Proof. unfold kept. intros [-> ->] [-> ->]. by split. Qed.

Lemma settled_kept {A} (s1 s2 : Loop) (f : Flow A) :
  kept s1 s2 -> settled s2 f -> settled s1 f.
Proof.
  intros Hk. destruct f as [a s'|s'|s'|e]; simpl; [| |  |done].
  - by apply kept_trans.
  - intros [Hk' Hp]. split; [by apply (kept_trans _ s2)|done].
  - by apply kept_trans.
Qed.

Lemma settled_and_then {A B} (s : Loop) (f : Flow A) (k : A -> Loop -> Flow B) :
  settled s f -> (forall a s1, f = Next a s1 -> settled s1 (k a s1)) ->
  settled s (and_then f k).
Proof.
  destruct f as [a s'|s'|s'|e]; simpl; try done.
  intros Hk Hcont. apply (settled_kept s s'); [done|]. by apply Hcont.
Qed.

Lemma settled_attempt {A B} (s : Loop) (r : Result A) (k : A -> Flow B) :
  (forall a, r = Ok a -> settled s (k a)) -> settled s (attempt r k).
Proof. destruct r as [a|e]; simpl; [|done]. intros Hk. by apply Hk. Qed.

Ltac frame :=
  repeat first
    [ progress (simpl; unfold kept; simpl)
    | match goal with
      | |- settled _ (attempt _ _) => apply settled_attempt; intros
      | |- settled _ (match ?x with _ => _ end) => destruct x eqn:?
      | |- settled _ (if ?x then _ else _) => destruct x eqn:?
      | |- settled _ (let '(_, _) := ?x in _) => destruct x eqn:?
      | |- _ /\ _ => split
      end
    | done ].

Lemma count_line_kept (a : AppRef) (s s' : Loop) :
  count_line a s = Ok s' -> kept s s'.
Proof.
  unfold count_line, the_app. destruct (apps s !! a); simpl; [|done].
  intros [= <-]. by split.
Qed.

Lemma cache_line_kept (a : AppRef) (line : string) (th : option string) (s s' : Loop) :
  cache_line a line th s = Ok s' -> kept s s' /\ prev_data s' = prev_data s.
Proof.
  unfold cache_line, the_cache. destruct (caches s !! a); simpl; [|done].
  destruct (event_time s); simpl; [|done]. intros [= <-]. by repeat split.
Qed.

Lemma run_process_kept (a : AppRef) (log_data : LogData.t) (s s' : Loop)
    (rule_match : bool) (map_dict : option MapDict) :
  run_process a log_data s = Ok (rule_match, map_dict, s') -> kept s s'.
Proof.
  unfold run_process, the_app. destruct (apps s !! a); simpl; [|done].
  destruct (AppLogParser.process _ _) as [[[[[rm fm] th] md] o']|]; simpl; [|done].
  intros [= <- <- <-]. by split.
Qed.

Lemma note_event_time_kept (s s' : Loop) :
  note_event_time eng s = Ok s' -> kept s s'.
Proof.
  unfold note_event_time. destruct (make_report eng); [|by intros [= <-]].
  destruct (event_time s); simpl; [|done].
  destruct (first_event s), (last_event s); try done;
    repeat (destruct (_ <? _)); intros [= <-]; by split.
Qed.

Lemma try_candidates_kept (log_data : LogData.t) (cands : list AppRef)
    (s s' : Loop) (found : bool) :
  try_candidates log_data cands s = Ok (found, s') -> kept s s'.
Proof.
  revert s. induction cands as [|a cands IH]; simpl; intros s.
  - intros [= <- <-]. apply kept_refl.
  - destruct (run_process a log_data (set_app (Some a) s))
      as [[[rm md] s1]|] eqn:Hrun; simpl; [|done].
    apply run_process_kept in Hrun. destruct rm.
    + intros [= <- <-]. exact Hrun.
    + intros Hrest. apply IH in Hrest. eapply kept_trans; [exact Hrun|exact Hrest].
Qed.

Lemma check_time_settled (log_data : LogData.t) (s : Loop) :
  settled s (check_time eng logfile log_data s).
Proof. unfold check_time. frame. Qed.

Lemma check_host_settled (log_data : LogData.t) (s : Loop) :
  settled s (check_host eng log_data s).
Proof. unfold check_host. frame. Qed.

Lemma check_patterns_settled (line : string) (s : Loop) :
  settled s (check_patterns eng line s).
Proof. unfold check_patterns. frame. Qed.

Lemma candidates_settled (log_data : LogData.t) (cands : list AppRef) (s : Loop) :
  settled s (attempt (try_candidates log_data cands s)
               (fun '(found, s) =>
                  if found then Next tt s else Continue (set_prev_data None s))).
Proof.
  apply settled_attempt. intros [found s'] Hc. apply try_candidates_kept in Hc.
  destruct found; simpl; [exact Hc|]. split; [exact Hc|reflexivity].
Qed.

Lemma resolve_app_settled (log_data : LogData.t) (s : Loop) :
  settled s (resolve_app eng applist log_data s).
Proof.
  unfold resolve_app. destruct (parser_app (log_parser s)); [frame|].
  destruct (LogData.apptag log_data) as [apptag|]; [|frame].
  apply settled_attempt. intros [a|l] _; [frame|].
  destruct l as [|a0 more]; [frame|].
  destruct (_ || _); [frame|].
  apply (settled_kept s (set_app None s)); [by split|].
  apply candidates_settled.
Qed.

Lemma after_settled (line : string) (s : Loop) :
  settled s (attempt (note_event_time eng s) (fun s => Next line s)).
Proof. apply settled_attempt. intros s' Hn. by apply note_event_time_kept. Qed.

Lemma apply_rules_settled (line : string) (log_match : LogMatch)
    (log_data : LogData.t) (s : Loop) :
  settled s (apply_rules eng line log_match log_data s).
Proof.
  unfold apply_rules. destruct (app s) as [a|]; [|done].
  apply settled_attempt. intros s1 Hc. apply count_line_kept in Hc.
  apply (settled_kept s s1 _ Hc). clear Hc s.
  destruct (use_rules eng && _); [|apply kept_refl].
  apply settled_attempt. intros [[rule_match map_dict] s] Hrun.
  apply run_process_kept in Hrun. apply (settled_kept s1 s _ Hrun). clear Hrun s1.
  cbv zeta.
  repeat first
    [ apply after_settled
    | match goal with
      | |- settled _ (attempt (cache_line ?a ?l ?th ?s0) _) =>
          let Hc := fresh "Hc" in
          apply settled_attempt; intros ? Hc; apply cache_line_kept in Hc as [Hc _];
          apply (settled_kept _ _ _ Hc)
      | |- settled _ (attempt _ _) => apply settled_attempt; intros
      | |- settled _ (match ?x with _ => _ end) => destruct x eqn:?
      | |- settled _ (if ?x then _ else _) => destruct x eqn:?
      | |- settled _ (Continue (set_prev_data None _)) => by repeat split
      end ].
Qed.

Lemma parse_line_frame (line : string) (s : Loop) :
  match parse_line line s with
  | Next _ s' | Continue s' => kept s s' /\ prev_data s' = prev_data s
  | Break _ | Throw _ => False
  end.
Proof.
  unfold parse_line. destruct (parser_match _ line); [by repeat split|].
  destruct (detect _ line) as [[[p lm]|] ps]; by repeat split.
Qed.

Lemma repeat_line_frame (line : string) (log_data : LogData.t) (s : Loop) :
  match repeat_line eng line log_data s with
  | Next _ s' => kept s s' /\ LogData.repeat log_data = None
  | Continue s' =>
      sent s' = sent s /\ prev_data s' = None
      /\ (prev_data s = None -> matching_counter s' = matching_counter s)
      /\ LogData.repeat log_data <> None
  | Break _ => False
  | Throw _ => True
  end.
Proof.
  unfold repeat_line. destruct (LogData.repeat log_data) as [rep|]; [|by repeat split].
  destruct (prev_data s) as [prev|] eqn:Hprev.
  - destruct (py_int rep) as [n|]; simpl; [|done].
    destruct (use_rules eng); [|by destruct (thread eng)].
    destruct (previous_entry eng _) as [entry|]; simpl; [|done].
    destruct (as_application entry) as [a|]; simpl; [|done].
    destruct (the_app _ a) as [o|]; simpl; [|done].
    destruct (AppLogParser.increase_last n o) as [o'|]; simpl; [|done].
    destruct (count_line a _) as [s1|] eqn:Hc; simpl; [|done].
    apply count_line_kept in Hc as [Hs Hm]. simpl in Hs, Hm.
    destruct (app_thread s1) as [th|].
    + destruct (cache_line a line (Some th) s1) as [s2|] eqn:Hcl; simpl; [|done].
      apply cache_line_kept in Hcl as [[Hs2 Hm2] _].
      split; [rewrite Hs2, Hs; by destruct (thread eng)|]. by repeat split.
    + simpl. split; [rewrite Hs; by destruct (thread eng)|]. by repeat split.
  - destruct (app s) as [a|]; [|by repeat split].
    destruct (count_line a s) as [s1|] eqn:Hc; simpl; [|done].
    assert (Hp : prev_data s1 = prev_data s).
    { unfold count_line, the_app in Hc. destruct (apps s !! a); simpl in Hc; [|done].
      by injection Hc as <-. }
    apply count_line_kept in Hc as [Hs Hm]. repeat split; try done. congruence.
Qed.

(** Lines 161-306, after the repeat check. *)
Lemma selection_settled (line : string) (log_match : LogMatch)
    (log_data : LogData.t) (s : Loop) :
  settled s
    (and_then (check_time eng logfile log_data s) (fun _ s =>
     and_then (check_host eng log_data s) (fun _ s =>
     and_then (check_patterns eng line s) (fun _ s =>
     and_then (resolve_app eng applist log_data s) (fun _ s =>
     and_then (apply_rules eng line log_match log_data s) (fun line s =>
     Next (line, log_data) s)))))).
Proof.
  apply settled_and_then; [apply check_time_settled|]. intros _ s1 _.
  apply settled_and_then; [apply check_host_settled|]. intros _ s2 _.
  apply settled_and_then; [apply check_patterns_settled|]. intros _ s3 _.
  apply settled_and_then; [apply resolve_app_settled|]. intros _ s4 _.
  apply settled_and_then; [apply apply_rules_settled|]. intros line' s5 _.
  apply kept_refl.
Qed.

(** What [examine] leaves alone. *)
Lemma examine_frame (line : string) (s : Loop) :
  match examine eng logfile applist line s with
  | Next _ s' => kept s s'
  | Continue s' =>
      sent s' = sent s
      /\ (prev_data s = None ->
          prev_data s' = None /\ matching_counter s' = matching_counter s)
      /\ (ordinary line -> matching_counter s' = matching_counter s)
  | Break s' => kept s s'
  | Throw _ => True
  end.
Proof.
  unfold examine. pose proof (parse_line_frame line s) as Hparse.
  destruct (parse_line line s) as [[log_match log_data] s1|s1| |] eqn:Hp;
    simpl; try done.
  2:{ destruct Hparse as [[Hs Hm] Hprev]. split; [done|]. split; [|done].
      intros Hnone. split; congruence. }
  destruct Hparse as [[Hs Hm] Hprev].
  pose proof (repeat_line_frame line log_data s1) as Hrep.
  destruct (repeat_line eng line log_data s1) as [[] s2|s2| |]; simpl; try done.
  2:{ destruct Hrep as (Hs2 & Hp2 & Hm2 & Hr). split; [congruence|]. split.
      - intros Hnone. split; [done|]. rewrite Hm2; congruence.
      - intros Hord. by rewrite (Hord s log_match log_data s1 Hp) in Hr. }
  destruct Hrep as [[Hs2 Hm2] _].
  pose proof (selection_settled line log_match log_data s2) as Hsel.
  destruct (and_then (check_time _ _ _ _) _) as [x s3|s3|s3|e]; simpl in *.
  - destruct Hsel as [Hs3 Hm3]. split; congruence.
  - destruct Hsel as [[Hs3 Hm3] Hp3]. split; [congruence|]. split.
    + intros _. split; congruence.
    + intros _. congruence.
  - destruct Hsel as [Hs3 Hm3]. split; congruence.
  - done.
Qed.

(** Lines 317-330 for a line that counts. *)
Lemma dispatch_plain (line : string) (log_data : LogData.t) (s : Loop) :
  thread eng = false ->
  exists s',
    dispatch eng logfile applist line log_data s
    = (if max_count_reached (max_count eng) (matching_counter s + 1)
       then Break s' else Continue s')
    /\ matching_counter s' = matching_counter s + 1
    /\ sent s'
       = sent s ++
         (if send_selected eng
          then [LineEvent (logfile_name logfile)
                  (if line_number eng then Some (line_counter s) else None)
                  log_data line (pattern_match s)]
          else []).
Proof.
  intros Hth. unfold dispatch. rewrite Hth. simpl.
  destruct (send_selected eng); simpl; eexists; (split; [reflexivity|]); simpl;
    split; try reflexivity. by rewrite app_nil_r.
Qed.

Lemma step_examine (line : string) (s : Loop) :
  step eng logfile applist line s
  = match examine eng logfile applist line s with
    | Next (line', log_data) s' => dispatch eng logfile applist line' log_data s'
    | Continue s' => Continue s'
    | Break s' => Break s'
    | Throw e => Throw e
    end.
Proof. unfold step. by destruct (examine _ _ _ _ _) as [[]| | |]. Qed.


Lemma scan_app_break (pre post : list string) (s s1 : Loop) :
  scan eng logfile applist pre s = Break s1 ->
  scan eng logfile applist (pre ++ post) s = Break s1.
Proof.
  revert s. induction pre as [|line pre IH]; simpl; intros s; [done|].
  destruct (step _ _ _ line s); try done; apply IH.
Qed.

End Frame.
Section Runs.
Context `{Externals} `{Collaborators}.
Variable logfile : Matcher.LogFile.
Variable applist : list AppRef.

Import Matcher.

Lemma start_fresh ps hs aps cs out :
  prev_data (start ps hs aps cs out) = None
  /\ matching_counter (start ps hs aps cs out) = 0
  /\ sent (start ps hs aps cs out) = out.
Proof. unfold start. by destruct (next_parser ps). Qed.

(** *** Quiet mode *)






End Runs.

Section QuietExample.
#[local] Existing Instance Demo.externals.
#[local] Existing Instance DemoMatcher.collaborators.



(** In the concrete setting the scan of five matching lines in quiet
    mode stops after the first, and sends nothing. *)
Lemma quiet_mode_example :
  let run := Matcher.scan (Matcher.create_matcher_engine DemoMatcher.quiet_obj)
               (DemoMatcher.messages DemoMatcher.five_lines) ["app"]
               DemoMatcher.five_lines
               (DemoMatcher.begin None (Matcher.obj_args DemoMatcher.quiet_obj)) in
  let s := DemoMatcher.final run
             (DemoMatcher.begin None (Matcher.obj_args DemoMatcher.quiet_obj)) in
  DemoMatcher.left_early run = true
  /\ Matcher.line_counter s = 1
  /\ Matcher.matching_counter s = 1
  /\ Matcher.sent s = [].
Proof. vm_compute. repeat split; reflexivity. Qed.

End QuietExample.
(** *** The maximum of matches *)

Section Bounded.
Context `{Externals} `{Collaborators}.
Variable eng : Matcher.Engine.
Variable logfile : Matcher.LogFile.
Variable applist : list AppRef.
Variable k : Z.

Import Matcher.

Hypothesis plain : thread eng = false.
Hypothesis sending : send_selected eng = true.
Hypothesis bounded : max_count eng = Some k.
Hypothesis positive : 0 < k.

Let unbounded : Engine := with_max_count None eng.

(** One line, with and without the maximum. *)
Lemma step_bounded (line : string) (s : Loop) :
  ordinary line -> matching_counter s < k ->
  match step unbounded logfile applist line s with
  | Next _ _ => False
  | Continue s' =>
      (~ matches_line eng logfile applist line s
       /\ kept s s' /\ step eng logfile applist line s = Continue s')
      \/ (matches_line eng logfile applist line s
          /\ matching_counter s' = matching_counter s + 1
          /\ (exists e, is_line_event e /\ sent s' = sent s ++ [e])
          /\ step eng logfile applist line s
             = if k <=? matching_counter s' then Break s' else Continue s')
  | Break s' => kept s s' /\ step eng logfile applist line s = Break s'
  | Throw e => step eng logfile applist line s = Throw e
  end.
Proof.
  intros Hord Hlt. rewrite !step_examine. unfold matches_line.
  change (examine unbounded logfile applist line s)
    with (examine eng logfile applist line s).
  pose proof (examine_frame eng logfile applist line s) as Hex.
  destruct (examine eng logfile applist line s) as [[line' log_data] s1|s1|s1|e] eqn:He.
  - destruct Hex as [Hs Hm].
    destruct (dispatch_plain unbounded logfile applist line' log_data s1 plain)
      as (su & Hu & Hmu & Hsu).
    destruct (dispatch_plain eng logfile applist line' log_data s1 plain)
      as (sb & Hb & Hmb & Hsb).
    assert (su = sb) as ->.
    { unfold dispatch in Hu, Hb. change (thread unbounded) with (thread eng) in Hu.
      rewrite plain in Hu, Hb. simpl in Hu, Hb.
      change (send_selected unbounded) with (send_selected eng) in Hu.
      change (line_number unbounded) with (line_number eng) in Hu.
      rewrite bounded in Hb. simpl in Hb.
      destruct (negb (k =? 0) && (k <=? matching_counter s1 + 1)) eqn:Hr;
        destruct (send_selected eng); simpl in Hu, Hb; rewrite ?Hr in Hb;
        congruence. }
    rewrite Hu, Hb. simpl. right. split; [eauto|]. split; [lia|]. split.
    + rewrite Hsb, sending, Hs. eexists. split; [|reflexivity]. exact I.
    + rewrite bounded. simpl. rewrite Hmb.
      replace (negb (k =? 0)) with true by (symmetry; apply negb_true_iff; lia).
      reflexivity.
  - destruct Hex as (Hs & _ & Hm). left. split; [by intros (x & s' & [=])|].
    split; [split; [done|by apply Hm]|done].
  - done.
  - done.
Qed.

(** C7, as the code has it.  In non-thread mode, with the lines sent
    out as they match and a maximum of [k] matches, take a file that
    holds no 'message repeated' line and in which, scanned without the
    maximum, [k] lines or more match.  Then the scan stops at the line
    that is the [k]-th to match: the lines after it are not read,
    whatever they are, and exactly [k] events, all of them line
    events, have been sent. *)
Theorem max_count_termination (ps : Parsers) (hs : gset string)
    (aps : gmap string AppLogParser.t) (cs : gmap string Cache) (out : list Event)
    (ls : list string) (s_all : Loop) :
  Forall ordinary ls ->
  let s0 := start ps hs aps cs out in
  (scan unbounded logfile applist ls s0 = Continue s_all
   \/ scan unbounded logfile applist ls s0 = Break s_all) ->
  k <= matching_counter s_all ->
  exists pre line post s1 s' new,
    ls = pre ++ line :: post
    /\ scan eng logfile applist pre s0 = Continue s1
    /\ matching_counter s1 = k - 1
    /\ matches_line eng logfile applist line s1
    /\ (forall rest, scan eng logfile applist (pre ++ line :: rest) s0 = Break s')
    /\ matching_counter s' = k
    /\ sent s' = out ++ new
    /\ length new = Z.to_nat k
    /\ Forall is_line_event new.
Proof.
  intros Hord s0 Hall Hk.
  destruct (start_fresh ps hs aps cs out) as (_ & Hm0 & Hs0). fold s0 in Hm0, Hs0.
  assert (Hinv : exists new0, sent s0 = out ++ new0
                              /\ Z.of_nat (length new0) = matching_counter s0
                              /\ Forall is_line_event new0).
  { exists []. rewrite app_nil_r, Hm0. by repeat split. }
  assert (Hlt : matching_counter s0 < k) by lia.
  clearbody s0. clear Hm0 Hs0. revert s0 Hall Hinv Hlt.
  induction Hord as [|line ls Hline _ IH]; intros s Hall Hinv Hlt.
  { simpl in Hall. destruct Hall as [[= <-]|[=]]. lia. }
  simpl in Hall. pose proof (step_bounded line s Hline Hlt) as Hstep.
  destruct (step unbounded logfile applist line s) as [x s1|s1|s1|e] eqn:Hu;
    try done.
  - destruct Hstep as [(Hno & [Hs1 Hm1] & Hb)|(Hyes & Hm1 & (e & He & Hs1) & Hb)].
    + destruct (IH s1 Hall) as (pre & l & post & s2 & s' & new & -> & Hpre & Hrest).
      { destruct Hinv as (new0 & ? & ? & ?). exists new0. repeat split; congruence. }
      { lia. }
      exists (line :: pre), l, post, s2, s', new. split; [done|].
      simpl. rewrite Hb. destruct Hrest as (? & ? & Hstop & ? & ? & ? & ?).
      repeat split; try done.
    + destruct (Z.leb_spec k (matching_counter s1)) as [Hge|Hlt1].
      * destruct Hinv as (new0 & Hs & Hlen & Hline0).
        exists [], line, ls, s, s1, (new0 ++ [e]). simpl. rewrite Hb.
        repeat split; try done; try lia.
        -- by rewrite Hs1, Hs, app_assoc.
        -- rewrite length_app. simpl. lia.
        -- apply Forall_app. split; [done|]. by constructor.
      * destruct (IH s1 Hall) as (pre & l & post & s2 & s' & new & -> & Hpre & Hrest).
        { destruct Hinv as (new0 & Hs & Hlen & Hline0). exists (new0 ++ [e]).
          repeat split.
          - by rewrite Hs1, Hs, app_assoc.
          - rewrite length_app. simpl. lia.
          - apply Forall_app. split; [done|]. by constructor. }
        { lia. }
        exists (line :: pre), l, post, s2, s', new. split; [done|].
        simpl. rewrite Hb. destruct Hrest as (? & ? & Hstop & ? & ? & ? & ?).
        repeat split; try done.
  - destruct Hstep as [[Hs1 Hm1] Hb]. destruct Hall as [[=]|[= <-]]. lia.
  - by destruct Hall.
Qed.
End Bounded.

Section MaxCountExample.
#[local] Existing Instance Demo.externals.
#[local] Existing Instance DemoMatcher.collaborators.

Lemma ran_to_end_final (f : Matcher.Flow unit) (d : Matcher.Loop) :
  DemoMatcher.ran_to_end f = true -> f = Matcher.Continue (DemoMatcher.final f d).
Proof. by destruct f. Defined.

Lemma left_early_final (f : Matcher.Flow unit) (d : Matcher.Loop) :
  DemoMatcher.left_early f = true -> f = Matcher.Break (DemoMatcher.final f d).
Proof. by destruct f. Defined.

Lemma demo_ordinary (line : string) : DemoMatcher.plain_line line = true -> ordinary line.
Proof.
  unfold DemoMatcher.plain_line. intros Hplain s lm ld s1.
  unfold Matcher.parse_line. cbv zeta.
  change (parser_match _ line) with (Py.dict_get line DemoMatcher.parsed).
  destruct (Py.dict_get line DemoMatcher.parsed) as [log_data|]; simpl; [|done].
  intros [= <- <- <-]. by destruct (LogData.repeat log_data).
Defined.

Lemma five_lines_ordinary : Forall ordinary DemoMatcher.five_lines.
Proof. repeat constructor; apply demo_ordinary; vm_compute; reflexivity. Defined.

(** The claim fails: with a maximum of 3 and a file of five matching
    lines, the first followed by 'last message repeated 5 times', the
    scan stops at the third line of the file and two events are sent,
    not three.  Without the maximum the five lines are all sent. *)
Lemma max_count_termination_counterexample :
  let eng := DemoMatcher.engine_max (Some 3) in
  let begin := DemoMatcher.begin None (DemoMatcher.args_with false (Some 3) false) in
  let bounded := DemoMatcher.final (DemoMatcher.scan_max (Some 3) DemoMatcher.six_lines)
                   begin in
  let unbounded := DemoMatcher.final (DemoMatcher.scan_max None DemoMatcher.six_lines)
                     begin in
  Matcher.thread eng = false
  /\ Matcher.max_count eng = Some 3
  /\ Matcher.send_selected eng = true
  /\ DemoMatcher.ran_to_end (DemoMatcher.scan_max None DemoMatcher.six_lines) = true
  /\ length (Matcher.sent unbounded) = 5%nat
  /\ DemoMatcher.left_early (DemoMatcher.scan_max (Some 3) DemoMatcher.six_lines) = true
  /\ Matcher.line_counter bounded = 3
  /\ Matcher.matching_counter bounded = 7
  /\ length (Matcher.sent bounded) = 2%nat.
Proof. vm_compute. repeat split; reflexivity. Qed.

Lemma max_count_termination_witness :
  let eng := DemoMatcher.engine_max (Some 2) in
  let logfile := DemoMatcher.messages DemoMatcher.five_lines in
  let s0 := DemoMatcher.begin None (DemoMatcher.args_with false (Some 2) false) in
  let s_all := DemoMatcher.final
                 (Matcher.scan (Matcher.with_max_count None eng) logfile ["app"]
                    DemoMatcher.five_lines s0) s0 in
  Matcher.thread eng = false
  /\ Matcher.send_selected eng = true
  /\ Matcher.max_count eng = Some 2
  /\ 0 < 2
  /\ Forall ordinary DemoMatcher.five_lines
  /\ (Matcher.scan (Matcher.with_max_count None eng) logfile ["app"]
        DemoMatcher.five_lines s0 = Matcher.Continue s_all
      \/ Matcher.scan (Matcher.with_max_count None eng) logfile ["app"]
           DemoMatcher.five_lines s0 = Matcher.Break s_all)
  /\ 2 <= Matcher.matching_counter s_all
  /\ exists pre line post s1 s' new,
      DemoMatcher.five_lines = pre ++ line :: post
      /\ Matcher.scan eng logfile ["app"] pre s0 = Matcher.Continue s1
      /\ Matcher.matching_counter s1 = 2 - 1
      /\ matches_line eng logfile ["app"] line s1
      /\ (forall rest, Matcher.scan eng logfile ["app"] (pre ++ line :: rest) s0
                       = Matcher.Break s')
      /\ Matcher.matching_counter s' = 2
      /\ Matcher.sent s' = [] ++ new
      /\ length new = Z.to_nat 2
      /\ Forall is_line_event new.
Proof.
  intros eng logfile s0 s_all.
  assert (H1 : Matcher.thread eng = false) by reflexivity.
  assert (H2 : Matcher.send_selected eng = true) by reflexivity.
  assert (H3 : Matcher.max_count eng = Some 2) by reflexivity.
  assert (H4 : 0 < 2) by lia.
  assert (H5 : Forall ordinary DemoMatcher.five_lines) by exact five_lines_ordinary.
  assert (H6 : Matcher.scan (Matcher.with_max_count None eng) logfile ["app"]
                 DemoMatcher.five_lines s0 = Matcher.Continue s_all
               \/ Matcher.scan (Matcher.with_max_count None eng) logfile ["app"]
                    DemoMatcher.five_lines s0 = Matcher.Break s_all).
  { left. apply ran_to_end_final. vm_compute. reflexivity. }
  assert (H7 : 2 <= Matcher.matching_counter s_all) by (vm_compute; discriminate).
  repeat (split; [assumption|]).
  exact (max_count_termination eng logfile
           ["app"] 2 H1 H2 H3 H4 (DemoMatcher.cycle None) ∅
           (DemoMatcher.applications (DemoMatcher.args_with false (Some 2) false))
           DemoMatcher.empty_caches [] DemoMatcher.five_lines s_all H5 H6 H7).
Defined.

(** The example of the claim: a maximum of 2 and five matching lines;
    the scan stops at the second line and two events are sent. *)
Lemma max_count_two_of_five :
  let run := DemoMatcher.scan_max (Some 2) DemoMatcher.five_lines in
  let s := DemoMatcher.final run
             (DemoMatcher.begin None (DemoMatcher.args_with false (Some 2) false)) in
  DemoMatcher.left_early run = true
  /\ Matcher.line_counter s = 2
  /\ Matcher.matching_counter s = 2
  /\ length (Matcher.sent s) = 2%nat.
Proof. vm_compute. repeat split; reflexivity. Qed.

End MaxCountExample.

(** ** The matcher: 'last message repeated N times' *)

Section Repeat.
Context `{Externals} `{Collaborators}.
Variable eng : Matcher.Engine.

Import Matcher.

(** [AppRule.increase_last] on a rule with a last result key: the
    count of that key grows by [k], and the table gets no new key. *)
Lemma rule_increase_last_count (k c : Z) (rule : AppRule.t) (idx : Key) :
  AppRule._last_idx rule = Some idx ->
  Py.dict_get idx (AppRule.results rule) = Some c ->
  exists rule',
    AppRule.increase_last k rule = Ok rule'
    /\ Py.dict_get idx (AppRule.results rule') = Some (c + k)
    /\ Py.dict_keys (AppRule.results rule') = Py.dict_keys (AppRule.results rule)
    /\ (forall key, key <> idx ->
          Py.dict_get key (AppRule.results rule')
          = Py.dict_get key (AppRule.results rule)).
Proof.
  intros Hidx Hc. unfold AppRule.increase_last. rewrite Hidx, Hc. simpl.
  eexists. split; [reflexivity|]. simpl. split; [apply dict_get_set_eq|].
  split; [by apply (dict_keys_set_present idx (c + k) c)|].
  intros key Hne. by apply dict_get_set_ne.
Qed.

(** [AppLogParser.increase_last]: the same of the last matched rule;
    the other rules stay as they are. *)
Lemma app_increase_last_count (k c : Z) (o : AppLogParser.t) (i : nat)
    (rule : AppRule.t) (idx : Key) :
  AppLogParser._last_rule o = Some i ->
  AppLogParser.rules o !! i = Some rule ->
  AppRule._last_idx rule = Some idx ->
  Py.dict_get idx (AppRule.results rule) = Some c ->
  exists o' rule',
    AppLogParser.increase_last k o = Ok o'
    /\ AppLogParser.rules o' !! i = Some rule'
    /\ Py.dict_get idx (AppRule.results rule') = Some (c + k)
    /\ Py.dict_keys (AppRule.results rule') = Py.dict_keys (AppRule.results rule)
    /\ (forall j, j <> i -> AppLogParser.rules o' !! j = AppLogParser.rules o !! j)
    /\ AppLogParser.counter o' = AppLogParser.counter o.
Proof.
  intros Hlast Hi Hidx Hc. unfold AppLogParser.increase_last. rewrite Hlast, Hi.
  destruct (rule_increase_last_count k c rule idx Hidx Hc)
    as (rule' & -> & Hget & Hkeys & _).
  simpl. exists (AppLogParser.set_rules (<[i := rule']> (AppLogParser.rules o)) o), rule'.
  split; [reflexivity|]. simpl. split.
  - apply list_lookup_insert_eq. by apply lookup_lt_Some in Hi.
  - repeat split; try done. intros j Hj. by apply list_lookup_insert_ne.
Qed.

(** Lines 134-158 when the entry of the tag is an application: the
    count of the last result key of the last matched rule grows by
    the repeat count, no key is added, the line counter of the
    application grows by one, nothing is sent and the rules are not
    run. *)
Lemma repeat_line_increases (line rep : string) (log_data prev : LogData.t)
    (s : Loop) (n c : Z) (a : AppRef) (o : AppLogParser.t) (i : nat)
    (rule : AppRule.t) (idx : Key) :
  LogData.repeat log_data = Some rep ->
  py_int rep = Some n ->
  prev_data s = Some prev ->
  use_rules eng = true ->
  previous_entry eng (LogData.apptag prev) = Ok (OneApp a) ->
  apps s !! a = Some o ->
  AppLogParser._last_rule o = Some i ->
  AppLogParser.rules o !! i = Some rule ->
  AppRule._last_idx rule = Some idx ->
  Py.dict_get idx (AppRule.results rule) = Some c ->
  app_thread s = None ->
  exists s' o' rule',
    repeat_line eng line log_data s = Continue s'
    /\ apps s' !! a = Some o'
    /\ AppLogParser.counter o' = AppLogParser.counter o + 1
    /\ AppLogParser.rules o' !! i = Some rule'
    /\ Py.dict_get idx (AppRule.results rule') = Some (c + n)
    /\ Py.dict_keys (AppRule.results rule') = Py.dict_keys (AppRule.results rule)
    /\ (forall j, j <> i -> AppLogParser.rules o' !! j = AppLogParser.rules o !! j)
    /\ sent s' = sent s
    /\ prev_data s' = None.
Proof.
  intros Hrep Hint Hprev Huse Hentry Ho Hlast Hi Hidx Hc Hth.
  destruct (app_increase_last_count n c o i rule idx Hlast Hi Hidx Hc)
    as (o' & rule' & Hinc & Hi' & Hget & Hkeys & Hothers & Hcount).
  unfold repeat_line. rewrite Hrep, Hprev, Hint, Huse, Hentry. simpl.
  assert (Happ : forall s0, apps s0 = apps s ->
             the_app (set_app (Some a) s0) a = Ok o).
  { intros s0 Hs0. unfold the_app. simpl. by rewrite Hs0, Ho. }
  destruct (thread eng); rewrite Happ by reflexivity; simpl; rewrite Hinc; simpl;
    unfold count_line, the_app; simpl; rewrite lookup_insert_eq; simpl;
    rewrite Hth; simpl;
    (eexists; exists (AppLogParser.set_counter (AppLogParser.counter o' + 1) o'), rule';
     split; [reflexivity|]; simpl; rewrite lookup_insert_eq;
     repeat split; try done; simpl; by rewrite Hcount).
Qed.

(** Lines 134-158 when the entry of the tag is the list of the
    applications that carry it, as lines 232-245 take it to be:
    [app.increase_last] is called on the list, and raises. *)
Lemma repeat_line_on_list (line rep : string) (log_data prev : LogData.t)
    (s : Loop) (n : Z) (l : list AppRef) :
  LogData.repeat log_data = Some rep ->
  py_int rep = Some n ->
  prev_data s = Some prev ->
  use_rules eng = true ->
  previous_entry eng (LogData.apptag prev) = Ok (AppList l) ->
  repeat_line eng line log_data s = Throw AttributeError.
Proof.
  intros Hrep Hint Hprev Huse Hentry. unfold repeat_line.
  by rewrite Hrep, Hprev, Hint, Huse, Hentry.
Qed.

(** The tag of a line that lines 232-245 resolved is bound to a
    list: on an application they raise TypeError. *)
Lemma resolve_app_on_application (applist : list AppRef) (log_data : LogData.t)
    (s : Loop) (apptag : string) (a : AppRef) :
  parser_app (log_parser s) = None ->
  LogData.apptag log_data = Some apptag ->
  Py.dict_get apptag (tagmap eng) = Some (OneApp a) ->
  resolve_app eng applist log_data s = Throw TypeError.
Proof.
  intros Hp Htag Hentry. unfold resolve_app, tag_apps_of.
  by rewrite Hp, Htag, Hentry.
Qed.

End Repeat.

Section RepeatExample.
#[local] Existing Instance Demo.externals.
#[local] Existing Instance DemoMatcher.collaborators.

(** C5, where the code parts from it.  With the rules in use and the
    tag [app] bound to the list of its applications, the line [line1]
    matches the rule [status] of [app] and records a result key with
    count 1; on the line 'last message repeated 5 times' that follows,
    the scan raises AttributeError: the count is not raised. *)
Theorem repeat_line_attribute_error :
  let first := DemoMatcher.scan_rules DemoMatcher.tagmap_of_lists None
                 [DemoMatcher.line1] in
  let s1 := DemoMatcher.final first (DemoMatcher.begin None DemoMatcher.rules_args) in
  DemoMatcher.ran_to_end first = true
  /\ DemoMatcher.status_results s1 = [([Some "host1"; Some "200"], 1)]
  /\ DemoMatcher.plain_line DemoMatcher.line_repeated = false
  /\ DemoMatcher.scan_rules DemoMatcher.tagmap_of_lists None
       [DemoMatcher.line1; DemoMatcher.line_repeated]
     = Matcher.Throw AttributeError.
Proof. vm_compute. repeat split; reflexivity. Qed.

(** With a parser that knows its application and the tag bound to the
    application itself, the same two lines leave the one key with the
    count 1 + 5 and the line counter of the application at 2. *)
Lemma repeat_line_example :
  let run := DemoMatcher.scan_rules DemoMatcher.tagmap_of_apps (Some "app")
               [DemoMatcher.line1; DemoMatcher.line_repeated] in
  let s := DemoMatcher.final run (DemoMatcher.begin None DemoMatcher.rules_args) in
  DemoMatcher.ran_to_end run = true
  /\ DemoMatcher.status_results s = [([Some "host1"; Some "200"], 6)]
  /\ DemoMatcher.app_counter s = 2.
Proof. vm_compute. repeat split; reflexivity. Qed.

End RepeatExample.

(** * More of the rule engine *)

(** ** AppRule: add_result and increase_last *)

Lemma dict_keys_set_absent {K V} `{EqDecision K} (k : K) (v : V) (d : list (K * V)) :
  Py.dict_get k d = None -> Py.dict_keys (Py.dict_set k v d) = Py.dict_keys d ++ [k].
Proof.
  induction d as [|[k' v'] d IH]; simpl; [reflexivity|].
  destruct (decide (k' = k)); [discriminate|]. intros Hd. simpl. by rewrite (IH Hd).
Qed.

Lemma values_of_missing (values : gmap string (option string)) (keys : list string) :
  Exists (fun gid => values !! gid = None) keys ->
  mapM (AppRule.value_of values) keys = Raise KeyError.
Proof.
  induction 1 as [key keys Hk|key keys _ IH]; simpl.
  - unfold AppRule.value_of at 1. by rewrite Hk.
  - unfold AppRule.value_of at 1. destruct (values !! key); simpl; [|reflexivity].
    by rewrite IH.
Qed.

Lemma next_count (o : option Z) :
  Some (match o with Some c => c + 1 | None => 1 end) = Some (default 0 o + 1).
Proof. by destruct o. Qed.

(** X1.  What [add_result] does (lines 108-122).  When [values] holds
    [host] and every other key gid of the rule, the key made of their
    values gets the count 1 if it is new, and one more than it had
    otherwise; it becomes the last result key; a new key goes last in
    the table, no other key changes.  When [values] lacks one of these
    gids, the call raises KeyError. *)
Theorem add_result_counts (values : gmap string (option string)) (r : AppRule.t) :
  let gids := "host" :: tail (AppRule.key_gids r) in
  let idx := key_of values r in
  (Forall (present values) gids ->
   exists r',
     AppRule.add_result values r = Ok r'
     /\ AppRule._last_idx r' = Some idx
     /\ Py.dict_get idx (AppRule.results r') = Some (count_of (AppRule.results r) idx + 1)
     /\ (forall key, key <> idx ->
           Py.dict_get key (AppRule.results r') = Py.dict_get key (AppRule.results r))
     /\ Py.dict_keys (AppRule.results r')
        = Py.dict_keys (AppRule.results r)
          ++ (if Py.is_Some (Py.dict_get idx (AppRule.results r)) then [] else [idx])
     /\ AppRule.key_gids r' = AppRule.key_gids r
     /\ AppRule.filter_keys r' = AppRule.filter_keys r
     /\ AppRule.full_match r' = AppRule.full_match r)
  /\ (Exists (fun gid => values !! gid = None) gids ->
      AppRule.add_result values r = Raise KeyError).
Proof.
  intros gids idx. unfold count_of, Key in *. split.
  - intros Hall. apply Forall_cons in Hall as [[h Hh] Hrest].
    unfold AppRule.add_result. unfold AppRule.value_of at 1. rewrite Hh. simpl.
    rewrite (values_of_present _ _ Hrest). simpl.
    assert (Hidx : h :: map (fun key => default None (values !! key))
                          (tail (AppRule.key_gids r)) = idx).
    { unfold idx, key_of. simpl. by rewrite Hh. }
    rewrite Hidx. eexists. split; [reflexivity|]. simpl.
    split; [reflexivity|]. split.
    { rewrite dict_get_set_eq. apply next_count. }
    split; [intros key Hne; by apply dict_get_set_ne|].
    split; [|done].
    destruct (Py.dict_get idx (AppRule.results r)) as [c|] eqn:Hc.
    + rewrite app_nil_r. by apply (dict_keys_set_present idx (c + 1) c).
    + by apply dict_keys_set_absent.
  - intros Hex. unfold AppRule.add_result. apply Exists_cons in Hex as [Hh|Hrest].
    + unfold AppRule.value_of at 1. by rewrite Hh.
    + unfold AppRule.value_of at 1. destruct (values !! "host"); simpl; [|reflexivity].
      by rewrite (values_of_missing _ _ Hrest).
Qed.

(** X2.  The last result key of a rule is a key of its table of results: a
    new rule has none, [add_result] sets it to the key it counts, and
    on such a rule [increase_last(k)] never raises: it adds [k] to the
    count of the last key, keeps the keys and their order, and keeps
    the last key. *)
Theorem last_idx_tracked `{Externals} :
  (forall name pattern args fk r, AppRule.init name pattern args fk = Ok r ->
     AppRule._last_idx r = None /\ AppRule.results r = [] /\ tracked r)
  /\ (forall values r r', AppRule.add_result values r = Ok r' -> tracked r')
  /\ (forall k r, tracked r ->
        exists r', AppRule.increase_last k r = Ok r'
                   /\ tracked r'
                   /\ AppRule._last_idx r' = AppRule._last_idx r
                   /\ Py.dict_keys (AppRule.results r') = Py.dict_keys (AppRule.results r)
                   /\ forall idx, AppRule._last_idx r = Some idx ->
                        Py.dict_get idx (AppRule.results r')
                        = Some (count_of (AppRule.results r) idx + k)
                        /\ forall key, key <> idx ->
                             Py.dict_get key (AppRule.results r')
                             = Py.dict_get key (AppRule.results r)).
Proof.
  split; [|split].
  - intros name pattern args fk r Hinit.
    apply init_Ok_inv in Hinit as (re & _ & _ & ->). by repeat split.
  - intros values r r'. unfold AppRule.add_result.
    destruct (AppRule.value_of values "host") as [h|]; simpl; [|done].
    destruct (mapM _ _) as [rest|]; simpl; [|done].
    intros [= <-]. unfold tracked. simpl. rewrite dict_get_set_eq. eauto.
  - intros k r. unfold tracked, AppRule.increase_last, count_of, Key.
    destruct (AppRule._last_idx r) as [idx|] eqn:Hidx.
    + intros [c Hc]. rewrite Hc. simpl. eexists. split; [reflexivity|]. simpl.
      rewrite dict_get_set_eq. split; [eauto|]. split; [done|].
      split; [by apply (dict_keys_set_present idx (c + k) c)|].
      intros idx' [= <-]. rewrite Hc. simpl.
      split; [apply dict_get_set_eq|]. intros key Hne. by apply dict_get_set_ne.
    + intros _. exists r. rewrite Hidx. by repeat split.
Qed.

(** ** AppRule: total_events *)

Lemma fold_left_add (l : list Z) (a : Z) :
  fold_left Z.add l a = a + fold_right Z.add 0 l.
Proof. revert a. induction l as [|x l IH]; intros a; simpl; [lia|]. rewrite IH. lia. Qed.

Lemma table_total_set (k : Key) (v : Z) (d : list (Key * Z)) :
  table_total (Py.dict_set k v d) = table_total d - count_of d k + v.
Proof.
  unfold table_total, count_of, Key in *.
  induction d as [|[k' v'] d IH]; simpl; [lia|].
  destruct (decide (k' = k)); simpl; [lia|]. rewrite IH. lia.
Qed.

Lemma total_events_all `{Externals} `{Conditions} (r : AppRule.t) :
  AppRule.total_events "*" None r = Returned (table_total (AppRule.results r)).
Proof. unfold AppRule.total_events. simpl. by rewrite fold_left_add. Qed.

(** X3.  [total_events("*")] (lines 149-150) never raises and returns the
    sum of the counts of the table; [add_result] raises this total by
    one, whether the key is new or not, and [increase_last(k)] on a
    rule with a last result key raises it by [k]. *)
Theorem total_events_recorded `{Externals} `{Conditions} (r : AppRule.t) :
  AppRule.total_events "*" None r = Returned (table_total (AppRule.results r))
  /\ (forall values r',
        AppRule.add_result values r = Ok r' ->
        AppRule.total_events "*" None r'
        = Returned (table_total (AppRule.results r) + 1))
  /\ (forall k r' idx,
        AppRule._last_idx r = Some idx ->
        AppRule.increase_last k r = Ok r' ->
        AppRule.total_events "*" None r'
        = Returned (table_total (AppRule.results r) + k)).
Proof.
  split; [apply total_events_all|]. split.
  - intros values r'. unfold AppRule.add_result.
    destruct (AppRule.value_of values "host") as [h|]; simpl; [|done].
    destruct (mapM _ _) as [rest|]; simpl; [|done].
    intros [= <-]. rewrite total_events_all. simpl. f_equal.
    rewrite table_total_set. unfold count_of, Key.
    destruct (Py.dict_get _ _); simpl; lia.
  - intros k r' idx Hidx. unfold AppRule.increase_last. rewrite Hidx.
    destruct (Py.dict_get idx (AppRule.results r)) as [c|] eqn:Hc; simpl; [|done].
    intros [= <-]. rewrite total_events_all. simpl. f_equal.
    rewrite table_total_set. unfold count_of, Key in *. rewrite Hc. simpl. lia.
Qed.

Section Conditional.
Context `{Externals}.
Variable results : list (Key * Z).
Variable pos : nat.
Variable recond : Regexp.
Hypothesis results_NoDup : NoDup (Py.dict_keys results).

Lemma satisfies_text (invert : bool) (key : Key) :
  has_text pos key ->
  AppRule.satisfies recond invert pos key
  = Ok (if invert then negb (field_matches pos recond key)
        else field_matches pos recond key).
Proof.
  intros [text Ht]. unfold AppRule.satisfies, AppRule.component, field_matches.
  rewrite Ht. simpl. by destruct invert, (search recond text).
Qed.

Lemma sum_selected_texts (invert : bool) (keys : list Key) (tot : Z) :
  Forall (fun key => key ∈ Py.dict_keys results /\ has_text pos key) keys ->
  AppRule.sum_selected results None recond invert pos keys tot
  = Ok (tot + block_total results
                (List.filter (fun key => if invert then negb (field_matches pos recond key)
                                         else field_matches pos recond key) keys)).
Proof.
  intros Hkeys. revert tot.
  induction Hkeys as [|key keys [Hin Ht] _ IH]; intros tot; simpl.
  - f_equal. unfold block_total. simpl. lia.
  - rewrite (satisfies_text invert key Ht). simpl.
    destruct (if invert then _ else _); simpl.
    + rewrite (weight_count results results_NoDup key Hin). simpl.
      rewrite IH. f_equal. unfold block_total. simpl. lia.
    + apply IH.
Qed.

Lemma filter_complement (p : Key -> bool) :
  fold_right Z.add 0 (map snd (List.filter (fun entry => p (fst entry)) results))
  + fold_right Z.add 0 (map snd (List.filter (fun entry => negb (p (fst entry))) results))
  = table_total results.
Proof.
  unfold table_total. clear results_NoDup.
  induction results as [|[k v] d IH]; simpl; [reflexivity|].
  destruct (p k); simpl; lia.
Qed.

End Conditional.

(** X4.  The conditions [gid=="pattern"] and [gid!="pattern"] of
    [total_events] (lines 159-172) split the table: when every result
    key has a text in the field [gid], the first returns the sum of the
    counts of the keys whose field the pattern matches, the second the
    sum of the others, and the two add up to [total_events("*")]. *)
Theorem total_events_complement `{Externals} `{Conditions} (r : AppRule.t)
    (gid pattern ceq cne : string) (pos : nat) (recond : Regexp) :
  ceq <> "*" -> cne <> "*" ->
  search_cond ceq = Some (gid, "==", pattern) ->
  search_cond cne = Some (gid, "!=", pattern) ->
  Py.index gid (AppRule.key_gids r) = Some pos ->
  re_compile pattern = Some recond ->
  NoDup (Py.dict_keys (AppRule.results r)) ->
  Forall (has_text pos) (Py.dict_keys (AppRule.results r)) ->
  let selected :=
    fold_right Z.add 0
      (map snd (List.filter (fun entry => field_matches pos recond (fst entry))
                            (AppRule.results r))) in
  AppRule.total_events ceq None r = Returned selected
  /\ AppRule.total_events cne None r
     = Returned (table_total (AppRule.results r) - selected)
  /\ AppRule.total_events "*" None r = Returned (table_total (AppRule.results r)).
Proof.
  intros Heq Hne Hceq Hcne Hpos Hre Hnd Htexts selected.
  assert (Hkeys : Forall (fun key => key ∈ Py.dict_keys (AppRule.results r)
                                     /\ has_text pos key)
                         (Py.dict_keys (AppRule.results r))).
  { rewrite Forall_forall in Htexts |- *. intros key Hin. split; [done|]. by apply Htexts. }
  apply String.eqb_neq in Heq, Hne.
  split; [|split]; [| |apply total_events_all].
  - unfold AppRule.total_events, AppRule.compile_cond.
    rewrite Heq, Hceq, Hpos, Hre. simpl.
    rewrite (sum_selected_texts _ pos recond Hnd false _ 0 Hkeys). simpl.
    by rewrite (block_total_filter _ Hnd).
  - unfold AppRule.total_events, AppRule.compile_cond.
    rewrite Hne, Hcne, Hpos, Hre. simpl.
    rewrite (sum_selected_texts _ pos recond Hnd true _ 0 Hkeys). simpl.
    rewrite (block_total_filter _ Hnd (fun key => negb (field_matches pos recond key))).
    f_equal. pose proof (filter_complement (AppRule.results r) (field_matches pos recond)).
    subst selected. lia.
Qed.

(** ** AppRule: the ranking of top_events *)

Lemma ranking_take (n : nat) (l : list AppRule.Slot) : ranking l -> ranking (take n l).
Proof.
  revert n. induction l as [|slot l IH]; intros [|n]; simpl; try done.
  intros (Hne & Hbelow & Hl). split; [done|]. split; [|by apply IH].
  rewrite Forall_forall in Hbelow |- *. intros x Hx. apply Hbelow.
  by apply (subseteq_take n l).
Qed.

Lemma omap_take_filled (n : nat) (somes : list AppRule.Slot) (free : nat) :
  omap id (take n (filled somes free)) = take n somes.
Proof.
  unfold filled. revert n. induction somes as [|slot somes IH]; intros n; simpl.
  - rewrite take_replicate, take_nil.
    generalize (n `min` free)%nat. intros k. induction k as [|k IHk]; [done|exact IHk].
  - destruct n; simpl; [done|]. by rewrite IH.
Qed.

Lemma classify_from_ranking (n : nat) (tot : Z) (value : option string)
    (somes : list AppRule.Slot) (free : nat) (top' : list (option AppRule.Slot)) :
  ranking somes ->
  AppRule.classify_from n tot value (filled somes free) = Ok top' ->
  exists somes' free',
    top' = filled somes' free' /\ ranking somes'
    /\ forall bound, tot < bound -> Forall (fun slot => fst slot < bound) somes ->
                     Forall (fun slot => fst slot < bound) somes'.
Proof.
  revert somes top'. induction n as [|n IH]; intros somes top' Hr; simpl.
  { intros [= <-]. by exists somes, free. }
  destruct somes as [|[t0 vs] somes]; simpl.
  - destruct free as [|free]; simpl; [done|]. intros [= <-].
    exists [(tot, [value])], free. split; [done|]. split; [by repeat split|].
    intros bound Hb _. by repeat constructor.
  - destruct Hr as (Hne & Hbelow & Hr). simpl in Hne, Hbelow.
    destruct (tot =? t0) eqn:Heq.
    { intros [= <-]. apply Z.eqb_eq in Heq as ->.
      exists ((t0, vs ++ [value]) :: somes), free. split; [done|]. split.
      - split; [by destruct vs|]. by split.
      - intros bound _ Hall. apply Forall_cons in Hall as [Ht0 Hall]. by constructor. }
    destruct (t0 <? tot) eqn:Hlt.
    { intros [= <-]. apply Z.ltb_lt in Hlt.
      exists ((tot, [value]) :: (t0, vs) :: somes), free. split; [done|]. split.
      - split; [done|]. split; [|by repeat split].
        constructor; [done|]. eapply Forall_impl; [exact Hbelow|]. simpl. intros; lia.
      - intros bound Hb Hall. by constructor. }
    change (map Some somes ++ replicate free None) with (filled somes free).
    destruct (AppRule.classify_from n tot value (filled somes free)) as [rest'|] eqn:Hrest;
      simpl; [|done].
    intros [= <-]. destruct (IH somes rest' Hr Hrest) as (somes' & free' & -> & Hr' & Hb').
    exists ((t0, vs) :: somes'), free'. split; [done|]. split.
    + split; [done|]. split; [|done]. apply Hb'; [|done].
      apply Z.eqb_neq in Heq. apply Z.ltb_ge in Hlt. simpl. lia.
    + intros bound Hb Hall. apply Forall_cons in Hall as [Ht0 Hall].
      constructor; [done|]. by apply Hb'.
Qed.

Lemma classify_ranking (num : nat) (value : option string) (tot : Z)
    (somes : list AppRule.Slot) (free : nat) (top' : list (option AppRule.Slot)) :
  ranking somes ->
  AppRule.classify num value tot (filled somes free) = Ok top' ->
  exists somes' free', top' = filled somes' free' /\ ranking somes'.
Proof.
  intros Hr. unfold AppRule.classify. destruct value as [v|].
  - intros Hc. destruct (classify_from_ranking _ _ _ _ _ _ Hr Hc) as (s' & f' & ? & ? & _).
    by exists s', f'.
  - intros [= <-]. by exists somes, free.
Qed.

Lemma group_totals_ranking `{Externals} (num : nat) (results : list (Key * Z))
    (pos : nat) (val : option nat) (keys : list Key) (value : option string) (tot : Z)
    (somes : list AppRule.Slot) (free : nat) (top' : list (option AppRule.Slot)) :
  ranking somes ->
  AppRule.group_totals num results pos val keys value tot (filled somes free) = Ok top' ->
  exists somes' free', top' = filled somes' free' /\ ranking somes'.
Proof.
  revert value tot somes free. induction keys as [|key keys IH];
    intros value tot somes free Hr; simpl.
  - by apply classify_ranking.
  - destruct (AppRule.component key pos) as [p|]; simpl; [|done].
    destruct (AppRule.weight results val key) as [w|]; simpl; [|done].
    destruct (Py.is_None value || _).
    + destruct (AppRule.classify num value tot (filled somes free)) as [top1|] eqn:Hc;
        simpl; [|done].
      destruct (classify_ranking _ _ _ _ _ _ Hr Hc) as (somes1 & free1 & -> & Hr1).
      by apply IH.
    + by apply IH.
Qed.

(** X5.  [top_events] ranks (lines 186-229): when the totals are sums
    ([valfld] not given, or [usemax] false), the list it returns goes
    down strictly in its totals, every slot of it holds one value at
    least, and it has [num] slots at most. *)
Theorem top_events_ranking `{Externals} (num : nat) (valfld : option string)
    (usemax : bool) (gid : string) (r : AppRule.t) (l : list AppRule.Slot) :
  valfld = None \/ usemax = false ->
  AppRule.top_events num valfld usemax gid r = Ok l ->
  ranking l /\ (length l <= num)%nat.
Proof.
  intros Hsum Hl. split; [|by apply top_events_length in Hl].
  unfold AppRule.top_events in Hl. destruct (AppRule.results r) as [|e d].
  { by injection Hl as <-. }
  apply bind_Ok_inv in Hl as (pos & _ & Hl).
  apply bind_Ok_inv in Hl as (val & Hval & Hl).
  assert (Hgroups : forall keys,
             bind (AppRule.group_totals num (e :: d) pos val keys None 0
                     (replicate num None))
                  (fun top' => Ok (omap id (take num top'))) = Ok l ->
             ranking l).
  { intros keys Hk. apply bind_Ok_inv in Hk as (top' & Htop & [= <-]).
    change (replicate num None) with (filled [] num) in Htop.
    apply group_totals_ranking in Htop as (somes' & free' & -> & Hr); [|done].
    rewrite omap_take_filled. by apply ranking_take. }
  destruct val as [v|].
  - destruct usemax.
    + destruct Hsum as [->|]; [|done]. by injection Hval.
    + apply bind_Ok_inv in Hl as (keys & _ & Hl). by apply (Hgroups keys).
  - apply bind_Ok_inv in Hl as (keys & _ & Hl). by apply (Hgroups keys).
Qed.

(** ** AppLogParser: what __init__ builds *)

Section Construction.
Context `{Externals}.

Lemma rules_of_options_plain args th fields opts rs :
  Args.filters args = [] ->
  AppLogParser.rules_of_options args th fields opts = Ok rs ->
  Forall2 (fun r ov => AppRule.init ov.1 (option_pattern fields ov.2) args None = Ok r)
          rs opts.
Proof.
  intros Hf. revert rs. induction opts as [|[option value] opts IH]; simpl; intros rs.
  - intros [= <-]. constructor.
  - rewrite Hf. intros Hrs.
    apply bind_Ok_inv in Hrs as (here & Hhere & Hrs).
    apply bind_Ok_inv in Hhere as (r & Hr & [= <-]).
    apply bind_Ok_inv in Hrs as (more & Hmore & [= <-]).
    simpl. constructor; [exact Hr|]. by apply IH.
Qed.

Lemma rules_of_options_failing args th fields pre option value post e :
  Args.filters args = [] ->
  Forall (fun ov => exists r,
            AppRule.init ov.1 (option_pattern fields ov.2) args None = Ok r) pre ->
  AppRule.init option (option_pattern fields value) args None = Raise e ->
  AppLogParser.rules_of_options args th fields (pre ++ (option, value) :: post) = Raise e.
Proof.
  intros Hf Hpre He. induction Hpre as [|[o v] pre [r Hr] _ IH]; simpl; rewrite Hf.
  - unfold option_pattern in He. by rewrite He.
  - unfold option_pattern in Hr. simpl in Hr. rewrite Hr. simpl. by rewrite IH.
Qed.

(** X6.  Without filters ([args.filters] empty), [AppLogParser.__init__]
    (lines 361-378, with [parse_rules], lines 401-427) builds one rule
    for each option of the section [rules], in the order of the
    options: the rule has the name of the option and its pattern
    compiled, no filter keys, no results, is a full match, and is
    marked as used by the report exactly when there is a report and
    the report reads it; the application has no filters, no last rule
    and its counters at 0. *)
Theorem init_without_filters (name : string) (args : Args.t)
    (nc : option NameCache) (report : option Report) (fields : list (string * string))
    (opts : list (string * string)) (report_rules : list string) (a : AppLogParser.t) :
  Args.filters args = [] ->
  AppLogParser.init name args nc report fields (Some opts) report_rules = Ok a ->
  AppLogParser.has_filters a = false
  /\ AppLogParser._last_rule a = None
  /\ AppLogParser.counter a = 0 /\ AppLogParser.unparsed_counter a = 0
  /\ Forall2 (fun r ov =>
                AppRule.name r = ov.1
                /\ re_compile (option_pattern fields ov.2) = Some (AppRule.regexp r)
                /\ AppRule.filter_keys r = []
                /\ AppRule.full_match r = true
                /\ AppRule.results r = []
                /\ AppRule.used_by_report r
                   = Py.is_Some report && bool_decide (ov.1 ∈ report_rules))
             (AppLogParser.rules a) opts.
Proof.
  intros Hf. unfold AppLogParser.init, AppLogParser.parse_rules.
  destruct (AppLogParser.rules_of_options args _ fields opts) as [rs|] eqn:Hrs;
    simpl; [|done].
  apply (rules_of_options_plain _ _ _ _ _ Hf) in Hrs.
  set (marked := match report with
                 | Some _ => AppLogParser.mark_report_rules report_rules rs
                 | None => rs
                 end).
  assert (Hmarked : Forall2 (fun r ov =>
             AppRule.name r = ov.1
             /\ re_compile (option_pattern fields ov.2) = Some (AppRule.regexp r)
             /\ AppRule.filter_keys r = []
             /\ AppRule.results r = []
             /\ AppRule.used_by_report r
                = Py.is_Some report && bool_decide (ov.1 ∈ report_rules)) marked opts).
  { subst marked. clear -Hrs. induction Hrs as [|r ov rs opts Hr _ IH].
    { destruct report; constructor. }
    apply init_Ok_inv in Hr as (re & Hre & _ & ->).
    destruct report as [rep|]; simpl in *.
    - constructor; [|exact IH]. simpl.
      destruct (bool_decide (ov.1 ∈ report_rules)) eqn:Hb; by repeat split.
    - constructor; [|exact IH]. by repeat split. }
  clearbody marked. clear Hrs rs.
  unfold AppLogParser.arrange_rules. rewrite filter_is_used.
  assert (Hnone : existsb (fun r => negb (Nat.eqb (length (AppRule.filter_keys r)) 0))
                          marked = false).
  { clear -Hmarked. induction Hmarked as [|r ov rs opts (_ & _ & Hfk & _) _ IH];
      simpl; [done|]. by rewrite Hfk, IH. }
  rewrite Hnone. intros [= <-]. simpl. repeat split; try done.
  clear Hnone. induction Hmarked as [|r ov rs opts (? & ? & ? & ? & ?) _ IH];
    simpl; constructor; [|exact IH]. by repeat split.
Qed.

(** X7.  The configuration errors of [AppLogParser.__init__]: an
    application without a section [rules] raises "the app has no
    defined rules" (lines 406-409); without filters, the first option
    whose pattern is empty raises "empty rule" and the first whose
    pattern does not compile raises "illegal regex pattern", each with
    the name of the option (lines 80-85). *)
Theorem init_config_errors (name : string) (args : Args.t)
    (nc : option NameCache) (report : option Report) (fields : list (string * string))
    (report_rules : list string) :
  AppLogParser.init name args nc report fields None report_rules
  = Raise (LogRaptorConfigError (NoDefinedRules name))
  /\ forall pre option value post,
       Args.filters args = [] ->
       Forall (fun ov => option_pattern fields ov.2 <> ""
                         /\ is_Some (re_compile (option_pattern fields ov.2))) pre ->
       let opts := pre ++ (option, value) :: post in
       (option_pattern fields value = "" ->
        AppLogParser.init name args nc report fields (Some opts) report_rules
        = Raise (LogRaptorConfigError (EmptyRule option)))
       /\ (option_pattern fields value <> "" ->
           re_compile (option_pattern fields value) = None ->
           AppLogParser.init name args nc report fields (Some opts) report_rules
           = Raise (LogRaptorConfigError (IllegalRegex option))).
Proof.
  split; [reflexivity|]. intros pre option value post Hf Hpre opts.
  assert (Hgood : Forall (fun ov => exists r,
                    AppRule.init ov.1 (option_pattern fields ov.2) args None = Ok r) pre).
  { eapply Forall_impl; [exact Hpre|]. intros [o v] [Hne [re Hre]]. simpl in *.
    unfold AppRule.init. apply String.eqb_neq in Hne. rewrite Hne, Hre. simpl. eauto. }
  split.
  - intros Hempty. unfold AppLogParser.init, AppLogParser.parse_rules.
    rewrite (rules_of_options_failing args _ fields pre option value post
               (LogRaptorConfigError (EmptyRule option)) Hf Hgood); [done|].
    unfold AppRule.init. by rewrite Hempty.
  - intros Hne Hbad. unfold AppLogParser.init, AppLogParser.parse_rules.
    rewrite (rules_of_options_failing args _ fields pre option value post
               (LogRaptorConfigError (IllegalRegex option)) Hf Hgood); [done|].
    unfold AppRule.init. apply String.eqb_neq in Hne. by rewrite Hne, Hbad.
Qed.

Lemma insert_sorted_plain (x : AppRule.t) (pre post : list AppRule.t) :
  let lt := fun a b => Py.list_lt (AppRule.filter_keys a) (AppRule.filter_keys b) in
  Forall (fun r => plain r = true) pre ->
  Forall (fun r => plain r = false) post ->
  exists pre' post',
    Py.insert_sorted lt x (pre ++ post) = pre' ++ post'
    /\ Forall (fun r => plain r = true) pre'
    /\ Forall (fun r => plain r = false) post'.
Proof.
  intros lt Hpre Hpost. destruct (plain x) eqn:Hx.
  - exists (x :: pre), post. split; [|split; [by constructor|done]].
    assert (Hlt : forall y, lt y x = false).
    { intros y. unfold lt, plain in *. destruct (AppRule.filter_keys x); [|done].
      by destruct (AppRule.filter_keys y). }
    simpl. destruct (pre ++ post) as [|y l]; simpl; [done|]. by rewrite Hlt.
  - induction Hpre as [|y pre Hy _ IH]; simpl.
    + exists [], (Py.insert_sorted lt x post). split; [done|]. split; [constructor|].
      rewrite Forall_forall in Hpost |- *. intros z Hz.
      apply elem_of_insert_sorted in Hz as [->|Hz]; [done|by apply Hpost].
    + assert (Hlt : lt y x = true).
      { unfold lt, plain in *. destruct (AppRule.filter_keys y); [|done].
        by destruct (AppRule.filter_keys x). }
      rewrite Hlt. destruct IH as (pre' & post' & -> & Hpre' & Hpost').
      exists (y :: pre'), post'. split; [done|]. split; [by constructor|done].
Qed.

Lemma sorted_plain (rs : list AppRule.t) :
  let lt := fun a b => Py.list_lt (AppRule.filter_keys a) (AppRule.filter_keys b) in
  exists pre post,
    Py.sorted lt rs = pre ++ post
    /\ Forall (fun r => plain r = true) pre
    /\ Forall (fun r => plain r = false) post.
Proof.
  intros lt. unfold Py.sorted. induction rs as [|x rs IH]; simpl.
  - by exists [], [].
  - destruct IH as (pre & post & -> & Hpre & Hpost). by apply insert_sorted_plain.
Qed.

Lemma filter_all (p : AppRule.t -> bool) (l : list AppRule.t) :
  Forall (fun r => p r = true) l -> List.filter p l = l.
Proof. induction 1 as [|x l Hx _ IH]; simpl; [done|]. by rewrite Hx, IH. Qed.

Lemma filter_none (p : AppRule.t -> bool) (l : list AppRule.t) :
  Forall (fun r => p r = false) l -> List.filter p l = [].
Proof. induction 1 as [|x l Hx _ IH]; simpl; [done|]. by rewrite Hx, IH. Qed.

Lemma filter_split (pre post : list AppRule.t) :
  Forall (fun r => plain r = true) pre ->
  Forall (fun r => plain r = false) post ->
  pre ++ post
  = List.filter plain (pre ++ post)
    ++ List.filter (fun r => negb (plain r)) (pre ++ post).
Proof.
  intros Hpre Hpost. rewrite !List.filter_app.
  rewrite (filter_all plain pre Hpre), (filter_none plain post Hpost).
  rewrite (filter_none (fun r => negb (plain r)) pre),
          (filter_all (fun r => negb (plain r)) post).
  - by rewrite app_nil_r.
  - eapply Forall_impl; [exact Hpost|]. by intros r ->.
  - eapply Forall_impl; [exact Hpre|]. by intros r ->.
Qed.

(** X8.  The order of the rules of an application (lines 367-378): the
    rules without filter keys come first, the filter rules after them
    (sorting by [filter_keys] puts the empty lists first), whatever the
    order of the options; [process] tries the rules in this order. *)
Theorem filter_rules_last (name : string) (args : Args.t)
    (nc : option NameCache) (report : option Report) (fields : list (string * string))
    (rule_options : option (list (string * string))) (report_rules : list string)
    (a : AppLogParser.t) :
  AppLogParser.init name args nc report fields rule_options report_rules = Ok a ->
  AppLogParser.rules a
  = List.filter plain (AppLogParser.rules a) ++ AppLogParser.filter_rules a.
Proof.
  unfold AppLogParser.init. intros Hinit.
  apply bind_Ok_inv in Hinit as (rs & _ & Hinit).
  set (marked := match report with
                 | Some _ => AppLogParser.mark_report_rules report_rules rs
                 | None => rs
                 end) in Hinit.
  clearbody marked. unfold AppLogParser.arrange_rules in Hinit.
  rewrite filter_is_used in Hinit.
  destruct (existsb _ marked) eqn:Hex; injection Hinit as <-;
    unfold AppLogParser.filter_rules; simpl.
  - destruct (sorted_plain marked) as (pre & post & -> & Hpre & Hpost).
    by apply filter_split.
  - assert (Hall : Forall (fun r => plain r = true)
                          (map (AppRule.set_full_match true) marked)).
    { apply Forall_forall. intros r Hr. apply list_elem_of_fmap in Hr as (r0 & -> & Hr0).
      unfold plain. simpl. apply negb_false_iff.
      apply not_true_iff_false in Hex. apply not_true_iff_false. intros Hn. apply Hex.
      apply existsb_exists. exists r0. split; [by apply list_elem_of_In|done]. }
    rewrite <- (app_nil_r (map _ marked)) at 1.
    rewrite <- (app_nil_r (map _ marked)) at 2 3.
    apply filter_split; [done|constructor].
Qed.

End Construction.

(** ** AppLogParser: process *)

Lemma same_rule_refl (r : AppRule.t) : same_rule r r.
Proof. by repeat split. Qed.

Lemma add_result_same (values : gmap string (option string)) (r r' : AppRule.t) :
  AppRule.add_result values r = Ok r' ->
  same_rule r r' /\ tracked r'
  /\ table_total (AppRule.results r') = table_total (AppRule.results r) + 1.
Proof.
  unfold AppRule.add_result.
  destruct (AppRule.value_of values "host") as [h|]; simpl; [|done].
  destruct (mapM _ _) as [rest|]; simpl; [|done].
  intros [= <-]. split; [by repeat split|]. split.
  - unfold tracked. simpl. rewrite dict_get_set_eq. eauto.
  - simpl. rewrite table_total_set. unfold count_of, Key.
    destruct (Py.dict_get _ _); simpl; lia.
Qed.

(** The ways out of the body of the loop of [process]. *)
Lemma apply_rule_cases (a : AppLogParser.t) (i : nat) (rule : AppRule.t) (m : Match)
    (logdata : LogData.t) (outcome : Outcome) (a' : AppLogParser.t) :
  AppLogParser.apply_rule a i rule m logdata = Ok (outcome, a') ->
  let in_thread := AppLogParser._thread a
                   && bool_decide ("thread" ∈ groupindex (AppRule.regexp rule)) in
  (outcome = no_match /\ a' = AppLogParser.set_last_rule (Some i) a)
  \/ exists md rule',
       outcome = (true, Some (AppRule.full_match rule),
                  if in_thread then m "thread" else None, md)
       /\ a' = AppLogParser.set_rules (<[i := rule']> (AppLogParser.rules a))
                 (AppLogParser.set_last_rule (Some i) a)
       /\ (if in_thread && Py.is_None (AppLogParser._report a)
           then rule' = rule
           else exists values, AppRule.add_result values rule = Ok rule').
Proof.
  unfold AppLogParser.apply_rule. simpl. cbv zeta.
  destruct (AppLogParser.make_values _ rule m logdata) as [values map_dict].
  destruct (AppLogParser._thread a && _); simpl.
  - destruct (AppLogParser.any_null _ _) as [[|]|]; simpl; [| |done].
    { intros [= <- <-]. by left. }
    destruct (AppLogParser._report a) as [rep|]; simpl.
    + destruct (AppRule.add_result values rule) as [rule'|] eqn:Hadd; simpl; [|done].
      intros [= <- <-]. right. exists map_dict, rule'. eauto.
    + intros [= <- <-]. right. by exists map_dict, rule.
  - destruct (AppLogParser.any_null _ _) as [[|]|]; simpl; [| |done].
    { intros [= <- <-]. by left. }
    rewrite orb_true_r.
    destruct (AppRule.add_result values rule) as [rule'|] eqn:Hadd; simpl; [|done].
    intros [= <- <-]. right. exists map_dict, rule'. eauto.
Qed.

Lemma scan_rules_cases (a : AppLogParser.t) (logdata : LogData.t) (i : nat)
    (rs : list AppRule.t) (outcome : Outcome) (a' : AppLogParser.t) :
  AppLogParser.scan_rules a logdata i rs = Ok (outcome, a') ->
  (Forall (unmatched logdata) rs /\ outcome = no_match
   /\ a' = (let a0 := AppLogParser.set_last_rule None a in
            if AppLogParser.has_filters a then a0
            else AppLogParser.set_unparsed_counter
                   (AppLogParser.unparsed_counter a + 1) a0))
  \/ exists pre rule post m,
       rs = pre ++ rule :: post /\ Forall (unmatched logdata) pre
       /\ search (AppRule.regexp rule) (LogData.message logdata) = Some m
       /\ AppLogParser.apply_rule a (i + length pre)%nat rule m logdata = Ok (outcome, a').
Proof.
  revert i. induction rs as [|rule rs IH]; intros i; simpl.
  - intros [= <- <-]. left. by repeat split.
  - destruct (search (AppRule.regexp rule) (LogData.message logdata)) as [m|] eqn:Hm.
    + intros Happly. right. exists [], rule, rs, m. simpl.
      rewrite Nat.add_0_r. by repeat split.
    + intros Hscan. apply IH in Hscan as [(Hall & -> & ->)|(pre & r & post & m & -> & Hpre & Hr & Ha)].
      * left. split; [by constructor|done].
      * right. exists (rule :: pre), r, post, m. simpl.
        replace (i + S (length pre))%nat with (S i + length pre)%nat by lia.
        by repeat split; [constructor|..].
Qed.

Lemma grand_total_insert (rs : list AppRule.t) (i : nat) (rule rule' : AppRule.t) :
  rs !! i = Some rule ->
  fold_right Z.add 0 (map (fun r => table_total (AppRule.results r)) (<[i := rule']> rs))
  = fold_right Z.add 0 (map (fun r => table_total (AppRule.results r)) rs)
    - table_total (AppRule.results rule) + table_total (AppRule.results rule').
Proof.
  revert i. induction rs as [|r rs IH]; intros [|i]; simpl; try done.
  - intros [= ->]. lia.
  - intros Hi. rewrite (IH i Hi). lia.
Qed.

Lemma same_rules_insert (rs : list AppRule.t) (i : nat) (rule rule' : AppRule.t) :
  rs !! i = Some rule -> same_rule rule rule' ->
  Forall2 same_rule rs (<[i := rule']> rs).
Proof.
  revert i. induction rs as [|r rs IH]; intros [|i]; simpl; try done.
  - intros [= ->] Hs. constructor; [done|]. apply Forall2_same_length_lookup.
    split; [done|]. intros j x y Hx Hy. assert (x = y) as -> by congruence.
    apply same_rule_refl.
  - intros Hi Hs. constructor; [apply same_rule_refl|by apply IH].
Qed.

Lemma same_rules_refl (rs : list AppRule.t) : Forall2 same_rule rs rs.
Proof. induction rs; constructor; [apply same_rule_refl|done]. Qed.

Lemma scan_rules_none (a : AppLogParser.t) (logdata : LogData.t) (i : nat)
    (rs : list AppRule.t) :
  Forall (unmatched logdata) rs ->
  AppLogParser.scan_rules a logdata i rs
  = Ok (no_match,
        if AppLogParser.has_filters a then AppLogParser.set_last_rule None a
        else AppLogParser.set_unparsed_counter (AppLogParser.unparsed_counter a + 1)
               (AppLogParser.set_last_rule None a)).
Proof.
  intros Hall. revert i. induction Hall as [|r rs Hr _ IH]; intros i; simpl.
  - by destruct (AppLogParser.has_filters a).
  - unfold unmatched in Hr. rewrite Hr. apply IH.
Qed.

(** X9.  When no rule of the application matches the message (lines
    485-490), [process] reports no match, forgets the last matched
    rule and leaves the rules as they are; the counter of unparsed
    lines grows by one when the application has no filters, and not
    otherwise; an [increase_last] that follows changes nothing. *)
Theorem process_unmatched (a : AppLogParser.t) (logdata : LogData.t) (k : Z) :
  Forall (unmatched logdata) (AppLogParser.rules a) ->
  exists a',
    AppLogParser.process a logdata = Ok ((false, None, None, None), a')
    /\ AppLogParser._last_rule a' = None
    /\ AppLogParser.rules a' = AppLogParser.rules a
    /\ AppLogParser.counter a' = AppLogParser.counter a
    /\ AppLogParser.unparsed_counter a'
       = AppLogParser.unparsed_counter a
         + (if AppLogParser.has_filters a then 0 else 1)
    /\ AppLogParser.increase_last k a' = Ok a'.
Proof.
  intros Hall. unfold AppLogParser.process.
  rewrite (scan_rules_none a logdata 0 _ Hall). eexists. split; [reflexivity|].
  destruct (AppLogParser.has_filters a); simpl; repeat split; lia || reflexivity.
Qed.

Lemma process_cases (a : AppLogParser.t) (logdata : LogData.t) (outcome : Outcome)
    (a' : AppLogParser.t) :
  AppLogParser.process a logdata = Ok (outcome, a') ->
  (outcome = no_match /\ AppLogParser.rules a' = AppLogParser.rules a
   /\ AppLogParser._last_rule a' = None
   /\ same_application a a')
  \/ exists i rule m,
       AppLogParser.rules a !! i = Some rule
       /\ Forall (unmatched logdata) (take i (AppLogParser.rules a))
       /\ search (AppRule.regexp rule) (LogData.message logdata) = Some m
       /\ AppLogParser.apply_rule a i rule m logdata = Ok (outcome, a').
Proof.
  unfold AppLogParser.process. intros Hscan.
  apply scan_rules_cases in Hscan
    as [(_ & -> & ->)|(pre & rule & post & m & Hrs & Hpre & Hm & Happly)].
  - left. by destruct (AppLogParser.has_filters a).
  - right. exists (length pre), rule, m. rewrite Hrs.
    split; [by apply list_lookup_middle|].
    split; [by rewrite take_app_length|]. by split.
Qed.

(** X10.  What [process] leaves alone (lines 451-490): the application keeps
    its name, its options, its flags and its counter of lines; it has
    the same rules in the same order, each with its name, pattern, key
    gids, filter keys and flags; and only the rule it names as the
    last matched one can have new results. *)
Theorem process_frame (a : AppLogParser.t) (logdata : LogData.t) (outcome : Outcome)
    (a' : AppLogParser.t) :
  AppLogParser.process a logdata = Ok (outcome, a') ->
  same_application a a'
  /\ Forall2 same_rule (AppLogParser.rules a) (AppLogParser.rules a')
  /\ forall j, AppLogParser._last_rule a' <> Some j ->
               AppLogParser.rules a' !! j = AppLogParser.rules a !! j.
Proof.
  intros Hp. apply process_cases in Hp
    as [(_ & Hrules & _ & Hsame)|(i & rule & m & Hi & _ & _ & Happly)].
  - split; [done|]. rewrite Hrules. split; [apply same_rules_refl|done].
  - apply apply_rule_cases in Happly as [[_ ->]|(md & rule' & _ & -> & Hrule')]; simpl.
    + split; [by repeat split|]. split; [apply same_rules_refl|done].
    + split; [by repeat split|]. split.
      * apply (same_rules_insert _ i rule rule' Hi).
        destruct (_ && _); [subst; apply same_rule_refl|].
        destruct Hrule' as [values Hadd]. by apply add_result_same in Hadd as [? _].
      * intros j Hj. apply list_lookup_insert_ne. congruence.
Qed.

(** X11.  What [process] records (lines 469-483).  A line that is not
    matched leaves every table of results as it is.  A matched line is
    matched by the first rule whose pattern matches the message, which
    becomes the last matched rule and gives its [full_match]; outside
    thread mode, or with a report, one event is added to the tables,
    whether there is a report or not; with a thread identifier and no
    report, nothing is added. *)
Theorem process_records (a : AppLogParser.t) (logdata : LogData.t)
    (rule_match : bool) (fm : option bool) (th : option string) (md : option MapDict)
    (a' : AppLogParser.t) :
  AppLogParser.process a logdata = Ok ((rule_match, fm, th, md), a') ->
  (rule_match = false ->
   fm = None /\ th = None /\ md = None
   /\ AppLogParser.rules a' = AppLogParser.rules a)
  /\ (rule_match = true ->
      (exists i rule,
         AppLogParser._last_rule a' = Some i
         /\ AppLogParser.rules a !! i = Some rule
         /\ Forall (unmatched logdata) (take i (AppLogParser.rules a))
         /\ ~ unmatched logdata rule
         /\ fm = Some (AppRule.full_match rule))
      /\ (AppLogParser._thread a = false \/ AppLogParser._report a <> None ->
          grand_total a' = grand_total a + 1)
      /\ (th <> None -> AppLogParser._report a = None ->
          AppLogParser.rules a' = AppLogParser.rules a)).
Proof.
  intros Hp. apply process_cases in Hp
    as [(Hout & Hrules & _ & _)|(i & rule & m & Hi & Hpre & Hm & Happly)].
  { injection Hout as -> -> -> ->. by split. }
  apply apply_rule_cases in Happly as [[Hout ->]|(md' & rule' & Hout & -> & Hrule')].
  { injection Hout as -> -> -> ->. by split. }
  injection Hout as -> -> -> ->. split; [done|]. intros _. split; [|split].
  - exists i, rule. simpl. repeat split; try done. unfold unmatched. by rewrite Hm.
  - intros Hrec. unfold grand_total. simpl. rewrite (grand_total_insert _ i rule rule' Hi).
    assert (Hadd : exists values, AppRule.add_result values rule = Ok rule').
    { destruct (AppLogParser._thread a) eqn:Hth; simpl in Hrule'.
      - destruct Hrec as [|Hrep]; [done|].
        destruct (AppLogParser._report a); [|done].
        simpl in Hrule'. by rewrite andb_false_r in Hrule'.
      - exact Hrule'. }
    destruct Hadd as [values Hadd]. apply add_result_same in Hadd as (_ & _ & ->). lia.
  - intros Hth Hrep. simpl. rewrite Hrep in Hrule'. simpl in Hrule'.
    destruct (AppLogParser._thread a && _); [|done]. simpl in Hrule'. subst rule'.
    by apply list_insert_id.
Qed.

Lemma add_result_increase_last (values : gmap string (option string)) (k : Z)
    (r r' : AppRule.t) :
  AppRule.add_result values r = Ok r' ->
  exists r'', AppRule.increase_last k r' = Ok r''
              /\ table_total (AppRule.results r'')
                 = table_total (AppRule.results r) + 1 + k.
Proof.
  unfold AppRule.add_result.
  destruct (AppRule.value_of values "host") as [h|]; simpl; [|done].
  destruct (mapM _ _) as [rest|]; simpl; [|done].
  intros [= <-]. unfold AppRule.increase_last. simpl.
  rewrite dict_get_set_eq. simpl. eexists. split; [reflexivity|]. simpl.
  rewrite !table_total_set. unfold count_of, Key. rewrite dict_get_set_eq. simpl.
  destruct (Py.dict_get _ _); simpl; lia.
Qed.

(** X12.  [process] and then [increase_last(k)], as the matcher calls them
    for a line and the 'last message repeated k times' that follows
    it: after a matched line that was recorded (outside thread mode, or
    with a report), [increase_last(k)] does not raise, and the
    application has recorded [1 + k] events more than before the
    line. *)
Theorem process_then_increase_last (a : AppLogParser.t) (logdata : LogData.t)
    (fm : option bool) (th : option string) (md : option MapDict)
    (a' : AppLogParser.t) (k : Z) :
  AppLogParser.process a logdata = Ok ((true, fm, th, md), a') ->
  AppLogParser._thread a = false \/ AppLogParser._report a <> None ->
  exists a'',
    AppLogParser.increase_last k a' = Ok a''
    /\ grand_total a' = grand_total a + 1
    /\ grand_total a'' = grand_total a + 1 + k.
Proof.
  intros Hp Hrec. apply process_cases in Hp
    as [(Hout & _)|(i & rule & m & Hi & Hpre & Hm & Happly)]; [done|].
  apply apply_rule_cases in Happly as [[Hout _]|(md' & rule' & Hout & -> & Hrule')];
    [done|].
  assert (Hadd : exists values, AppRule.add_result values rule = Ok rule').
  { destruct (AppLogParser._thread a) eqn:Hth; simpl in Hrule'.
    - destruct Hrec as [|Hrep]; [done|].
      destruct (AppLogParser._report a); [|done].
      simpl in Hrule'. by rewrite andb_false_r in Hrule'.
    - exact Hrule'. }
  destruct Hadd as [values Hadd].
  destruct (add_result_increase_last values k rule rule' Hadd) as (rule'' & Hinc & Htot).
  apply add_result_same in Hadd as (_ & _ & Hone).
  assert (Hlt : (i < length (AppLogParser.rules a))%nat) by by apply lookup_lt_Some in Hi.
  unfold AppLogParser.increase_last. simpl.
  rewrite list_lookup_insert_eq by done. rewrite Hinc. simpl.
  eexists. split; [reflexivity|]. unfold grand_total. simpl.
  rewrite list_insert_insert_eq.
  rewrite !(grand_total_insert _ i rule _ Hi). lia.
Qed.

(** * More of the matcher *)

(** ** What holds across the body of the loop *)

Section Stages.
Context `{Externals} `{Collaborators}.
Variable eng : Matcher.Engine.
Variable logfile : Matcher.LogFile.
Variable applist : list AppRef.
Variable R : Matcher.Loop -> Matcher.Loop -> Prop.
Hypothesis HR : keeps eng R.

Import Matcher.

Ltac keep :=
  repeat first
    [ apply (keeps_refl eng R HR)
    | apply (keeps_apps eng R HR)
    | apply (keeps_caches eng R HR)
    | apply (keeps_sent eng R HR)
    | apply (keeps_first_event eng R HR)
    | apply (keeps_last_event eng R HR)
    | apply (keeps_prev_data eng R HR)
    | apply (keeps_app eng R HR)
    | apply (keeps_app_thread eng R HR)
    | apply (keeps_matching_counter eng R HR)
    | apply (keeps_full_match eng R HR)
    | apply (keeps_event_time eng R HR)
    | apply (keeps_pattern_match eng R HR)
    | apply (keeps_hostset eng R HR); congruence
    | apply (keeps_extra_tags eng R HR); congruence
    | assumption
    | eapply (keeps_trans eng R HR);
      [|first [ apply (keeps_apps eng R HR)
              | apply (keeps_caches eng R HR)
              | apply (keeps_sent eng R HR)
              | apply (keeps_first_event eng R HR)
              | apply (keeps_last_event eng R HR)
              | apply (keeps_prev_data eng R HR)
              | apply (keeps_app eng R HR)
              | apply (keeps_app_thread eng R HR)
              | apply (keeps_matching_counter eng R HR)
              | apply (keeps_full_match eng R HR)
              | apply (keeps_event_time eng R HR)
              | apply (keeps_pattern_match eng R HR)
              | apply (keeps_hostset eng R HR); congruence
              | apply (keeps_extra_tags eng R HR); congruence ]] ].

Lemma held_from {A} (s1 s2 : Loop) (f : Flow A) :
  R s1 s2 -> held R s2 f -> held R s1 f.
Proof.
  intros Hk. destruct f as [a s'|s'|s'|e]; simpl; try done;
    by apply (keeps_trans eng R HR).
Qed.

Lemma held_and_then {A B} (s : Loop) (f : Flow A) (k : A -> Loop -> Flow B) :
  held R s f -> (forall a s1, held R s1 (k a s1)) -> held R s (and_then f k).
Proof.
  destruct f as [a s'|s'|s'|e]; simpl; try done.
  intros Hk Hcont. by apply (held_from s s').
Qed.

Lemma held_attempt {A B} (s : Loop) (r : Result A) (k : A -> Flow B) :
  (forall a, r = Ok a -> held R s (k a)) -> held R s (attempt r k).
Proof. destruct r as [a|e]; simpl; [|done]. intros Hk. by apply Hk. Qed.

Ltac stage :=
  repeat first
    [ match goal with
      | |- held R _ (attempt _ _) => apply held_attempt; intros
      | |- held R _ (match ?x with _ => _ end) => destruct x eqn:?
      | |- held R _ (if ?x then _ else _) => destruct x eqn:?
      | |- held R _ (let '(_, _) := ?x in _) => destruct x eqn:?
      | |- held R _ (Throw _) => exact I
      | |- held R _ (Next _ _) => cbv beta iota delta [held]
      | |- held R _ (Continue _) => cbv beta iota delta [held]
      | |- held R _ (Break _) => cbv beta iota delta [held]
      end
    | progress keep ].

Lemma count_line_held (a : AppRef) (s s' : Loop) :
  count_line a s = Ok s' -> R s s'.
Proof.
  unfold count_line, the_app, put_app. destruct (apps s !! a); simpl; [|done].
  intros [= <-]. keep.
Qed.

Lemma cache_line_held (a : AppRef) (line : string) (th : option string) (s s' : Loop) :
  cache_line a line th s = Ok s' -> R s s'.
Proof.
  unfold cache_line, the_cache. destruct (caches s !! a); simpl; [|done].
  destruct (event_time s); simpl; [|done]. intros [= <-]. keep.
Qed.

Lemma run_process_held (a : AppRef) (log_data : LogData.t) (s s' : Loop)
    (rule_match : bool) (map_dict : option MapDict) :
  run_process a log_data s = Ok (rule_match, map_dict, s') -> R s s'.
Proof.
  unfold run_process, the_app, put_app. destruct (apps s !! a); simpl; [|done].
  destruct (AppLogParser.process _ _) as [[[[[rm fm] th] md] o']|]; simpl; [|done].
  intros [= <- <- <-]. keep.
Qed.

Lemma note_event_time_held (s s' : Loop) :
  note_event_time eng s = Ok s' -> R s s'.
Proof.
  unfold note_event_time. destruct (make_report eng); [|intros [= <-]; keep].
  destruct (event_time s); simpl; [|done].
  destruct (first_event s), (last_event s); try done;
    repeat (destruct (_ <? _)); intros [= <-]; keep.
Qed.

Lemma try_candidates_held (log_data : LogData.t) (cands : list AppRef)
    (s s' : Loop) (found : bool) :
  try_candidates log_data cands s = Ok (found, s') -> R s s'.
Proof.
  revert s. induction cands as [|a cands IH]; simpl; intros s.
  - intros [= <- <-]. keep.
  - destruct (run_process a log_data (set_app (Some a) s))
      as [[[rm md] s1]|] eqn:Hrun; simpl; [|done].
    apply run_process_held in Hrun.
    assert (Hs1 : R s s1) by (eapply (keeps_trans eng R HR); [|exact Hrun]; keep).
    destruct rm.
    + by intros [= <- <-].
    + intros Hrest. apply IH in Hrest. by apply (keeps_trans eng R HR s s1 s').
Qed.

Lemma flush_old_held (cands : list AppRef) (s s' : Loop) :
  flush_old eng cands s = Ok s' -> R s s'.
Proof.
  revert s. induction cands as [|a cands IH]; simpl; intros s.
  - intros [= <-]. keep.
  - unfold the_app, the_cache. simpl.
    destruct (apps s !! a); simpl; [|done].
    destruct (caches s !! a); simpl; [|done].
    destruct (event_time s); simpl; [|done].
    destruct (flush_old_cache _ _ _ _) as [[n evs] c']. intros Hrest.
    apply IH in Hrest. eapply (keeps_trans eng R HR); [|exact Hrest]. keep.
Qed.

Lemma flush_all_held (cands : list AppRef) (s s' : Loop) :
  flush_all eng cands s = Ok s' -> R s s'.
Proof.
  revert s. induction cands as [|a cands IH]; simpl; intros s.
  - intros [= <-]. keep.
  - unfold the_app, the_cache. simpl.
    destruct (apps s !! a); simpl; [|done].
    destruct (caches s !! a); simpl; [|done].
    destruct (event_time s); simpl; [|intros [= <-]; keep].
    destruct (max_count_reached _ _); [intros [= <-]; keep|].
    destruct (flush_cache _ _ _ _) as [[n evs] c']. intros Hrest.
    apply IH in Hrest. eapply (keeps_trans eng R HR); [|exact Hrest]. keep.
Qed.

Lemma repeat_line_held (line : string) (log_data : LogData.t) (s : Loop) :
  held R s (repeat_line eng line log_data s).
Proof.
  unfold repeat_line. destruct (LogData.repeat log_data) as [rep|]; [|stage].
  destruct (prev_data s) as [prev|].
  - apply held_attempt. intros n _.
    set (s1 := if thread eng then s else set_matching_counter (matching_counter s + n) s).
    assert (Hs1 : R s s1) by (subst s1; destruct (thread eng); keep).
    apply (held_from s s1 _ Hs1). clearbody s1. clear Hs1.
    destruct (use_rules eng); [|stage].
    apply held_attempt. intros entry _. apply held_attempt. intros a _.
    apply held_attempt. intros o _. apply held_attempt. intros o' _.
    apply held_attempt. intros s2 Hc. apply count_line_held in Hc.
    apply (held_from s1 s2); [eapply (keeps_trans eng R HR); [|exact Hc]; unfold put_app; keep|].
    destruct (app_thread s2) as [th|]; [|stage].
    apply held_attempt. intros s3 Hcl. apply cache_line_held in Hcl.
    apply (held_from s2 s3 _ Hcl). stage.
  - destruct (app s) as [a|]; [|stage].
    apply held_attempt. intros s1 Hc. apply count_line_held in Hc. exact Hc.
Qed.

Lemma check_time_held (log_data : LogData.t) (s : Loop) :
  held R s (check_time eng logfile log_data s).
Proof. unfold check_time. stage. Qed.

Lemma check_host_held (log_data : LogData.t) (s : Loop) :
  held R s (check_host eng log_data s).
Proof. unfold check_host. stage. Qed.

Lemma check_patterns_held (line : string) (s : Loop) :
  held R s (check_patterns eng line s).
Proof. unfold check_patterns. stage. Qed.

Lemma resolve_app_held (log_data : LogData.t) (s : Loop) :
  held R s (resolve_app eng applist log_data s).
Proof.
  unfold resolve_app. destruct (parser_app (log_parser s)); [stage|].
  destruct (LogData.apptag log_data) as [apptag|]; [|stage].
  apply held_attempt. intros [a|l] Htag; [stage|].
  destruct l as [|a0 more]; [stage|].
  destruct (_ || _); [stage|].
  apply held_attempt. intros [found s'] Hc. apply try_candidates_held in Hc.
  apply (held_from s s'); [eapply (keeps_trans eng R HR); [|exact Hc]; keep|].
  destruct found; stage.
Qed.

Lemma apply_rules_held (line : string) (log_match : LogMatch)
    (log_data : LogData.t) (s : Loop) :
  held R s (apply_rules eng line log_match log_data s).
Proof.
  unfold apply_rules. destruct (app s) as [a|]; [|done].
  apply held_attempt. intros s1 Hc. apply count_line_held in Hc.
  apply (held_from s s1 _ Hc). clear Hc s.
  destruct (use_rules eng && _); [|stage].
  apply held_attempt. intros [[rule_match map_dict] s] Hrun.
  apply run_process_held in Hrun. apply (held_from s1 s _ Hrun). clear Hrun s1.
  cbv zeta.
  repeat first
    [ match goal with
      | |- held R _ (attempt (note_event_time eng ?s0) _) =>
          let Hn := fresh "Hn" in
          apply held_attempt; intros ? Hn; apply note_event_time_held in Hn;
          exact Hn
      | |- held R _ (attempt (cache_line ?a ?l ?th ?s0) _) =>
          let Hc := fresh "Hc" in
          apply held_attempt; intros ? Hc; apply cache_line_held in Hc;
          apply (held_from _ _ _ Hc)
      | |- held R _ (attempt _ _) => apply held_attempt; intros
      | |- held R _ (match ?x with _ => _ end) => destruct x eqn:?
      | |- held R _ (if ?x then _ else _) => destruct x eqn:?
      | |- held R _ (Continue _) => cbv beta iota delta [held]; keep
      end ].
Qed.

Lemma dispatch_held (line : string) (log_data : LogData.t) (s : Loop) :
  held R s (dispatch eng logfile applist line log_data s).
Proof.
  unfold dispatch. apply held_attempt. intros s' Hs'.
  assert (Hk : R s s').
  { destruct (thread eng).
    - destruct (_ =? 0); [by apply flush_old_held in Hs'|]. injection Hs' as <-. keep.
    - injection Hs' as <-. destruct (send_selected eng); keep. }
  by destruct (max_count_reached _ _).
Qed.

(** The body of the loop after the line is parsed. *)
Lemma body_held (line : string) (log_match : LogMatch) (log_data : LogData.t)
    (s : Loop) :
  held R s
    (and_then (repeat_line eng line log_data s) (fun _ s =>
     and_then (check_time eng logfile log_data s) (fun _ s =>
     and_then (check_host eng log_data s) (fun _ s =>
     and_then (check_patterns eng line s) (fun _ s =>
     and_then (resolve_app eng applist log_data s) (fun _ s =>
     and_then (apply_rules eng line log_match log_data s) (fun line s =>
     dispatch eng logfile applist line log_data s))))))).
Proof.
  apply held_and_then; [apply repeat_line_held|]. intros _ s1.
  apply held_and_then; [apply check_time_held|]. intros _ s2.
  apply held_and_then; [apply check_host_held|]. intros _ s3.
  apply held_and_then; [apply check_patterns_held|]. intros _ s4.
  apply held_and_then; [apply resolve_app_held|]. intros _ s5.
  apply held_and_then; [apply apply_rules_held|]. intros line' s6.
  apply dispatch_held.
Qed.

(** Lines 132-306, after the line is parsed. *)
Lemma selection_held (line : string) (log_match : LogMatch) (log_data : LogData.t)
    (s : Loop) :
  held R s
    (and_then (repeat_line eng line log_data s) (fun _ s =>
     and_then (check_time eng logfile log_data s) (fun _ s =>
     and_then (check_host eng log_data s) (fun _ s =>
     and_then (check_patterns eng line s) (fun _ s =>
     and_then (resolve_app eng applist log_data s) (fun _ s =>
     and_then (apply_rules eng line log_match log_data s) (fun line s =>
     Next (line, log_data) s))))))).
Proof.
  apply held_and_then; [apply repeat_line_held|]. intros _ s1.
  apply held_and_then; [apply check_time_held|]. intros _ s2.
  apply held_and_then; [apply check_host_held|]. intros _ s3.
  apply held_and_then; [apply check_patterns_held|]. intros _ s4.
  apply held_and_then; [apply resolve_app_held|]. intros _ s5.
  apply held_and_then; [apply apply_rules_held|]. intros line' s6.
  apply (keeps_refl eng R HR).
Qed.

(** [step], with the line parsed. *)
Lemma step_parsed (line : string) (s : Loop) :
  step eng logfile applist line s
  = and_then (parse_line line s) (fun '(log_match, log_data) s =>
    and_then (repeat_line eng line log_data s) (fun _ s =>
    and_then (check_time eng logfile log_data s) (fun _ s =>
    and_then (check_host eng log_data s) (fun _ s =>
    and_then (check_patterns eng line s) (fun _ s =>
    and_then (resolve_app eng applist log_data s) (fun _ s =>
    and_then (apply_rules eng line log_match log_data s) (fun line s =>
    dispatch eng logfile applist line log_data s))))))).
Proof.
  unfold step, examine.
  destruct (parse_line line s) as [[log_match log_data] s1| | |]; simpl; try done.
  destruct (repeat_line _ _ _ _) as [? s2| | |]; simpl; try done.
  destruct (check_time _ _ _ _) as [? s3| | |]; simpl; try done.
  destruct (check_host _ _ _) as [? s4| | |]; simpl; try done.
  destruct (check_patterns _ _ _) as [? s5| | |]; simpl; try done.
  destruct (resolve_app _ _ _ _) as [? s6| | |]; simpl; try done.
  by destruct (apply_rules _ _ _ _ _) as [? s7| | |].
Qed.

Hypothesis HP : keeps_parsing R.

Lemma parse_line_held (line : string) (s : Loop) : held R s (parse_line line s).
Proof.
  unfold parse_line. cbv zeta.
  assert (Hl : R s (set_line_counter (line_counter s + 1) s))
    by apply (keeps_line_counter R HP).
  apply (held_from _ _ _ Hl).
  destruct (parser_match _ line); [cbv beta iota delta [held]; keep|].
  destruct (detect _ line) as [[[p lm]|] ps]; cbv beta iota delta [held].
  - eapply (keeps_trans eng R HR); [apply (keeps_parsers R HP)|].
    apply (keeps_log_parser R HP).
  - eapply (keeps_trans eng R HR); [apply (keeps_parsers R HP)|].
    apply (keeps_unparsed_counter R HP).
Qed.

Lemma step_held (line : string) (s : Loop) :
  held R s (step eng logfile applist line s).
Proof.
  rewrite step_parsed. apply held_and_then; [apply parse_line_held|].
  intros [log_match log_data] s1. apply body_held.
Qed.

Lemma scan_held (ls : list string) (s : Loop) :
  held R s (scan eng logfile applist ls s).
Proof.
  revert s. induction ls as [|line ls IH]; intros s; simpl; [keep|].
  pose proof (step_held line s) as Hstep.
  destruct (step eng logfile applist line s) as [x s'|s'|s'|e]; simpl in *; try done;
    by apply (held_from s s').
Qed.

Lemma process_logfile_held (s s' : Loop) :
  process_logfile eng logfile applist s = Ok s' -> R s s'.
Proof.
  unfold process_logfile. pose proof (scan_held (lines logfile) s) as Hscan.
  intros Hrun. apply bind_Ok_inv in Hrun as (s1 & Hs1 & Hrun).
  apply bind_Ok_inv in Hrun as (s2 & Hs2 & [= <-]).
  assert (H1 : R s s1).
  { destruct (scan _ _ _ _ _) as [x s0|s0|s0|e]; simpl in *; congruence. }
  assert (H2 : R s1 s2).
  { destruct (thread eng); [by apply flush_all_held in Hs2|]. injection Hs2 as <-. keep. }
  eapply (keeps_trans eng R HR); [exact H1|].
  eapply (keeps_trans eng R HR); [exact H2|]. destruct (count eng); keep.
Qed.

End Stages.

(** ** The counters of lines *)

Section Counters.
Context `{Externals} `{Collaborators}.
Variable eng : Matcher.Engine.
Variable logfile : Matcher.LogFile.
Variable applist : list AppRef.

Import Matcher.

Lemma same_counters_keeps : keeps eng same_counters.
Proof.
  constructor; unfold same_counters; try (intros; split; reflexivity).
  intros s1 s2 s3 [? ?] [? ?]. split; congruence.
Qed.

Lemma parse_line_counts (line : string) (s : Loop) :
  match parse_line line s with
  | Next _ s' =>
      line_counter s' = line_counter s + 1 /\ unparsed_counter s' = unparsed_counter s
  | Continue s' =>
      line_counter s' = line_counter s + 1
      /\ unparsed_counter s' = unparsed_counter s + 1
  | Break _ | Throw _ => False
  end.
Proof.
  unfold parse_line. destruct (parser_match _ line); [by split|].
  destruct (detect _ line) as [[[p lm]|] ps]; by split.
Qed.

Lemma examine_counts (line : string) (s : Loop) :
  match examine eng logfile applist line s with
  | Next _ s' | Continue s' | Break s' =>
      line_counter s' = line_counter s + 1
      /\ unparsed_counter s <= unparsed_counter s' <= unparsed_counter s + 1
  | Throw _ => True
  end.
Proof.
  unfold examine. pose proof (parse_line_counts line s) as Hparse.
  destruct (parse_line line s) as [[log_match log_data] s1|s1| |]; try done.
  - pose proof (selection_held eng logfile applist same_counters same_counters_keeps
                  line log_match log_data s1) as Hrest.
    cbn [and_then] in *.
    destruct (and_then (repeat_line eng line log_data s1) _) as [x s'|s'|s'|e];
      cbn [held] in Hrest; try done; destruct Hparse, Hrest; split; lia.
  - simpl. lia.
Qed.

Lemma dispatch_counts (line : string) (log_data : LogData.t) (s : Loop) :
  held same_counters s (dispatch eng logfile applist line log_data s).
Proof. apply dispatch_held, same_counters_keeps. Qed.

Lemma step_counts (line : string) (s : Loop) :
  match step eng logfile applist line s with
  | Next _ s' | Continue s' | Break s' =>
      line_counter s' = line_counter s + 1
      /\ unparsed_counter s <= unparsed_counter s' <= unparsed_counter s + 1
  | Throw _ => True
  end.
Proof.
  rewrite step_examine. pose proof (examine_counts line s) as Hex.
  destruct (examine eng logfile applist line s) as [[line' log_data] s1|s1|s1|e];
    try done.
  pose proof (dispatch_counts line' log_data s1) as Hd.
  destruct (dispatch eng logfile applist line' log_data s1) as [x s'|s'|s'|e];
    cbn [held] in Hd; try done; destruct Hd; lia.
Qed.

Lemma scan_counts (ls : list string) (s : Loop) :
  match scan eng logfile applist ls s with
  | Next _ _ => False
  | Continue s' =>
      line_counter s' = line_counter s + Z.of_nat (length ls)
      /\ unparsed_counter s <= unparsed_counter s'
      /\ unparsed_counter s' - unparsed_counter s <= Z.of_nat (length ls)
  | Break s' =>
      line_counter s < line_counter s' <= line_counter s + Z.of_nat (length ls)
      /\ unparsed_counter s <= unparsed_counter s'
      /\ unparsed_counter s' - unparsed_counter s <= line_counter s' - line_counter s
  | Throw _ => True
  end.
Proof.
  revert s. induction ls as [|line ls IH]; intros s; simpl; [lia|].
  pose proof (step_counts line s) as Hstep.
  destruct (step eng logfile applist line s) as [x s1|s1|s1|e]; try done.
  - specialize (IH s1). destruct (scan eng logfile applist ls s1); try done; lia.
  - specialize (IH s1). destruct (scan eng logfile applist ls s1); try done; lia.
  - lia.
Qed.

(** X13.  The counters that [process_logfile] returns (lines 114-127): the
    line counter is the number of lines read, the whole file when the
    loop is not left early, and the counter of unparsed lines is at
    most the line counter. *)
Theorem lines_counted (ps : Parsers) (hs : gset string)
    (aps : gmap string AppLogParser.t) (cs : gmap string Cache) (out : list Event)
    (s' : Loop) :
  let s0 := start ps hs aps cs out in
  process_logfile eng logfile applist s0 = Ok s' ->
  0 <= unparsed_counter s' <= line_counter s'
  /\ line_counter s' <= Z.of_nat (length (lines logfile))
  /\ (forall s1, scan eng logfile applist (lines logfile) s0 = Continue s1 ->
                 line_counter s' = Z.of_nat (length (lines logfile))).
Proof.
  intros s0 Hrun. unfold process_logfile in Hrun.
  apply bind_Ok_inv in Hrun as (s1 & Hs1 & Hrun).
  apply bind_Ok_inv in Hrun as (s2 & Hs2 & [= <-]).
  assert (Hzero : line_counter s0 = 0 /\ unparsed_counter s0 = 0).
  { subst s0. unfold start. by destruct (next_parser ps). }
  assert (H12 : same_counters s1 s2).
  { destruct (thread eng).
    - by apply (flush_all_held eng same_counters same_counters_keeps) in Hs2.
    - by injection Hs2 as <-. }
  assert (H2 : same_counters s1 (if count eng
                                 then set_sent (sent s2 ++ [CountEvent (logfile_name logfile)
                                                              (matching_counter s2)]) s2
                                 else s2)).
  { by destruct (count eng). }
  destruct H2 as [-> ->]. clear H12 Hs2.
  pose proof (scan_counts (lines logfile) s0) as Hscan.
  destruct (scan eng logfile applist (lines logfile) s0) as [x s|s|s|e];
    simpl in Hs1; try done; injection Hs1 as <-.
  - split; [lia|]. split; [lia|]. intros s1 [= <-]. lia.
  - split; [lia|]. split; [lia|]. intros s1 [=].
Qed.

End Counters.

(** ** The host names and the tags that a run gathers *)

Section Gathering.
Context `{Externals} `{Collaborators}.
Variable eng : Matcher.Engine.
Variable logfile : Matcher.LogFile.
Variable applist : list AppRef.

Import Matcher.

Lemma gathered_keeps : keeps eng (gathered eng).
Proof.
  constructor; unfold gathered;
    try (intros; simpl; repeat split; (done || by left)).
  - intros s1 s2 s3 (Hh & Hh' & Ht & Ht') (Hk & Hk' & Hu & Hu').
    split; [set_solver|]. split; [|split; [set_solver|]].
    + intros h Hin. destruct (Hk' h Hin) as [Hin2|]; [|by right]. by apply Hh'.
    + intros t Hin. destruct (Hu' t Hin) as [Hin2|]; [|by right]. by apply Ht'.
  - intros hostname s Hm. simpl. split; [set_solver|]. split; [|by split; [|left]].
    intros h Hin. apply elem_of_union in Hin as [Hin|Hin]; [|by left].
    apply elem_of_singleton in Hin as ->. by right.
  - intros apptag s Hu. simpl. split; [done|]. split; [by left|]. split; [set_solver|].
    intros t Hin. apply elem_of_union in Hin as [Hin|Hin]; [|by left].
    apply elem_of_singleton in Hin as ->. by right.
Qed.

Lemma gathered_parsing : keeps_parsing (gathered eng).
Proof. constructor; unfold gathered; intros; simpl; repeat split; (done || by left). Qed.

(** X14.  The set of host names that the runs share (lines 193-202) only
    grows, and whatever a run of [process_logfile] adds to it is a host
    name that one of the host patterns matches. *)
Theorem hostset_grows (s s' : Loop) :
  process_logfile eng logfile applist s = Ok s' ->
  hostset s ⊆ hostset s'
  /\ forall hostname, hostname ∈ hostset s' ->
       hostname ∈ hostset s \/ host_matched eng hostname.
Proof.
  intros Hrun.
  apply (process_logfile_held eng logfile applist _ gathered_keeps gathered_parsing)
    in Hrun as (? & ? & _). by split.
Qed.

(** X15.  The extra tags that [process_logfile] returns (lines 239-243) are
    tags for which the tag map gives no application. *)
Theorem extra_tags_unknown (ps : Parsers) (hs : gset string)
    (aps : gmap string AppLogParser.t) (cs : gmap string Cache) (out : list Event)
    (s' : Loop) (apptag : string) :
  process_logfile eng logfile applist (start ps hs aps cs out) = Ok s' ->
  apptag ∈ extra_tags s' ->
  unknown_tag eng apptag.
Proof.
  intros Hrun Hin.
  apply (process_logfile_held eng logfile applist _ gathered_keeps gathered_parsing)
    in Hrun as (_ & _ & _ & Htags).
  destruct (Htags apptag Hin) as [Hstart|]; [|done].
  unfold start in Hstart. destruct (next_parser ps). simpl in Hstart. set_solver.
Qed.

End Gathering.

(** ** What is sent, and when *)

Section Sending.
Context `{Externals} `{Collaborators}.
Variable logfile : Matcher.LogFile.
Variable applist : list AppRef.

Import Matcher.



(** *** Thread mode *)

Lemma repeat_line_thread (eng : Engine) (line : string) (log_data : LogData.t)
    (s : Loop) :
  thread eng = true ->
  match repeat_line eng line log_data s with
  | Next _ s' | Continue s' => kept s s'
  | Break _ => False
  | Throw _ => True
  end.
Proof.
  intros Hth. unfold repeat_line. rewrite Hth.
  destruct (LogData.repeat log_data) as [rep|]; [|by split].
  destruct (prev_data s) as [prev|].
  - destruct (py_int rep) as [n|]; simpl; [|done].
    destruct (use_rules eng); [|by split].
    destruct (previous_entry eng _) as [entry|]; simpl; [|done].
    destruct (as_application entry) as [a|]; simpl; [|done].
    destruct (the_app _ a) as [o|]; simpl; [|done].
    destruct (AppLogParser.increase_last n o) as [o'|]; simpl; [|done].
    destruct (count_line a _) as [s1|] eqn:Hc; simpl; [|done].
    apply count_line_kept in Hc as [Hs Hm]. simpl in Hs, Hm.
    destruct (app_thread s1) as [th|].
    + destruct (cache_line a line (Some th) s1) as [s2|] eqn:Hcl; simpl; [|done].
      apply cache_line_kept in Hcl as [[Hs2 Hm2] _]. split; simpl; congruence.
    + simpl. by split.
  - destruct (app s) as [a|]; [|by split].
    destruct (count_line a s) as [s1|] eqn:Hc; simpl; [|done].
    by apply count_line_kept in Hc.
Qed.

Lemma examine_thread (eng : Engine) (line : string) (s : Loop) :
  thread eng = true ->
  match examine eng logfile applist line s with
  | Next _ s' | Continue s' | Break s' => kept s s'
  | Throw _ => True
  end.
Proof.
  intros Hth. unfold examine. pose proof (parse_line_frame line s) as Hparse.
  destruct (parse_line line s) as [[log_match log_data] s1|s1| |]; simpl; try done;
    [|by destruct Hparse].
  destruct Hparse as [Hk1 _].
  pose proof (repeat_line_thread eng line log_data s1 Hth) as Hrep.
  destruct (repeat_line eng line log_data s1) as [[] s2|s2| |]; simpl; try done;
    [|by apply (kept_trans s s1 s2)].
  pose proof (selection_settled eng logfile applist line log_match log_data s2) as Hsel.
  assert (Hk2 : kept s s2) by by apply (kept_trans s s1 s2).
  destruct (and_then (check_time _ _ _ _) _) as [x s3|s3|s3|e]; simpl in *; try done.
  - by apply (kept_trans s s2 s3).
  - destruct Hsel as [Hk3 _]. by apply (kept_trans s s2 s3).
  - by apply (kept_trans s s2 s3).
Qed.

(** X17.  In thread mode no line is sent as it is read (lines 311-316): a
    line whose number is not a multiple of [PURGE_THREADS_LIMIT] sends
    nothing and leaves the counter of matches as it is, whatever the
    line; what is sent comes out of the caches of the threads. *)
Theorem thread_lines_buffered (eng : Engine) (line : string) (s : Loop) :
  thread eng = true ->
  (line_counter s + 1) `mod` PURGE_THREADS_LIMIT <> 0 ->
  match step eng logfile applist line s with
  | Next _ s' | Continue s' | Break s' =>
      sent s' = sent s /\ matching_counter s' = matching_counter s
  | Throw _ => True
  end.
Proof.
  intros Hth Hmod. rewrite step_examine.
  pose proof (examine_thread eng line s Hth) as Hex.
  pose proof (examine_counts eng logfile applist line s) as Hc.
  destruct (examine eng logfile applist line s) as [[line' log_data] s1|s1|s1|e];
    try done.
  destruct Hc as [Hc _]. unfold dispatch. rewrite Hth, Hc.
  apply Z.eqb_neq in Hmod. rewrite Hmod. simpl.
  by destruct (max_count_reached _ _).
Qed.

(** *** Inverted search without patterns *)

Lemma check_patterns_inverted (eng : Engine) (line : string) (s : Loop) :
  invert eng = true -> patterns eng = [] -> thread eng = false ->
  exists s', check_patterns eng line s = Continue s'.
Proof.
  intros Hinv Hpat Hth. unfold check_patterns. rewrite Hpat, Hinv, Hth. eauto.
Qed.

Lemma examine_inverted (eng : Engine) (line : string) (s : Loop) :
  invert eng = true -> patterns eng = [] -> thread eng = false ->
  ~ matches_line eng logfile applist line s.
Proof.
  intros Hinv Hpat Hth ([line' log_data] & s' & Hex). unfold examine in Hex.
  destruct (parse_line line s) as [[log_match ld] s1| | |]; simpl in Hex; try done.
  destruct (repeat_line eng line ld s1) as [? s2| | |]; simpl in Hex; try done.
  destruct (check_time eng logfile ld s2) as [? s3| | |]; simpl in Hex; try done.
  destruct (check_host eng ld s3) as [? s4| | |]; simpl in Hex; try done.
  destruct (check_patterns_inverted eng line s4 Hinv Hpat Hth) as [s5 Hcp].
  by rewrite Hcp in Hex.
Qed.

(** X18.  With the invert option and no pattern, in non-thread mode (lines
    216-220), no line is a matching line: a run of [process_logfile]
    counts no match and sends no line. *)
Theorem invert_without_patterns (eng : Engine) (ps : Parsers) (hs : gset string)
    (aps : gmap string AppLogParser.t) (cs : gmap string Cache) (out : list Event)
    (s' : Loop) :
  invert eng = true -> patterns eng = [] -> thread eng = false ->
  process_logfile eng logfile applist (start ps hs aps cs out) = Ok s' ->
  (forall line s, ~ matches_line eng logfile applist line s)
  /\ matching_counter s' = 0
  /\ sent s' = out ++ (if count eng then [CountEvent (logfile_name logfile) 0] else []).
Proof.
  intros Hinv Hpat Hth Hrun.
  split; [intros line s; by apply examine_inverted|].
  assert (Hscan : forall ls s,
             prev_data s = None ->
             match scan eng logfile applist ls s with
             | Next _ s1 | Continue s1 | Break s1 =>
                 matching_counter s1 = matching_counter s /\ sent s1 = sent s
             | Throw _ => True
             end).
  { induction ls as [|line ls IH]; intros s Hprev; simpl; [done|].
    rewrite step_examine.
    pose proof (examine_frame eng logfile applist line s) as Hex.
    pose proof (examine_inverted eng line s Hinv Hpat Hth) as Hno.
    unfold matches_line in Hno.
    destruct (examine eng logfile applist line s) as [x s1|s1|s1|e]; try done.
    - exfalso. apply Hno. eauto.
    - destruct Hex as (Hs & Hnone & _). destruct (Hnone Hprev) as [Hp Hm].
      specialize (IH s1 Hp).
      destruct (scan eng logfile applist ls s1); try done; destruct IH; split; congruence.
    - destruct Hex as [Hs Hm]. by split. }
  destruct (start_fresh ps hs aps cs out) as (Hp0 & Hm0 & Hs0).
  specialize (Hscan (lines logfile) _ Hp0).
  unfold process_logfile in Hrun. rewrite Hth in Hrun.
  destruct (scan eng logfile applist (lines logfile) _) as [x s1|s1|s1|e];
    simpl in Hrun; try done; injection Hrun as <-; destruct Hscan as [Hm Hs];
    destruct (count eng); simpl; rewrite ?Hm, ?Hs, ?Hm0, ?Hs0, ?app_nil_r; by split.
Qed.

End Sending.

(** ** The time of the events *)

Lemma MONTHMAP_numbers (month mm : string) :
  Py.dict_get month Matcher.MONTHMAP = Some mm ->
  Py.dict_get mm Matcher.MONTHMAP = Some mm.
Proof.
  unfold Matcher.MONTHMAP, Py.dict_get. intros Hm.
  repeat match type of Hm with
         | (if decide (?a = month) then _ else _) = _ =>
             destruct (decide (a = month)); [by injection Hm as <-|]
         end.
  discriminate.
Qed.

(** X19.  [get_mktime] (lines 46-56) reads the month through [MONTHMAP]: an
    admitted month and its number give the same time, the number of a
    month stands for itself, and a month that the map does not hold
    raises KeyError once the year is read. *)
Theorem get_mktime_month `{Externals} (year : Matcher.Year) (month day ltime : string) :
  match Py.dict_get month Matcher.MONTHMAP with
  | Some mm =>
      Py.dict_get mm Matcher.MONTHMAP = Some mm
      /\ Matcher.get_mktime year month day ltime = Matcher.get_mktime year mm day ltime
  | None =>
      forall y, Matcher.int_of_year year = Ok y ->
                Matcher.get_mktime year month day ltime = Raise KeyError
  end.
Proof.
  destruct (Py.dict_get month Matcher.MONTHMAP) as [mm|] eqn:Hm.
  - pose proof (MONTHMAP_numbers month mm Hm) as Hmm. split; [done|].
    unfold Matcher.get_mktime. by rewrite Hm, Hmm.
  - intros y Hy. unfold Matcher.get_mktime. by rewrite Hy, Hm.
Qed.

Section TimeWindow.
Context `{Externals} `{Collaborators}.
Variable eng : Matcher.Engine.
Variable logfile : Matcher.LogFile.
Variable applist : list AppRef.

Import Matcher.

(** X20.  The scope of time (lines 165-183).  Take a line that the parser
    in use reads, that is no 'message repeated' line, and whose time
    is [et].  When [et] is before the initial time, the line is
    skipped: it is counted as a line, not as a match, nothing is sent
    and the previous event is forgotten.  When [et] is after the final
    time, the scan stops there: the rest of the file is not read,
    whatever it holds. *)
Theorem time_window (line : string) (s : Loop) (log_match : LogMatch) (et : Z) :
  let log_data := get_data (log_parser s) log_match in
  parser_match (log_parser s) line = Some log_match ->
  LogData.repeat log_data = None ->
  get_mktime (year_of log_data (file_year logfile) (file_month logfile)
                      (prev_year logfile))
             (LogData.month log_data) (LogData.day log_data) (LogData.ltime log_data)
  = Ok et ->
  (et < initial_dt eng ->
   exists s', step eng logfile applist line s = Continue s'
              /\ sent s' = sent s /\ matching_counter s' = matching_counter s
              /\ line_counter s' = line_counter s + 1
              /\ prev_data s' = None /\ event_time s' = Some et)
  /\ (initial_dt eng <= et -> final_dt eng < et ->
      exists s', (forall rest, scan eng logfile applist (line :: rest) s = Break s')
                 /\ sent s' = sent s /\ matching_counter s' = matching_counter s
                 /\ line_counter s' = line_counter s + 1
                 /\ event_time s' = Some et).
Proof.
  intros log_data Hparse Hrep Htime.
  assert (Hstep : step eng logfile applist line s
                  = let s2 := set_event_time (Some et)
                                (set_prev_data (Some log_data)
                                   (set_line_counter (line_counter s + 1) s)) in
                    if et <? initial_dt eng then Continue (set_prev_data None s2)
                    else if final_dt eng <? et then Break s2
                    else step eng logfile applist line s).
  { destruct (et <? initial_dt eng) eqn:Hlo; [|destruct (final_dt eng <? et) eqn:Hhi];
      [| |done].
    - unfold step, examine, parse_line. cbv zeta. simpl. rewrite Hparse. simpl.
      fold log_data. unfold repeat_line. rewrite Hrep. simpl.
      unfold check_time. simpl. rewrite Htime. simpl. by rewrite Hlo.
    - unfold step, examine, parse_line. cbv zeta. simpl. rewrite Hparse. simpl.
      fold log_data. unfold repeat_line. rewrite Hrep. simpl.
      unfold check_time. simpl. rewrite Htime. simpl. by rewrite Hlo, Hhi. }
  cbv zeta in Hstep. split.
  - intros Hlo. apply Z.ltb_lt in Hlo. rewrite Hlo in Hstep.
    eexists. split; [exact Hstep|]. by repeat split.
  - intros Hlo Hhi. apply Z.ltb_ge in Hlo. apply Z.ltb_lt in Hhi.
    rewrite Hlo, Hhi in Hstep. eexists. split.
    + intros rest. simpl. rewrite Hstep. reflexivity.
    + by repeat split.
Qed.

End TimeWindow.

(** * The properties above, in the concrete setting *)

Section ReportExamples.
#[local] Existing Instance DemoReport.externals.
#[local] Existing Instance DemoReport.conditions.

Lemma total_events_complement_witness :
  let r := DemoReport.users_rule in
  DemoReport.user_is_a <> "*" /\ DemoReport.user_is_not_a <> "*"
  /\ search_cond DemoReport.user_is_a = Some ("user", "==", "^a")
  /\ search_cond DemoReport.user_is_not_a = Some ("user", "!=", "^a")
  /\ Py.index "user" (AppRule.key_gids r) = Some 1%nat
  /\ re_compile "^a" = Some DemoReport.starts_with_a
  /\ NoDup (Py.dict_keys (AppRule.results r))
  /\ Forall (has_text 1) (Py.dict_keys (AppRule.results r))
  /\ AppRule.total_events DemoReport.user_is_a None r = Returned 7
  /\ AppRule.total_events DemoReport.user_is_not_a None r = Returned (9 - 7)
  /\ AppRule.total_events "*" None r = Returned 9.
Proof.
  intros r.
  assert (H1 : DemoReport.user_is_a <> "*") by discriminate.
  assert (H2 : DemoReport.user_is_not_a <> "*") by discriminate.
  assert (H3 : search_cond DemoReport.user_is_a = Some ("user", "==", "^a")) by reflexivity.
  assert (H4 : search_cond DemoReport.user_is_not_a = Some ("user", "!=", "^a"))
    by reflexivity.
  assert (H5 : Py.index "user" (AppRule.key_gids r) = Some 1%nat) by reflexivity.
  assert (H6 : re_compile "^a" = Some DemoReport.starts_with_a) by reflexivity.
  assert (H7 : NoDup (Py.dict_keys (AppRule.results r))).
  { apply (bool_decide_unpack _). vm_compute. reflexivity. }
  assert (H8 : Forall (has_text 1) (Py.dict_keys (AppRule.results r))).
  { repeat (apply List.Forall_cons; [eexists; reflexivity|]). apply List.Forall_nil. }
  repeat (split; [assumption|]).
  exact (total_events_complement r "user" "^a" DemoReport.user_is_a
           DemoReport.user_is_not_a 1 DemoReport.starts_with_a
           H1 H2 H3 H4 H5 H6 H7 H8).
Defined.

End ReportExamples.

Section RuleExamples.
#[local] Existing Instance Demo.externals.

Lemma top_events_ranking_witness :
  (@None string = None \/ false = false)
  /\ AppRule.top_events 2 None false "user" Demo.ranked_rule
     = Ok [(10, [Some "A"; Some "B"]); (7, [Some "C"])]
  /\ ranking [(10, [Some "A"; Some "B"]); (7, [Some "C"])]
  /\ (length [(10, [Some "A"; Some "B"]); (7, [Some "C"])] <= 2)%nat.
Proof.
  assert (H1 : @None string = None \/ false = false) by (left; reflexivity).
  assert (H2 : AppRule.top_events 2 None false "user" Demo.ranked_rule
               = Ok [(10, [Some "A"; Some "B"]); (7, [Some "C"])])
    by reflexivity.
  split; [exact H1|]. split; [exact H2|].
  exact (top_events_ranking 2 None false "user" Demo.ranked_rule _ H1 H2).
Defined.

Lemma init_without_filters_witness :
  let a := DemoRuns.plain_app in
  let opts := [("status", Demo.status_pattern)] in
  Args.filters Demo.no_args = []
  /\ AppLogParser.init "app" Demo.no_args None None [] (Some opts) [] = Ok a
  /\ AppLogParser.has_filters a = false
  /\ AppLogParser._last_rule a = None
  /\ AppLogParser.counter a = 0 /\ AppLogParser.unparsed_counter a = 0
  /\ Forall2 (fun r ov =>
                AppRule.name r = ov.1
                /\ re_compile (option_pattern [] ov.2) = Some (AppRule.regexp r)
                /\ AppRule.filter_keys r = []
                /\ AppRule.full_match r = true
                /\ AppRule.results r = []
                /\ AppRule.used_by_report r = Py.is_Some (@None Report) && bool_decide (ov.1 ∈ []))
             (AppLogParser.rules a) opts.
Proof.
  intros a opts.
  assert (H1 : Args.filters Demo.no_args = []) by reflexivity.
  assert (H2 : AppLogParser.init "app" Demo.no_args None None [] (Some opts) [] = Ok a)
    by reflexivity.
  split; [exact H1|]. split; [exact H2|].
  exact (init_without_filters "app" Demo.no_args None None [] opts [] a H1 H2).
Defined.

Lemma filter_rules_last_witness :
  let a := Demo.the_mixed_app in
  Demo.mixed_app = Ok a
  /\ AppLogParser.rules a
     = List.filter plain (AppLogParser.rules a) ++ AppLogParser.filter_rules a.
Proof.
  intros a.
  assert (H1 : Demo.mixed_app = Ok a) by reflexivity.
  split; [exact H1|].
  exact (filter_rules_last "app" Demo.thread_args None None []
           (Some [("login", Demo.login_option); ("status", Demo.status_pattern)]) []
           a H1).
Defined.

(** The application with the options [login] and [status], in this
    order: the rule [status], which has no filter keys, comes first. *)
Lemma filter_rules_last_example :
  map AppRule.name (AppLogParser.rules Demo.the_mixed_app) = ["status"; "login"]
  /\ map AppRule.name (AppLogParser.filter_rules Demo.the_mixed_app) = ["login"].
Proof. split; vm_compute; reflexivity. Qed.

Lemma process_unmatched_witness :
  let a := Demo.the_login_app in
  let logdata := Demo.event DemoRuns.unrelated in
  Forall (unmatched logdata) (AppLogParser.rules a)
  /\ exists a',
       AppLogParser.process a logdata = Ok ((false, None, None, None), a')
       /\ AppLogParser._last_rule a' = None
       /\ AppLogParser.rules a' = AppLogParser.rules a
       /\ AppLogParser.counter a' = AppLogParser.counter a
       /\ AppLogParser.unparsed_counter a'
          = AppLogParser.unparsed_counter a
            + (if AppLogParser.has_filters a then 0 else 1)
       /\ AppLogParser.increase_last 5 a' = Ok a'.
Proof.
  intros a logdata.
  assert (H1 : Forall (unmatched logdata) (AppLogParser.rules a)).
  { apply List.Forall_cons; [|apply List.Forall_nil]. vm_compute. reflexivity. }
  split; [exact H1|]. exact (process_unmatched a logdata 5 H1).
Defined.

Lemma process_frame_witness :
  let a := DemoRuns.plain_app in
  let a' := DemoRuns.after_status in
  AppLogParser.process a (Demo.event Demo.just_200)
  = Ok ((true, Some true, None, None), a')
  /\ same_application a a'
  /\ Forall2 same_rule (AppLogParser.rules a) (AppLogParser.rules a')
  /\ forall j, AppLogParser._last_rule a' <> Some j ->
               AppLogParser.rules a' !! j = AppLogParser.rules a !! j.
Proof.
  intros a a'.
  assert (H1 : AppLogParser.process a (Demo.event Demo.just_200)
               = Ok ((true, Some true, None, None), a')) by reflexivity.
  split; [exact H1|].
  exact (process_frame a (Demo.event Demo.just_200) _ a' H1).
Defined.

Lemma process_records_witness :
  let a := DemoRuns.plain_app in
  let a' := DemoRuns.after_status in
  let logdata := Demo.event Demo.just_200 in
  AppLogParser.process a logdata = Ok ((true, Some true, None, None), a')
  /\ (true = false ->
      Some true = None /\ @None string = None /\ @None MapDict = None
      /\ AppLogParser.rules a' = AppLogParser.rules a)
  /\ (true = true ->
      (exists i rule,
         AppLogParser._last_rule a' = Some i
         /\ AppLogParser.rules a !! i = Some rule
         /\ Forall (unmatched logdata) (take i (AppLogParser.rules a))
         /\ ~ unmatched logdata rule
         /\ Some true = Some (AppRule.full_match rule))
      /\ (AppLogParser._thread a = false \/ AppLogParser._report a <> None ->
          grand_total a' = grand_total a + 1)
      /\ (@None string <> None -> AppLogParser._report a = None ->
          AppLogParser.rules a' = AppLogParser.rules a)).
Proof.
  intros a a' logdata.
  assert (H1 : AppLogParser.process a logdata = Ok ((true, Some true, None, None), a'))
    by reflexivity.
  split; [exact H1|].
  exact (process_records a logdata true (Some true) None None a' H1).
Defined.

Lemma process_then_increase_last_witness :
  let a := DemoRuns.plain_app in
  let a' := DemoRuns.after_status in
  AppLogParser.process a (Demo.event Demo.just_200)
  = Ok ((true, Some true, None, None), a')
  /\ (AppLogParser._thread a = false \/ AppLogParser._report a <> None)
  /\ exists a'',
       AppLogParser.increase_last 5 a' = Ok a''
       /\ grand_total a' = grand_total a + 1
       /\ grand_total a'' = grand_total a + 1 + 5.
Proof.
  intros a a'.
  assert (H1 : AppLogParser.process a (Demo.event Demo.just_200)
               = Ok ((true, Some true, None, None), a')) by reflexivity.
  assert (H2 : AppLogParser._thread a = false \/ AppLogParser._report a <> None)
    by (left; reflexivity).
  split; [exact H1|]. split; [exact H2|].
  exact (process_then_increase_last a (Demo.event Demo.just_200) (Some true) None None
           a' 5 H1 H2).
Defined.

End RuleExamples.

Section RunExamples.
#[local] Existing Instance Demo.externals.
#[local] Existing Instance DemoMatcher.collaborators.

Lemma returns_built (r : Result Matcher.Loop) (d : Matcher.Loop) :
  DemoRuns.returns r = true -> r = Ok (Demo.built r d).
Proof. by destruct r. Defined.

Lemma lines_counted_witness :
  let eng := DemoRuns.hosts_engine in
  let logfile := DemoMatcher.messages DemoMatcher.five_lines in
  let s0 := DemoRuns.first_state in
  let s' := Demo.built (Matcher.process_logfile eng logfile ["app"] s0) s0 in
  Matcher.process_logfile eng logfile ["app"] s0 = Ok s'
  /\ 0 <= Matcher.unparsed_counter s' <= Matcher.line_counter s'
  /\ Matcher.line_counter s' <= Z.of_nat (length (Matcher.lines logfile))
  /\ (forall s1, Matcher.scan eng logfile ["app"] (Matcher.lines logfile) s0
                 = Matcher.Continue s1 ->
                 Matcher.line_counter s' = Z.of_nat (length (Matcher.lines logfile))).
Proof.
  intros eng logfile s0 s'.
  assert (H1 : Matcher.process_logfile eng logfile ["app"] s0 = Ok s').
  { exact (returns_built (Matcher.process_logfile eng logfile ["app"] DemoRuns.first_state)
             DemoRuns.first_state eq_refl). }
  split; [exact H1|].
  exact (lines_counted eng logfile ["app"] (DemoMatcher.cycle None) ∅
           (DemoMatcher.applications (DemoRuns.args_of false false false))
           DemoMatcher.empty_caches [] s' H1).
Defined.

Lemma hostset_grows_witness :
  let eng := DemoRuns.hosts_engine in
  let logfile := DemoMatcher.messages DemoMatcher.five_lines in
  let s0 := DemoRuns.first_state in
  let s' := Demo.built (Matcher.process_logfile eng logfile ["app"] s0) s0 in
  Matcher.process_logfile eng logfile ["app"] s0 = Ok s'
  /\ Matcher.hostset s0 ⊆ Matcher.hostset s'
  /\ forall hostname, hostname ∈ Matcher.hostset s' ->
       hostname ∈ Matcher.hostset s0 \/ host_matched eng hostname.
Proof.
  intros eng logfile s0 s'.
  assert (H1 : Matcher.process_logfile eng logfile ["app"] s0 = Ok s').
  { exact (returns_built (Matcher.process_logfile eng logfile ["app"] DemoRuns.first_state)
             DemoRuns.first_state eq_refl). }
  split; [exact H1|]. exact (hostset_grows eng logfile ["app"] s0 s' H1).
Defined.

(** The run with the host pattern [host1] over the five lines, which
    all come from [host1]: the host name is gathered, and the five
    lines are read and match. *)
Lemma hostset_example :
  let s' := Demo.built (DemoRuns.run DemoRuns.hosts_engine) DemoRuns.first_state in
  bool_decide ("host1" ∈ Matcher.hostset s') = true
  /\ Matcher.line_counter s' = 5
  /\ Matcher.matching_counter s' = 5.
Proof. repeat split; reflexivity. Qed.

Lemma extra_tags_unknown_witness :
  let eng := DemoRuns.untagged_engine in
  let logfile := DemoMatcher.messages DemoMatcher.five_lines in
  let s' := Demo.built (Matcher.process_logfile eng logfile ["app"] DemoRuns.first_state)
              DemoRuns.first_state in
  Matcher.process_logfile eng logfile ["app"] DemoRuns.first_state = Ok s'
  /\ "app" ∈ Matcher.extra_tags s'
  /\ unknown_tag eng "app".
Proof.
  intros eng logfile s'.
  assert (H1 : Matcher.process_logfile eng logfile ["app"] DemoRuns.first_state = Ok s').
  { exact (returns_built (Matcher.process_logfile eng logfile ["app"] DemoRuns.first_state)
             DemoRuns.first_state eq_refl). }
  assert (H2 : "app" ∈ Matcher.extra_tags s').
  { apply (bool_decide_eq_true_1 _). reflexivity. }
  split; [exact H1|]. split; [exact H2|].
  exact (extra_tags_unknown eng logfile ["app"] (DemoMatcher.cycle None) ∅
           (DemoMatcher.applications (DemoRuns.args_of false false false))
           DemoMatcher.empty_caches [] s' "app" H1 H2).
Defined.


(** The run with the count option over the five lines sends the
    count 5 and nothing else. *)
Lemma count_mode_example :
  let eng := Matcher.create_matcher_engine DemoRuns.count_obj in
  let s' := Demo.built (DemoRuns.run eng) DemoRuns.first_state in
  Matcher.matching_counter s' = 5 /\ length (Matcher.sent s') = 1%nat.
Proof. split; reflexivity. Qed.

Lemma thread_lines_buffered_witness :
  let eng := DemoRuns.thread_engine in
  let logfile := DemoMatcher.messages DemoMatcher.five_lines in
  let s := DemoRuns.first_state in
  Matcher.thread eng = true
  /\ (Matcher.line_counter s + 1) `mod` Matcher.PURGE_THREADS_LIMIT <> 0
  /\ match Matcher.step eng logfile ["app"] DemoMatcher.line1 s with
     | Matcher.Next _ s' | Matcher.Continue s' | Matcher.Break s' =>
         Matcher.sent s' = Matcher.sent s
         /\ Matcher.matching_counter s' = Matcher.matching_counter s
     | Matcher.Throw _ => True
     end.
Proof.
  intros eng logfile s.
  assert (H1 : Matcher.thread eng = true) by reflexivity.
  assert (H2 : (Matcher.line_counter s + 1) `mod` Matcher.PURGE_THREADS_LIMIT <> 0)
    by (vm_compute; discriminate).
  split; [exact H1|]. split; [exact H2|].
  exact (thread_lines_buffered logfile ["app"] eng DemoMatcher.line1 s H1 H2).
Defined.

Lemma invert_without_patterns_witness :
  let eng := DemoRuns.inverted_engine in
  let logfile := DemoMatcher.messages DemoMatcher.five_lines in
  let s' := Demo.built (Matcher.process_logfile eng logfile ["app"] DemoRuns.first_state)
              DemoRuns.first_state in
  Matcher.invert eng = true /\ Matcher.patterns eng = [] /\ Matcher.thread eng = false
  /\ Matcher.process_logfile eng logfile ["app"] DemoRuns.first_state = Ok s'
  /\ (forall line s, ~ matches_line eng logfile ["app"] line s)
  /\ Matcher.matching_counter s' = 0
  /\ Matcher.sent s'
     = [] ++ (if Matcher.count eng
              then [CountEvent (Matcher.logfile_name logfile) 0] else []).
Proof.
  intros eng logfile s'.
  assert (H1 : Matcher.invert eng = true) by reflexivity.
  assert (H2 : Matcher.patterns eng = []) by reflexivity.
  assert (H3 : Matcher.thread eng = false) by reflexivity.
  assert (H4 : Matcher.process_logfile eng logfile ["app"] DemoRuns.first_state = Ok s').
  { exact (returns_built (Matcher.process_logfile eng logfile ["app"] DemoRuns.first_state)
             DemoRuns.first_state eq_refl). }
  repeat (split; [assumption|]).
  exact (invert_without_patterns logfile ["app"] eng (DemoMatcher.cycle None) ∅
           (DemoMatcher.applications (DemoRuns.args_of false false false))
           DemoMatcher.empty_caches [] s' H1 H2 H3 H4).
Defined.

Lemma time_window_witness :
  let eng := DemoRuns.past_engine in
  let logfile := DemoMatcher.messages DemoMatcher.five_lines in
  let s := DemoRuns.first_state in
  let line := DemoMatcher.line1 in
  let log_match := DemoMatcher.syslog_event "10:00:00" "host1" "app" Demo.alice_200 in
  let log_data := get_data (Matcher.log_parser s) log_match in
  let et := DemoRuns.time_of_line1 in
  parser_match (Matcher.log_parser s) line = Some log_match
  /\ LogData.repeat log_data = None
  /\ Matcher.get_mktime
       (Matcher.year_of log_data (Matcher.file_year logfile) (Matcher.file_month logfile)
          (Matcher.prev_year logfile))
       (LogData.month log_data) (LogData.day log_data) (LogData.ltime log_data)
     = Ok et
  /\ (et < Matcher.initial_dt eng ->
      exists s', Matcher.step eng logfile ["app"] line s = Matcher.Continue s'
                 /\ Matcher.sent s' = Matcher.sent s
                 /\ Matcher.matching_counter s' = Matcher.matching_counter s
                 /\ Matcher.line_counter s' = Matcher.line_counter s + 1
                 /\ Matcher.prev_data s' = None /\ Matcher.event_time s' = Some et)
  /\ (Matcher.initial_dt eng <= et -> Matcher.final_dt eng < et ->
      exists s', (forall rest, Matcher.scan eng logfile ["app"] (line :: rest) s
                               = Matcher.Break s')
                 /\ Matcher.sent s' = Matcher.sent s
                 /\ Matcher.matching_counter s' = Matcher.matching_counter s
                 /\ Matcher.line_counter s' = Matcher.line_counter s + 1
                 /\ Matcher.event_time s' = Some et).
Proof.
  intros eng logfile s line log_match log_data et.
  assert (H1 : parser_match (Matcher.log_parser s) line = Some log_match) by reflexivity.
  assert (H2 : LogData.repeat log_data = None) by reflexivity.
  assert (H3 : Matcher.get_mktime
                 (Matcher.year_of log_data (Matcher.file_year logfile)
                    (Matcher.file_month logfile) (Matcher.prev_year logfile))
                 (LogData.month log_data) (LogData.day log_data)
                 (LogData.ltime log_data)
               = Ok et) by reflexivity.
  split; [exact H1|]. split; [exact H2|]. split; [exact H3|].
  exact (time_window eng logfile ["app"] line s log_match et H1 H2 H3).
Defined.

(** The first of the five lines is after the end of the year 2015:
    the scan of the file stops at it, with one line read and none
    matched. *)
Lemma time_window_example :
  let run := Matcher.scan DemoRuns.past_engine
               (DemoMatcher.messages DemoMatcher.five_lines) ["app"]
               DemoMatcher.five_lines DemoRuns.first_state in
  let s' := DemoMatcher.final run DemoRuns.first_state in
  Matcher.final_dt DemoRuns.past_engine < DemoRuns.time_of_line1
  /\ DemoMatcher.left_early run = true
  /\ Matcher.line_counter s' = 1
  /\ Matcher.matching_counter s' = 0.
Proof. repeat split; reflexivity. Qed.

End RunExamples.
